(** * Order / payment transaction engine

    A shallow embedding of the order and payment core of the e-commerce
    backend ([app/models], [app/services/order_service.py],
    [app/services/payment_service.py], [app/payment_providers]) together
    with the properties stated about it.

    Conventions.
    - Python [int] is [Z] (unbounded).
    - [Numeric(10, 2)] columns hold exact multiples of 0.01; an amount is
      the integer number of hundredths, so [Decimal * int] and [+] are
      the operations of [Z].
    - Python dictionaries with string keys that travel between the
      adapters and the services (payloads, adapter results) are values of
      [json].
    - A SQLAlchemy session is a pair of stores: the rows as committed and
      the rows as the session sees them; services are written in a state
      and exception monad over it. *)

From stdpp Require Import gmap strings list fin_maps pretty.
From Stdlib Require Import ZArith Lia Ascii.

Open Scope string_scope.
Open Scope list_scope.
Open Scope Z_scope.

(** ** Python values *)

#[warnings="-register-all"]
Inductive json : Type :=
  | JNull
  | JBool (b : bool)
  | JInt (n : Z)
  | JStr (s : string)
  | JList (l : list json)
  | JDict (d : list (string * json)).

(** [bool(v)] *)
Definition truthy (v : json) : bool :=
  match v with
  | JNull => false
  | JBool b => b
  | JInt n => negb (n =? 0)
  | JStr s => negb (bool_decide (s = ""))
  | JList l => match l with [] => false | _ => true end
  | JDict d => match d with [] => false | _ => true end
  end.

(** [v == s] for a string literal [s] *)
Definition eq_str (v : json) (s : string) : bool :=
  match v with
  | JStr s' => bool_decide (s' = s)
  | _ => false
  end.

Fixpoint assoc (k : string) (d : list (string * json)) : option json :=
  match d with
  | [] => None
  | (k', v) :: d' => if bool_decide (k' = k) then Some v else assoc k d'
  end.

(** [True if truthy user_id] for [user_id: int = None] *)
Definition truthy_id (user_id : option Z) : bool :=
  match user_id with
  | None => false
  | Some n => negb (n =? 0)
  end.

(** ** Exceptions *)

Inductive error : Type :=
  | HTTPException (status_code : Z) (detail : json)
  | ValueError (msg : string)
  | AttributeError (msg : string)
  | TypeError (msg : string)
  | KeyError (key : string)
  | DBAPIError (msg : string).

Definition HTTP_400_BAD_REQUEST : Z := 400.
Definition HTTP_404_NOT_FOUND : Z := 404.

Inductive result (A : Type) : Type :=
  | Ok (a : A)
  | Raise (e : error).
Arguments Ok {A} a.
Arguments Raise {A} e.

(** [type(v).__name__], as it appears in the message of an
    [AttributeError] *)
Definition type_name (v : json) : string :=
  match v with
  | JNull => "NoneType"
  | JBool _ => "bool"
  | JInt _ => "int"
  | JStr _ => "str"
  | JList _ => "list"
  | JDict _ => "dict"
  end.

Definition no_attribute (v : json) (attr : string) : error :=
  AttributeError ("'" +:+ type_name v +:+ "' object has no attribute '" +:+ attr +:+ "'").

(** [d.get(k, default)]; calling [.get] on a value that is not a
    dictionary raises [AttributeError]. *)
Definition py_get_default (d : json) (k : string) (default : json) : result json :=
  match d with
  | JDict kvs => Ok (match assoc k kvs with Some v => v | None => default end)
  | _ => Raise (no_attribute d "get")
  end.

Definition py_get (d : json) (k : string) : result json :=
  py_get_default d k JNull.

(** [d[k]] with a string key: [KeyError] on a dictionary without the key,
    [TypeError] on anything that is not a dictionary. *)
Definition py_item (d : json) (k : string) : result json :=
  match d with
  | JDict kvs => match assoc k kvs with Some v => Ok v | None => Raise (KeyError k) end
  | JStr _ => Raise (TypeError "string indices must be integers, not 'str'")
  | JList _ => Raise (TypeError "list indices must be integers or slices, not str")
  | _ => Raise (TypeError ("'" +:+ type_name d +:+ "' object is not subscriptable"))
  end.

(** [{**d1, **d2}]: keys of [d2] replace equal keys of [d1] in place,
    new keys are appended in order. *)
Fixpoint dict_set (k : string) (v : json) (d : list (string * json)) : list (string * json) :=
  match d with
  | [] => [(k, v)]
  | (k', v') :: d' =>
      if bool_decide (k' = k) then (k, v) :: d' else (k', v') :: dict_set k v d'
  end.

Definition dict_update (d1 d2 : list (string * json)) : list (string * json) :=
  foldl (fun acc kv => dict_set kv.1 kv.2 acc) d1 d2.

(** ** Models *)

(** [app/models/product.py] *)
Module ProductStatus.
Inductive t : Set := ACTIVE | INACTIVE.
#[global] Instance eq_dec : EqDecision t.
Proof. solve_decision. Defined.
End ProductStatus.

Module Product.
Record t : Type := mk {
  name : string;
  price : Z;              (* Numeric(10, 2), in hundredths *)
  stock : Z;
  status : ProductStatus.t
}.

Definition with_stock (self : t) (v : Z) : t :=
  mk (name self) (price self) v (status self).

(** [reduce_stock]: the updated object and the returned flag *)
Definition reduce_stock (self : t) (quantity : Z) : t * bool :=
  if stock self >=? quantity
  then (with_stock self (stock self - quantity), true)
  else (self, false).

Definition is_in_stock (self : t) (quantity : Z) : bool :=
  (stock self >=? quantity) && bool_decide (status self = ProductStatus.ACTIVE).
End Product.

(** [app/models/order_item.py] *)
Module OrderItem.
Record t : Type := mk {
  id : Z;
  order_id : Z;
  product_id : Z;
  quantity : Z;
  price : Z;              (* price at time of order, in hundredths *)
  subtotal : Z
}.

Definition calculate_subtotal (self : t) : t :=
  mk (id self) (order_id self) (product_id self) (quantity self) (price self)
     (price self * quantity self).
End OrderItem.

(** [app/models/order.py] *)
Module OrderStatus.
Inductive t : Set := PENDING | PAID | CANCELED.
#[global] Instance eq_dec : EqDecision t.
Proof. solve_decision. Defined.
End OrderStatus.

Module Order.
Record t : Type := mk {
  user_id : Z;
  total_amount : Z;       (* Numeric(10, 2), in hundredths *)
  status : OrderStatus.t
}.

Definition with_status (self : t) (v : OrderStatus.t) : t :=
  mk (user_id self) (total_amount self) v.

Definition with_total_amount (self : t) (v : Z) : t :=
  mk (user_id self) v (status self).

(** The loop of [mark_as_paid].  [item.product] is the row of
    [products] with the item's [product_id]; the session hands out one
    object per row, so a write through one item is seen by the next.
    A missing row loads as [None], and [None.reduce_stock] raises.  The
    value returned by [reduce_stock] is not looked at. *)
Fixpoint reduce_items (order_items : list OrderItem.t)
    (products : gmap Z Product.t) : gmap Z Product.t * option error :=
  match order_items with
  | [] => (products, None)
  | item :: rest =>
      match products !! OrderItem.product_id item with
      | None => (products, Some (AttributeError "'NoneType' object has no attribute 'reduce_stock'"))
      | Some product =>
          let '(product, _) := Product.reduce_stock product (OrderItem.quantity item) in
          reduce_items rest (<[OrderItem.product_id item := product]> products)
      end
  end.

(** [mark_as_paid] on the objects it reaches: [self], the rows of
    [self.order_items] and the products behind them.  Returns the
    objects as the call leaves them and the exception, if one ended
    it. *)
Definition mark_as_paid (self : t) (order_items : list OrderItem.t)
    (products : gmap Z Product.t) : t * gmap Z Product.t * option error :=
  let self := with_status self OrderStatus.PAID in
  let '(products, exn) := reduce_items order_items products in
  (self, products, exn).

Definition cancel (self : t) : t * bool :=
  if bool_decide (status self = OrderStatus.PENDING)
  then (with_status self OrderStatus.CANCELED, true)
  else (self, false).
(** [calculate_total]: the updated object and the total it returns.
    [sum] starts from 0 and adds the subtotals from left to right. *)
Definition calculate_total (self : t) (order_items : list OrderItem.t) : t * Z :=
  let total := foldl (fun acc item => acc + OrderItem.subtotal item) 0 order_items in
  (with_total_amount self total, total).
End Order.

(** [app/models/payment.py] *)
Module PaymentProviderName.
Inductive t : Set := STRIPE | BKASH.
#[global] Instance eq_dec : EqDecision t.
Proof. solve_decision. Defined.

Definition value (p : t) : string :=
  match p with STRIPE => "stripe" | BKASH => "bkash" end.

Definition of_value (s : string) : option t :=
  if bool_decide (s = "stripe") then Some STRIPE
  else if bool_decide (s = "bkash") then Some BKASH
  else None.
End PaymentProviderName.

Module PaymentStatus.
Inductive t : Set := PENDING | SUCCESS | FAILED.
#[global] Instance eq_dec : EqDecision t.
Proof. solve_decision. Defined.
End PaymentStatus.

Module Payment.
Record t : Type := mk {
  id : Z;
  order_id : Z;
  provider : PaymentProviderName.t;
  transaction_id : string;
  status : PaymentStatus.t;
  raw_response : json
}.

Definition with_status (self : t) (v : PaymentStatus.t) : t :=
  mk (id self) (order_id self) (provider self) (transaction_id self) v
     (raw_response self).

Definition with_raw_response (self : t) (v : json) : t :=
  mk (id self) (order_id self) (provider self) (transaction_id self)
     (status self) v.

Definition mark_as_success (self : t) : t := with_status self PaymentStatus.SUCCESS.
Definition mark_as_failed (self : t) : t := with_status self PaymentStatus.FAILED.
End Payment.

(** ** The store and the session *)

(** The tables.  [products] and [orders] are keyed by their primary key;
    [order_items] and [payments] are kept in insertion order, the order in
    which an unordered query returns them.  The [_seq] fields are the
    primary-key sequences. *)
Record DB : Type := mkDB {
  products : gmap Z Product.t;
  orders : gmap Z Order.t;
  order_items : list OrderItem.t;
  payments : list Payment.t;
  orders_seq : Z;
  order_items_seq : Z;
  payments_seq : Z
}.

Definition with_products (db : DB) (v : gmap Z Product.t) : DB :=
  mkDB v (orders db) (order_items db) (payments db)
       (orders_seq db) (order_items_seq db) (payments_seq db).

Definition with_orders (db : DB) (v : gmap Z Order.t) : DB :=
  mkDB (products db) v (order_items db) (payments db)
       (orders_seq db) (order_items_seq db) (payments_seq db).

Definition with_payments (db : DB) (v : list Payment.t) : DB :=
  mkDB (products db) (orders db) (order_items db) v
       (orders_seq db) (order_items_seq db) (payments_seq db).

(** [order.order_items]: the rows of [order_items] that carry the order's
    id. *)
Definition order_items_of (db : DB) (order_id : Z) : list OrderItem.t :=
  filter (fun item => OrderItem.order_id item = order_id) (order_items db).

(** [query(Payment).filter(Payment.id == payment_id).first()] *)
Definition payment_by_id (db : DB) (payment_id : Z) : option Payment.t :=
  head (filter (fun p => Payment.id p = payment_id) (payments db)).

(** [Payment.transaction_id == v] for a value taken from an adapter
    result: the column is a string, so only a string can be equal to
    it. *)
Definition transaction_id_is (v : json) (p : Payment.t) : Prop :=
  v = JStr (Payment.transaction_id p).

#[global] Instance transaction_id_is_dec v p : Decision (transaction_id_is v p).
Proof.
  unfold transaction_id_is.
  destruct v as [| | |s| |];
    try (right; discriminate).
  destruct (decide (s = Payment.transaction_id p)) as [->|Hne].
  - left; reflexivity.
  - right; intros [=]; contradiction.
Defined.

(** [query(Payment).filter(Payment.transaction_id == v).first()] *)
Definition payment_by_transaction_id (db : DB) (v : json) : option Payment.t :=
  head (filter (transaction_id_is v) (payments db)).

(** The UPDATE a flush emits for a changed payment object: the row with
    its primary key takes the object's columns. *)
Definition update_payment (p : Payment.t) (db : DB) : DB :=
  with_payments db
    ((fun q => if bool_decide (Payment.id q = Payment.id p) then p else q)
       <$> payments db).

(** Modelled from the spec: [app/database.py] ([get_db], the session
    factory) is not among the sources.  The spec takes persistence to be
    "a transactional relational store reachable via a session/unit-of-work
    abstraction" in which "each operation runs to completion within one
    logical transaction": a request gets a session that starts from the
    committed rows, sees its own writes, publishes them with [commit],
    and drops what it did not commit when the request ends, by return or
    by exception. *)
Record Session : Type := mkSession {
  committed : DB;
  working : DB
}.

(** Service code: reads and writes the session, may raise. *)
Definition M (A : Type) : Type := Session -> result A * Session.

#[global] Instance M_ret : MRet M := fun A a s => (Ok a, s).

#[global] Instance M_bind : MBind M := fun A B f m s =>
  match m s with
  | (Ok a, s') => f a s'
  | (Raise e, s') => (Raise e, s')
  end.

Definition raise {A : Type} (e : error) : M A := fun s => (Raise e, s).

(** A call that does not touch the session. *)
Definition lift {A : Type} (r : result A) : M A := fun s => (r, s).

(** The rows as the session sees them. *)
Definition rows : M DB := fun s => (Ok (working s), s).

Definition write (f : DB -> DB) : M unit :=
  fun s => (Ok (), mkSession (committed s) (f (working s))).

(** [db.commit()] *)
Definition commit : M unit :=
  fun s => (Ok (), mkSession (working s) (working s)).

(** [db.refresh(obj)]: reloads a just committed object; the session
    already sees the committed row. *)
Definition refresh : M unit := mret ().

(** One request: open a session on the committed rows, run the handler,
    close the session.  The pair is what the caller gets and what is
    persisted afterwards. *)
Definition run_request {A : Type} (handler : M A) (db : DB) : result A * DB :=
  let '(r, s) := handler (mkSession db db) in (r, committed s).

(** What a request leaves in the store. *)
Definition persisted {A : Type} (handler : M A) (db : DB) : DB :=
  (run_request handler db).2.

(** Code that raises but has no session at hand (the adapters). *)
#[global] Instance result_ret : MRet result := fun A a => Ok a.

#[global] Instance result_bind : MBind result := fun A B f r =>
  match r with
  | Ok a => f a
  | Raise e => Raise e
  end.

(** [str(e)] *)
Definition str_error (e : error) : string :=
  match e with
  | HTTPException c d =>
      pretty c +:+ ": " +:+ match d with JStr m => m | _ => "" end
  | ValueError m | AttributeError m | TypeError m | DBAPIError m => m
  | KeyError k => "'" +:+ k +:+ "'"
  end.

(** ** Payment providers *)

(** [app/payment_providers/base.py]: the interface of an adapter.  The
    amount is passed in hundredths. *)
Module PaymentProvider.
Record t : Type := mk {
  create_payment : Z -> Z -> json -> result json;
  confirm_payment : string -> result json;
  query_payment : string -> result json;
  handle_webhook : json -> result json;
  get_provider_name : string
}.
End PaymentProvider.

(** What an adapter gets from outside the program. *)
Record PaymentIntent : Type := mkPaymentIntent {
  intent_id : string;
  intent_client_secret : string;
  intent_status : string;
  intent_amount : Z;
  intent_currency : string
}.

Definition PaymentIntent_json (i : PaymentIntent) : json :=
  JDict [("id", JStr (intent_id i));
         ("client_secret", JStr (intent_client_secret i));
         ("status", JStr (intent_status i));
         ("amount", JInt (intent_amount i));
         ("currency", JStr (intent_currency i))].

Record Environment : Type := mkEnvironment {
  (** [settings.BKASH_MOCK_MODE] *)
  BKASH_MOCK_MODE : bool;
  (** [uuid.uuid4().hex], for the n-th draw of a call *)
  uuid4_hex : nat -> string;
  (** [str(amount)] of the float amount *)
  str_amount : Z -> string;
  (** [int(amount * 100)] of the float amount *)
  int_amount_100 : Z -> Z;
  (** [stripe.PaymentIntent.create(amount=.., metadata=..)]: the intent,
      or the text of the [StripeError] *)
  PaymentIntent_create : Z -> json -> string + PaymentIntent;
  (** [stripe.PaymentIntent.retrieve(transaction_id)] *)
  PaymentIntent_retrieve : string -> string + PaymentIntent
}.

Definition upper_ascii (c : ascii) : ascii :=
  let n := nat_of_ascii c in
  if ((97 <=? n) && (n <=? 122))%nat then ascii_of_nat (n - 32) else c.

(** [s.upper()] on ASCII text *)
Fixpoint upper (s : string) : string :=
  match s with
  | EmptyString => EmptyString
  | String c s' => String (upper_ascii c) (upper s')
  end.

(** [app/payment_providers/bkash_provider.py] *)
Module BkashProvider.
Section adapter.
Variable env : Environment.

Definition provider_name : string := "bkash".
Definition mock_mode : bool := BKASH_MOCK_MODE env.

Definition create_payment (amount order_id : Z) (metadata : json) : result json :=
  if mock_mode then
    let mock_payment_id := "BKASH" +:+ upper (String.substring 0 12 (uuid4_hex env 0)) in
    let bkash_url := "http://localhost:8000/mock-bkash-payment?paymentID=" +:+ mock_payment_id in
    Ok (JDict [
      ("success", JBool true);
      ("transaction_id", JStr mock_payment_id);
      ("bkash_url", JStr bkash_url);
      ("amount", JStr (str_amount env amount));
      ("status", JStr "pending");
      ("intent", JStr "sale");
      ("raw_response", JDict [
         ("paymentID", JStr mock_payment_id);
         ("bkashURL", JStr bkash_url);
         ("amount", JStr (str_amount env amount));
         ("currency", JStr "BDT");
         ("intent", JStr "sale");
         ("merchantInvoiceNumber", JStr ("INV_" +:+ pretty order_id));
         ("mode", JStr "MOCK")])])
  else
    (* the real call is a stub: the method falls off its end *)
    Ok JNull.

Definition confirm_payment (transaction_id : string) : result json :=
  if mock_mode then
    Ok (JDict [
      ("success", JBool true);
      ("transaction_id", JStr transaction_id);
      ("trx_id", JStr ("TRX" +:+ upper (String.substring 0 10 (uuid4_hex env 0))));
      ("status", JStr "success");
      ("amount", JStr "0.00");
      ("transactionStatus", JStr "Completed");
      ("raw_response", JDict [
         ("paymentID", JStr transaction_id);
         ("trxID", JStr ("TRX" +:+ upper (String.substring 0 10 (uuid4_hex env 1))));
         ("transactionStatus", JStr "Completed");
         ("amount", JStr "0.00");
         ("currency", JStr "BDT")])])
  else Ok JNull.

Definition query_payment (transaction_id : string) : result json :=
  if mock_mode then
    Ok (JDict [
      ("success", JBool true);
      ("transaction_id", JStr transaction_id);
      ("status", JStr "success");
      ("amount", JStr "0.00");
      ("transactionStatus", JStr "Completed");
      ("raw_response", JDict [
         ("paymentID", JStr transaction_id);
         ("transactionStatus", JStr "Completed")])])
  else Ok JNull.

Definition handle_webhook (payload : json) : result json :=
  if mock_mode then
    payment_id ← py_get payload "paymentID";
    status ← py_get_default payload "status" (JStr "success");
    Ok (JDict [
      ("success", JBool true);
      ("transaction_id", payment_id);
      ("status", JStr (if eq_str status "success" then "success" else "failed"));
      ("raw_response", payload)])
  else Ok JNull.

Definition get_provider_name : string := provider_name.

Definition instance : PaymentProvider.t :=
  PaymentProvider.mk create_payment confirm_payment query_payment
    handle_webhook get_provider_name.
End adapter.
End BkashProvider.

(** [app/payment_providers/stripe_provider.py] *)
Module StripeProvider.
Section adapter.
Variable env : Environment.

Definition provider_name : string := "stripe".

(** [**(metadata or {})] *)
Definition metadata_or_empty (metadata : json) : result (list (string * json)) :=
  if truthy metadata then
    match metadata with
    | JDict d => Ok d
    | _ => Raise (TypeError ("'" +:+ type_name metadata +:+ "' object is not a mapping"))
    end
  else Ok [].

Definition create_payment (amount order_id : Z) (metadata : json) : result json :=
  let amount_cents := int_amount_100 env amount in
  extra ← metadata_or_empty metadata;
  match PaymentIntent_create env amount_cents
          (JDict (dict_update [("order_id", JInt order_id)] extra)) with
  | inr payment_intent =>
      Ok (JDict [
        ("success", JBool true);
        ("transaction_id", JStr (intent_id payment_intent));
        ("client_secret", JStr (intent_client_secret payment_intent));
        ("status", JStr (intent_status payment_intent));
        ("amount", JInt amount_cents);
        ("currency", JStr "usd");
        ("raw_response", PaymentIntent_json payment_intent)])
  | inl e =>
      Ok (JDict [
        ("success", JBool false);
        ("error", JStr e);
        ("transaction_id", JNull)])
  end.

Definition confirm_payment (transaction_id : string) : result json :=
  match PaymentIntent_retrieve env transaction_id with
  | inr payment_intent =>
      Ok (JDict [
        ("success", JBool true);
        ("transaction_id", JStr (intent_id payment_intent));
        ("status", JStr (intent_status payment_intent));
        ("amount", JInt (intent_amount payment_intent));
        ("raw_response", PaymentIntent_json payment_intent)])
  | inl e =>
      Ok (JDict [("success", JBool false); ("error", JStr e)])
  end.

Definition query_payment (transaction_id : string) : result json :=
  match PaymentIntent_retrieve env transaction_id with
  | inr payment_intent =>
      Ok (JDict [
        ("success", JBool true);
        ("transaction_id", JStr (intent_id payment_intent));
        ("status", JStr (intent_status payment_intent));
        ("amount", JInt (intent_amount payment_intent));
        ("currency", JStr (intent_currency payment_intent));
        ("raw_response", PaymentIntent_json payment_intent)])
  | inl e =>
      Ok (JDict [("success", JBool false); ("error", JStr e)])
  end.

(** The body of the [try] in [handle_webhook]. *)
Definition handle_webhook_try (payload : json) : result json :=
  event_type ← py_get payload "type";
  envelope ← py_get_default payload "data" (JDict []);
  data ← py_get_default envelope "object" (JDict []);
  _ ← py_get data "id";      (* formatted into the log line *)
  if eq_str event_type "payment_intent.succeeded" then
    transaction_id ← py_get data "id";
    metadata ← py_get_default data "metadata" (JDict []);
    order_id ← py_get metadata "order_id";
    Ok (JDict [
      ("success", JBool true);
      ("event_type", event_type);
      ("transaction_id", transaction_id);
      ("status", JStr "success");
      ("order_id", order_id);
      ("raw_response", payload)])
  else if eq_str event_type "payment_intent.payment_failed" then
    transaction_id ← py_get data "id";
    metadata ← py_get_default data "metadata" (JDict []);
    order_id ← py_get metadata "order_id";
    Ok (JDict [
      ("success", JBool true);
      ("event_type", event_type);
      ("transaction_id", transaction_id);
      ("status", JStr "failed");
      ("order_id", order_id);
      ("raw_response", payload)])
  else
    Ok (JDict [
      ("success", JBool true);
      ("event_type", event_type);
      ("message", JStr "Event received but not processed")]).

(** [except Exception as e] *)
Definition handle_webhook (payload : json) : result json :=
  match handle_webhook_try payload with
  | Ok r => Ok r
  | Raise e => Ok (JDict [("success", JBool false); ("error", JStr (str_error e))])
  end.

Definition get_provider_name : string := provider_name.

Definition instance : PaymentProvider.t :=
  PaymentProvider.mk create_payment confirm_payment query_payment
    handle_webhook get_provider_name.
End adapter.
End StripeProvider.

(** [app/payment_providers/__init__.py].  The class attribute
    [_providers] is passed around as the registry. *)
Module PaymentFactory.
Definition register_provider (name : string) (provider : PaymentProvider.t)
    (providers : gmap string PaymentProvider.t) : gmap string PaymentProvider.t :=
  <[name := provider]> providers.

Definition get_provider (providers : gmap string PaymentProvider.t)
    (provider_name : string) : result PaymentProvider.t :=
  match providers !! provider_name with
  | None => Raise (ValueError ("Payment provider '" +:+ provider_name +:+ "' not found"))
  | Some provider => Ok provider
  end.

(** The registry once the module is imported. *)
Definition registered (env : Environment) : gmap string PaymentProvider.t :=
  register_provider "bkash" (BkashProvider.instance env)
    (register_provider "stripe" (StripeProvider.instance env) ∅).
End PaymentFactory.

(** ** Services *)

(** [app/schemas/order.py]: one requested line. *)
Record OrderItemCreate : Type := mkOrderItemCreate {
  item_product_id : Z;
  item_quantity : Z
}.

(** An entry of [order_items_data]: the product (its row), the quantity
    and the price read off the product when the entry was made. *)
Record ItemData : Type := mkItemData {
  data_product : Z;
  data_quantity : Z;
  data_price : Z
}.

(** [app/services/order_service.py] *)
Module OrderService.

(** The first loop of [create_order]. *)
Fixpoint validate_items (items : list OrderItemCreate)
    (order_items_data : list ItemData) : M (list ItemData) :=
  match items with
  | [] => mret order_items_data
  | item_data :: rest =>
      db ← rows;
      match products db !! item_product_id item_data with
      | None =>
          raise (HTTPException HTTP_404_NOT_FOUND
            (JStr ("Product with ID " +:+ pretty (item_product_id item_data) +:+ " not found")))
      | Some product =>
          if negb (Product.is_in_stock product (item_quantity item_data)) then
            raise (HTTPException HTTP_400_BAD_REQUEST
              (JStr ("Insufficient stock for product: " +:+ Product.name product)))
          else
            validate_items rest
              (order_items_data ++
                 [mkItemData (item_product_id item_data) (item_quantity item_data)
                    (Product.price product)])
      end
  end.

(** [db.add(order); db.flush()]: the row gets the next key of the
    sequence; a key already in use is refused by the store. *)
Definition add_order (order : Order.t) : M Z :=
  db ← rows;
  let order_id := orders_seq db in
  match orders db !! order_id with
  | Some _ => raise (DBAPIError "duplicate key value violates unique constraint")
  | None =>
      write (fun db =>
        mkDB (products db) (<[order_id := order]> (orders db)) (order_items db)
             (payments db) (order_id + 1) (order_items_seq db) (payments_seq db));;
      mret order_id
  end.

(** [db.add(order_item)] *)
Definition add_order_item (order_item : OrderItem.t) : M unit :=
  write (fun db =>
    let row := OrderItem.mk (order_items_seq db) (OrderItem.order_id order_item)
                 (OrderItem.product_id order_item) (OrderItem.quantity order_item)
                 (OrderItem.price order_item) (OrderItem.subtotal order_item) in
    mkDB (products db) (orders db) (order_items db ++ [row]) (payments db)
         (orders_seq db) (order_items_seq db + 1) (payments_seq db)).

(** The second loop of [create_order]; returns [total_amount]. *)
Fixpoint add_items (order_id : Z) (order_items_data : list ItemData)
    (total_amount : Z) : M Z :=
  match order_items_data with
  | [] => mret total_amount
  | item_data :: rest =>
      let order_item :=
        OrderItem.mk 0 order_id (data_product item_data) (data_quantity item_data)
          (data_price item_data) 0 in
      let order_item := OrderItem.calculate_subtotal order_item in
      let total_amount := total_amount + OrderItem.subtotal order_item in
      add_order_item order_item;;
      add_items order_id rest total_amount
  end.

Definition create_order (user_id : Z) (order_data : list OrderItemCreate)
    : M (Z * Order.t) :=
  order_items_data ← validate_items order_data [];
  let order := Order.mk user_id 0 OrderStatus.PENDING in
  order_id ← add_order order;
  total_amount ← add_items order_id order_items_data 0;
  let order := Order.with_total_amount order total_amount in
  write (fun db => with_orders db (<[order_id := order]> (orders db)));;
  commit;;
  refresh;;
  mret (order_id, order).

(** [query.filter(Order.user_id == user_id)] on the at most one row
    selected by the primary key *)
Definition filter_user_id (query : option Order.t) (user_id : Z) : option Order.t :=
  match query with
  | Some order => if bool_decide (Order.user_id order = user_id) then Some order else None
  | None => None
  end.

Definition get_order_by_id (order_id : Z) (user_id : option Z) : M Order.t :=
  db ← rows;
  let query := orders db !! order_id in
  let query :=
    if truthy_id user_id
    then filter_user_id query (default 0 user_id)
    else query in
  match query with
  | None => raise (HTTPException HTTP_404_NOT_FOUND (JStr "Order not found"))
  | Some order => mret order
  end.

Definition cancel_order (order_id user_id : Z) : M Order.t :=
  order ← get_order_by_id order_id (Some user_id);
  let '(order, cancelled) := Order.cancel order in
  write (fun db => with_orders db (<[order_id := order]> (orders db)));;
  if negb cancelled then
    raise (HTTPException HTTP_400_BAD_REQUEST
      (JStr "Cannot cancel order. Order must be in pending status."))
  else
    commit;;
    refresh;;
    mret order.

Definition mark_order_as_paid (order_id : Z) : M Order.t :=
  order ← get_order_by_id order_id None;
  if negb (bool_decide (Order.status order = OrderStatus.PENDING)) then
    raise (HTTPException HTTP_400_BAD_REQUEST (JStr "Order is not in pending status"))
  else
    db ← rows;
    let '(order, products, exn) :=
      Order.mark_as_paid order (order_items_of db order_id) (products db) in
    write (fun db => with_products (with_orders db (<[order_id := order]> (orders db))) products);;
    match exn with
    | Some e => raise e
    | None =>
        commit;;
        refresh;;
        mret order
    end.
End OrderService.

(** [app/services/product_service.py], the part that moves stock. *)
Module ProductService.
Definition get_product_by_id (product_id : Z) : M (option Product.t) :=
  db ← rows;
  mret (products db !! product_id).

Definition reduce_stock (product_id quantity : Z) : M bool :=
  product ← get_product_by_id product_id;
  match product with
  | None => mret false
  | Some product =>
      let '(product, reduced) := Product.reduce_stock product quantity in
      write (fun db => with_products db (<[product_id := product]> (products db)));;
      if reduced then
        commit;;
        mret true
      else mret false
  end.

(** [update_product] for a request that sets the price and nothing
    else. *)
Definition update_price (product_id price : Z) : M Product.t :=
  product ← get_product_by_id product_id;
  match product with
  | None => raise (HTTPException HTTP_404_NOT_FOUND (JStr "Product not found"))
  | Some product =>
      let product :=
        Product.mk (Product.name product) price (Product.stock product)
          (Product.status product) in
      write (fun db => with_products db (<[product_id := product]> (products db)));;
      commit;;
      refresh;;
      mret product
  end.

Definition check_stock_availability (product_id quantity : Z) : M bool :=
  product ← get_product_by_id product_id;
  match product with
  | None => mret false
  | Some product => mret (Product.is_in_stock product quantity)
  end.
End ProductService.

(** [app/services/payment_service.py] *)
Module PaymentService.
Section service.
(** [PaymentFactory._providers] *)
Variable providers : gmap string PaymentProvider.t.

(** [try: PaymentFactory.get_provider(..) except ValueError as e:
    raise HTTPException(400, str(e))] *)
Definition get_provider_or_400 (provider_name : string) : M PaymentProvider.t :=
  match PaymentFactory.get_provider providers provider_name with
  | Ok provider => mret provider
  | Raise (ValueError m) =>
      raise (HTTPException HTTP_400_BAD_REQUEST (JStr (str_error (ValueError m))))
  | Raise e => raise e
  end.

(** [db.add(payment); db.commit()] for a new payment.  The columns
    decide what the store takes: [provider] is an enumeration,
    [transaction_id] a string that is not null and unique. *)
Definition add_payment (order_id : Z) (provider_name : string)
    (transaction_id raw_response : json) : M Payment.t :=
  db ← rows;
  match PaymentProviderName.of_value provider_name, transaction_id with
  | Some provider, JStr txn =>
      if bool_decide (payment_by_transaction_id db transaction_id = None) then
        match payment_by_id db (payments_seq db) with
        | Some _ => raise (DBAPIError "duplicate key value violates unique constraint")
        | None =>
            let payment :=
              Payment.mk (payments_seq db) order_id provider txn
                PaymentStatus.PENDING raw_response in
            write (fun db =>
              mkDB (products db) (orders db) (order_items db)
                   (payments db ++ [payment])
                   (orders_seq db) (order_items_seq db) (payments_seq db + 1));;
            commit;;
            mret payment
        end
      else raise (DBAPIError "duplicate key value violates unique constraint")
  | _, _ => raise (DBAPIError "invalid input value")
  end.

Definition create_payment (order_id : Z) (provider_name : string)
    (user_id : Z) (metadata : json) : M json :=
  order ← OrderService.get_order_by_id order_id (Some user_id);
  if negb (bool_decide (Order.status order = OrderStatus.PENDING)) then
    raise (HTTPException HTTP_400_BAD_REQUEST (JStr "Order is not in pending status"))
  else
    provider ← get_provider_or_400 provider_name;
    let amount := Order.total_amount order in
    result ← lift (PaymentProvider.create_payment provider amount order_id metadata);
    success ← lift (py_get result "success");
    if negb (truthy success) then
      detail ← lift (py_get_default result "error" (JStr "Payment creation failed"));
      raise (HTTPException HTTP_400_BAD_REQUEST detail)
    else
      transaction_id ← lift (py_item result "transaction_id");
      raw_response ← lift (py_get result "raw_response");
      payment ← add_payment order_id provider_name transaction_id raw_response;
      refresh;;
      fields ← lift (match result with JDict d => Ok d | _ => Raise (TypeError "not a mapping") end);
      mret (JDict (dict_update
        [("payment_id", JInt (Payment.id payment));
         ("order_id", JInt order_id);
         ("provider", JStr provider_name);
         ("transaction_id", transaction_id)]
        fields)).

Definition confirm_payment (payment_id : Z) (transaction_id : string) : M Payment.t :=
  db ← rows;
  match payment_by_id db payment_id with
  | None => raise (HTTPException HTTP_404_NOT_FOUND (JStr "Payment not found"))
  | Some payment =>
      provider ← lift (PaymentFactory.get_provider providers
                         (PaymentProviderName.value (Payment.provider payment)));
      result ← lift (PaymentProvider.confirm_payment provider transaction_id);
      success ← lift (py_get result "success");
      if negb (truthy success) then
        let payment := Payment.mark_as_failed payment in
        write (update_payment payment);;
        commit;;
        detail ← lift (py_get_default result "error" (JStr "Payment confirmation failed"));
        raise (HTTPException HTTP_400_BAD_REQUEST detail)
      else
        stripe_status ← lift (py_get result "status");
        payment ←
          (if eq_str stripe_status "succeeded" then
             let payment := Payment.mark_as_success payment in
             raw_response ← lift (py_get result "raw_response");
             let payment := Payment.with_raw_response payment raw_response in
             write (update_payment payment);;
             OrderService.mark_order_as_paid (Payment.order_id payment);;
             mret payment
           else if eq_str stripe_status "requires_payment_method"
                   || eq_str stripe_status "requires_action"
                   || eq_str stripe_status "processing" then
             mret payment
           else
             let payment := Payment.mark_as_failed payment in
             write (update_payment payment);;
             mret payment);
        commit;;
        refresh;;
        mret payment
  end.

Definition query_payment (payment_id : Z) : M Payment.t :=
  db ← rows;
  match payment_by_id db payment_id with
  | None => raise (HTTPException HTTP_404_NOT_FOUND (JStr "Payment not found"))
  | Some payment =>
      provider ← lift (PaymentFactory.get_provider providers
                         (PaymentProviderName.value (Payment.provider payment)));
      provider_result ← lift (PaymentProvider.query_payment provider
                                (Payment.transaction_id payment));
      status ← lift (py_get provider_result "status");
      if eq_str status "succeeded"
         && negb (bool_decide (Payment.status payment = PaymentStatus.SUCCESS)) then
        let payment := Payment.mark_as_success payment in
        raw_response ← lift (py_get provider_result "raw_response");
        let payment := Payment.with_raw_response payment raw_response in
        write (update_payment payment);;
        commit;;
        refresh;;
        mret payment
      else if eq_str status "failed"
              && negb (bool_decide (Payment.status payment = PaymentStatus.FAILED)) then
        let payment := Payment.mark_as_failed payment in
        raw_response ← lift (py_get provider_result "raw_response");
        let payment := Payment.with_raw_response payment raw_response in
        write (update_payment payment);;
        commit;;
        refresh;;
        mret payment
      else mret payment
  end.

Definition handle_webhook (provider_name : string) (payload : json) : M json :=
  provider ← get_provider_or_400 provider_name;
  result ← lift (PaymentProvider.handle_webhook provider payload);
  success ← lift (py_get result "success");
  if negb (truthy success) then mret result
  else
    transaction_id ← lift (py_get result "transaction_id");
    (if truthy transaction_id then
       db ← rows;
       match payment_by_transaction_id db transaction_id with
       | Some payment =>
           status ← lift (py_get result "status");
           (if eq_str status "success" then
              let payment := Payment.mark_as_success payment in
              raw_response ← lift (py_get result "raw_response");
              let payment := Payment.with_raw_response payment raw_response in
              write (update_payment payment);;
              OrderService.mark_order_as_paid (Payment.order_id payment);;
              mret ()
            else if eq_str status "failed" then
              let payment := Payment.mark_as_failed payment in
              raw_response ← lift (py_get result "raw_response");
              let payment := Payment.with_raw_response payment raw_response in
              write (update_payment payment);;
              mret ()
            else mret ());;
           commit
       | None => mret ()
       end
     else mret ());;
    mret result.

Definition get_payment_by_order (order_id : Z) : M Payment.t :=
  db ← rows;
  match head (filter (fun p => Payment.order_id p = order_id) (payments db)) with
  | None =>
      raise (HTTPException HTTP_404_NOT_FOUND (JStr "Payment not found for this order"))
  | Some payment => mret payment
  end.
End service.
End PaymentService.

(** [app/api/v1/endpoints/orders.py], [get_my_orders]: the number of
    pages reported for [total] orders.  [//] is floor division. *)
Module OrdersEndpoint.
Definition total_pages (total page_size : Z) : Z :=
  (total + page_size - 1) `div` page_size.
End OrdersEndpoint.

(** ** Vocabulary of the specification *)

(** The failures of the specification, as the services raise them. *)
Definition OrderNotFound : error :=
  HTTPException HTTP_404_NOT_FOUND (JStr "Order not found").

Definition InvalidTransition : error :=
  HTTPException HTTP_400_BAD_REQUEST (JStr "Order is not in pending status").

Definition ProductNotFound (product_id : Z) : error :=
  HTTPException HTTP_404_NOT_FOUND
    (JStr ("Product with ID " +:+ pretty product_id +:+ " not found")).

Definition InsufficientStock (product : Product.t) : error :=
  HTTPException HTTP_400_BAD_REQUEST
    (JStr ("Insufficient stock for product: " +:+ Product.name product)).

(** Every product has a stock that is not negative. *)
Definition stock_nonneg (db : DB) : Prop :=
  map_Forall (fun _ product => 0 <= Product.stock product) (products db).

(** The operations that move stock, each one a request of its own. *)
Inductive StockOp : Type :=
  | MarkPaid (order_id : Z)
  | ReduceStock (product_id quantity : Z).

Definition apply_op (db : DB) (op : StockOp) : DB :=
  match op with
  | MarkPaid order_id => persisted (OrderService.mark_order_as_paid order_id) db
  | ReduceStock product_id quantity =>
      persisted (ProductService.reduce_stock product_id quantity) db
  end.

Definition apply_ops (ops : list StockOp) (db : DB) : DB :=
  foldl apply_op db ops.

(** The status of the payment with a given id. *)
Definition payment_status (db : DB) (payment_id : Z) : option PaymentStatus.t :=
  Payment.status <$> payment_by_id db payment_id.

Definition order_status (db : DB) (order_id : Z) : option OrderStatus.t :=
  Order.status <$> orders db !! order_id.

Definition product_stock (db : DB) (product_id : Z) : option Z :=
  Product.stock <$> products db !! product_id.

(** The same webhook request delivered [n] times in a row. *)
Definition deliver (providers : gmap string PaymentProvider.t)
    (provider_name : string) (payload : json) (n : nat) (db : DB) : DB :=
  Nat.iter n (persisted (PaymentService.handle_webhook providers provider_name payload)) db.

(** The sum of [price * quantity] over order items. *)
Definition items_total (items : list OrderItem.t) : Z :=
  foldr (fun item acc => OrderItem.price item * OrderItem.quantity item + acc) 0 items.

(** A requested line that [create_order] refuses: no such product, or a
    product that is not in stock for the quantity. *)
Definition refused (db : DB) (line : OrderItemCreate) : Prop :=
  match products db !! item_product_id line with
  | None => True
  | Some product => Product.is_in_stock product (item_quantity line) = false
  end.

(** Order items point at orders that exist (the foreign key of
    [order_items.order_id]). *)
Definition order_items_fk (db : DB) : Prop :=
  Forall (fun item => is_Some (orders db !! OrderItem.order_id item)) (order_items db).

(** What the first loop of [create_order] raises: the failure of the
    first refused line, if there is one. *)
Fixpoint first_refusal (db : DB) (items : list OrderItemCreate) : option error :=
  match items with
  | [] => None
  | line :: rest =>
      match products db !! item_product_id line with
      | None => Some (ProductNotFound (item_product_id line))
      | Some product =>
          if Product.is_in_stock product (item_quantity line)
          then first_refusal db rest
          else Some (InsufficientStock product)
      end
  end.

(** What the first loop records for an accepted line. *)
Definition snapshot (db : DB) (line : OrderItemCreate) : ItemData :=
  mkItemData (item_product_id line) (item_quantity line)
    (default 0 (Product.price <$> products db !! item_product_id line)).

(** The rows the second loop of [create_order] adds. *)
Fixpoint item_rows (order_id seq : Z) (data : list ItemData) : list OrderItem.t :=
  match data with
  | [] => []
  | d :: rest =>
      OrderItem.mk seq order_id (data_product d) (data_quantity d) (data_price d)
        (data_price d * data_quantity d)
      :: item_rows order_id (seq + 1) rest
  end.

Definition data_total (data : list ItemData) : Z :=
  foldr (fun d acc => data_price d * data_quantity d + acc) 0 data.

(** A line of a request and the order item made from it: same product,
    same quantity, and the price the product had in [db]. *)
Definition snapshot_of (db : DB) (line : OrderItemCreate) (item : OrderItem.t) : Prop :=
  OrderItem.product_id item = item_product_id line /\
  OrderItem.quantity item = item_quantity line /\
  Product.price <$> products db !! item_product_id line = Some (OrderItem.price item).

Definition CannotCancel : error :=
  HTTPException HTTP_400_BAD_REQUEST
    (JStr "Cannot cancel order. Order must be in pending status.").

Definition PaymentNotFound : error :=
  HTTPException HTTP_404_NOT_FOUND (JStr "Payment not found").

Definition UnknownProvider (provider_name : string) : error :=
  HTTPException HTTP_400_BAD_REQUEST
    (JStr ("Payment provider '" +:+ provider_name +:+ "' not found")).

(** Only the stock of a product can differ. *)
Definition same_but_stock (before after : option Product.t) : Prop :=
  match before, after with
  | Some p, Some p' =>
      Product.name p' = Product.name p /\
      Product.price p' = Product.price p /\
      Product.status p' = Product.status p
  | None, None => True
  | _, _ => False
  end.

(** The two transitions of an order, each one a request of its own. *)
Inductive OrderOp : Type :=
  | Cancel (user_id : Z)
  | Pay.

Definition apply_order_op (order_id : Z) (db : DB) (op : OrderOp) : DB :=
  match op with
  | Cancel user_id => persisted (OrderService.cancel_order order_id user_id) db
  | Pay => persisted (OrderService.mark_order_as_paid order_id) db
  end.

(** ** Sample data *)

Module Sample.
Definition env : Environment :=
  mkEnvironment true
    (fun _ => "0123456789abcdef0123456789abcdef")
    (fun _ => "35.0")
    (fun amount => amount)
    (fun amount _ => inr (mkPaymentIntent "pi_1" "secret" "requires_payment_method" amount "usd"))
    (fun transaction_id => inr (mkPaymentIntent transaction_id "secret" "succeeded" 3500 "usd")).

Definition providers : gmap string PaymentProvider.t := PaymentFactory.registered env.

Definition pen : Product.t := Product.mk "pen" 1000 5 ProductStatus.ACTIVE.
Definition ink : Product.t := Product.mk "ink" 500 1 ProductStatus.ACTIVE.

(** Two products, nothing ordered yet. *)
Definition catalog : DB :=
  mkDB (<[1 := pen]> (<[2 := ink]> ∅)) ∅ [] [] 1 1 1.

(** Scenario A: 3 pens at 10.00 and 1 ink at 5.00. *)
Definition basket : list OrderItemCreate :=
  [mkOrderItemCreate 1 3; mkOrderItemCreate 2 1].

Definition ordered : DB :=
  persisted (OrderService.create_order 7 basket) catalog.

(** A bKash payment for order 1 is pending. *)
Definition paying : DB :=
  persisted (PaymentService.create_payment providers 1 "bkash" 7 JNull) ordered.

Definition txn : string := "BKASH0123456789AB".

Definition bkash_success : json :=
  JDict [("paymentID", JStr txn); ("status", JStr "success")].

Definition bkash_failed : json :=
  JDict [("paymentID", JStr txn); ("status", JStr "failed")].

(** The success webhook has been delivered once. *)
Definition paid : DB :=
  persisted (PaymentService.handle_webhook providers "bkash" bkash_success) paying.

(** The same surroundings with Stripe refusing every call. *)
Definition env_refusing : Environment :=
  mkEnvironment true (uuid4_hex env) (str_amount env) (int_amount_100 env)
    (fun _ _ => inl "Your card was declined.")
    (fun _ => inl "No such payment_intent").

(** The payment row after that delivery. *)
Definition paid_payment : Payment.t :=
  Payment.mk 1 1 PaymentProviderName.BKASH txn PaymentStatus.SUCCESS bkash_success.

(** A Stripe payment for order 1 is pending; Stripe reports the intent
    as succeeded. *)
Definition paying_stripe : DB :=
  persisted (PaymentService.create_payment providers 1 "stripe" 7 JNull) ordered.

(** What the bKash adapter answers when a payment of 35.00 is created
    for order 1. *)
Definition bkash_created : list (string * json) :=
  match BkashProvider.create_payment env 3500 1 JNull with
  | Ok (JDict result) => result
  | _ => []
  end.

(** The same surroundings with Stripe still processing every intent. *)
Definition env_processing : Environment :=
  mkEnvironment true (uuid4_hex env) (str_amount env) (int_amount_100 env)
    (PaymentIntent_create env)
    (fun transaction_id =>
       inr (mkPaymentIntent transaction_id "secret" "processing" 3500 "usd")).

(** The customer cancels order 1 while its bKash payment is pending. *)
Definition canceled : DB :=
  persisted (OrderService.cancel_order 1 7) paying.

(** The same surroundings with Stripe reporting every intent as
    canceled. *)
Definition env_canceled : Environment :=
  mkEnvironment true (uuid4_hex env) (str_amount env) (int_amount_100 env)
    (PaymentIntent_create env)
    (fun transaction_id =>
       inr (mkPaymentIntent transaction_id "secret" "canceled" 3500 "usd")).

(** Stripe's event for a failed intent "pi_1". *)
Definition stripe_failed : list (string * json) :=
  [("type", JStr "payment_intent.payment_failed");
   ("data", JDict [("object", JDict [("id", JStr "pi_1")])])].

(** Two customers each order the last ink while it is still in stock;
    the first order is then paid. *)
Definition last_ink : list OrderItemCreate := [mkOrderItemCreate 2 1].

Definition contended : DB :=
  persisted (OrderService.mark_order_as_paid 1)
    (persisted (OrderService.create_order 8 last_ink)
       (persisted (OrderService.create_order 7 last_ink) catalog)).
End Sample.

(** ** Running service code *)

Ltac run_M :=
  unfold mbind, M_bind, mret, M_ret, lift, raise, rows, write, commit, refresh;
  cbn beta iota zeta.

Lemma run_request_eq {A} (handler : M A) (db : DB) r s :
  handler (mkSession db db) = (r, s) -> run_request handler db = (r, committed s).
Proof. unfold run_request. intros ->. reflexivity. Qed.

(** ** Stock *)

Lemma reduce_stock_nonneg (product : Product.t) (quantity : Z) :
  0 <= Product.stock product ->
  0 <= Product.stock (Product.reduce_stock product quantity).1.
Proof.
  intros Hs. unfold Product.reduce_stock.
  destruct (Product.stock product >=? quantity) eqn:Hge; cbn; [|exact Hs].
  apply Z.geb_le in Hge. lia.
Qed.

Lemma reduce_items_nonneg (items : list OrderItem.t) (prods : gmap Z Product.t) :
  map_Forall (fun _ product => 0 <= Product.stock product) prods ->
  map_Forall (fun _ product => 0 <= Product.stock product)
    (Order.reduce_items items prods).1.
Proof.
  revert prods. induction items as [|item rest IH]; intros prods Hall; cbn.
  - exact Hall.
  - destruct (prods !! OrderItem.product_id item) as [product|] eqn:Hp; cbn.
    + pose proof (reduce_stock_nonneg product (OrderItem.quantity item)
                    (Hall _ _ Hp)) as Hr.
      destruct (Product.reduce_stock product (OrderItem.quantity item)) as [product' b].
      apply IH. apply map_Forall_insert_2; [exact Hr | exact Hall].
    + exact Hall.
Qed.

(** What [get_order_by_id] does to the session: nothing. *)
Lemma get_order_by_id_run order_id user_id (s : Session) :
  OrderService.get_order_by_id order_id user_id s =
    (match (if truthy_id user_id
            then OrderService.filter_user_id (orders (working s) !! order_id) (default 0 user_id)
            else orders (working s) !! order_id) with
     | Some order => Ok order
     | None => Raise OrderNotFound
     end, s).
Proof.
  unfold OrderService.get_order_by_id. run_M.
  destruct (if truthy_id user_id then _ else _); reflexivity.
Qed.

(** The three ways [mark_order_as_paid] can end. *)
Lemma mark_order_as_paid_run order_id (s : Session) :
  OrderService.mark_order_as_paid order_id s =
    match orders (working s) !! order_id with
    | None => (Raise OrderNotFound, s)
    | Some order =>
        if bool_decide (Order.status order = OrderStatus.PENDING) then
          let '(order', products', exn) :=
            Order.mark_as_paid order (order_items_of (working s) order_id)
              (products (working s)) in
          let db' := with_products
                       (with_orders (working s) (<[order_id := order']> (orders (working s))))
                       products' in
          match exn with
          | Some e => (Raise e, mkSession (committed s) db')
          | None => (Ok order', mkSession db' db')
          end
        else (Raise InvalidTransition, s)
    end.
Proof.
  unfold OrderService.mark_order_as_paid.
  unfold mbind at 1. unfold M_bind at 1.
  rewrite get_order_by_id_run. cbn [truthy_id].
  destruct (orders (working s) !! order_id) as [order|]; [|reflexivity].
  destruct (bool_decide (Order.status order = OrderStatus.PENDING)); cbn [negb];
    [|reflexivity].
  run_M.
  destruct (Order.mark_as_paid order _ _) as [[order' products'] [e|]]; reflexivity.
Qed.

Lemma mark_order_as_paid_stock order_id (db : DB) :
  stock_nonneg db ->
  stock_nonneg (persisted (OrderService.mark_order_as_paid order_id) db).
Proof.
  intros Hdb. unfold persisted, run_request.
  rewrite mark_order_as_paid_run. cbn [working committed].
  destruct (orders db !! order_id) as [order|]; [|exact Hdb].
  destruct (bool_decide (Order.status order = OrderStatus.PENDING)); [|exact Hdb].
  unfold Order.mark_as_paid.
  pose proof (reduce_items_nonneg (order_items_of db order_id) (products db) Hdb) as Hr.
  destruct (Order.reduce_items (order_items_of db order_id) (products db))
    as [products' [e|]]; cbn in *; [exact Hdb | exact Hr].
Qed.

Lemma reduce_stock_request_stock product_id quantity (db : DB) :
  stock_nonneg db ->
  stock_nonneg (persisted (ProductService.reduce_stock product_id quantity) db).
Proof.
  intros Hdb. unfold persisted, run_request, ProductService.reduce_stock,
    ProductService.get_product_by_id.
  run_M. cbn [working committed].
  destruct (products db !! product_id) as [product|] eqn:Hp; cbn; [|exact Hdb].
  pose proof (reduce_stock_nonneg product quantity (Hdb _ _ Hp)) as Hr.
  destruct (Product.reduce_stock product quantity) as [product' [|]]; cbn in *;
    [|exact Hdb].
  unfold stock_nonneg. cbn. apply map_Forall_insert_2; [exact Hr | exact Hdb].
Qed.

Lemma apply_op_stock (db : DB) (op : StockOp) :
  stock_nonneg db -> stock_nonneg (apply_op db op).
Proof.
  destruct op; cbn.
  - apply mark_order_as_paid_stock.
  - apply reduce_stock_request_stock.
Qed.

Lemma apply_ops_stock (ops : list StockOp) (db : DB) :
  stock_nonneg db -> stock_nonneg (apply_ops ops db).
Proof.
  revert db. induction ops as [|op ops IH]; intros db Hdb; cbn.
  - exact Hdb.
  - apply IH, apply_op_stock, Hdb.
Qed.

(** C4. Stock never goes negative: starting from a store in which every
    product has a stock of at least zero, after any sequence of
    [mark_order_as_paid] and [reduce_stock] requests, and after every
    prefix of it, every product still has a stock of at least zero; the
    decrement itself ([Product.reduce_stock]) never returns a negative
    stock from a non-negative one, whatever the quantity. *)
Theorem stock_never_negative (db : DB) (ops : list StockOp) :
  stock_nonneg db ->
  (forall n : nat, stock_nonneg (apply_ops (take n ops) db)) /\
  (forall product_id product,
     products (apply_ops ops db) !! product_id = Some product ->
     0 <= Product.stock product) /\
  (forall product quantity,
     0 <= Product.stock product ->
     0 <= Product.stock (Product.reduce_stock product quantity).1).
Proof.
  intros Hdb. split; [|split].
  - intros n. apply apply_ops_stock, Hdb.
  - intros product_id product Hp.
    exact (apply_ops_stock ops db Hdb product_id product Hp).
  - intros product quantity. apply reduce_stock_nonneg.
Qed.

Lemma stock_never_negative_witness :
  stock_nonneg Sample.catalog /\
  forall n : nat,
    stock_nonneg (apply_ops (take n [ReduceStock 2 1; ReduceStock 2 1; MarkPaid 1])
                    Sample.catalog).
Proof.
  assert (H : stock_nonneg Sample.catalog).
  { unfold stock_nonneg, Sample.catalog. cbn.
    apply map_Forall_insert_2; [cbn; lia|].
    apply map_Forall_insert_2; [cbn; lia|].
    apply map_Forall_empty. }
  split; [exact H|].
  exact (proj1 (stock_never_negative Sample.catalog
                  [ReduceStock 2 1; ReduceStock 2 1; MarkPaid 1] H)).
Defined.

(** C3. Paying an order whose item can no longer be taken from stock.
    Two orders for the last ink were accepted; the first has been paid
    and the stock is 0.  Marking the second as paid succeeds: the order
    ends up PAID, [reduce_stock] answered [False] for its item, and the
    stock is still 0, so the item was never taken from stock. *)
Theorem mark_paid_ignores_failed_decrement :
  order_status Sample.contended 2 = Some OrderStatus.PENDING /\
  order_items_of Sample.contended 2 = [OrderItem.mk 2 2 2 1 500 500] /\
  products Sample.contended !! 2 = Some (Product.with_stock Sample.ink 0) /\
  Product.reduce_stock (Product.with_stock Sample.ink 0) 1 =
    (Product.with_stock Sample.ink 0, false) /\
  (run_request (OrderService.mark_order_as_paid 2) Sample.contended).1 =
    Ok (Order.mk 8 500 OrderStatus.PAID) /\
  order_status (persisted (OrderService.mark_order_as_paid 2) Sample.contended) 2 =
    Some OrderStatus.PAID /\
  product_stock (persisted (OrderService.mark_order_as_paid 2) Sample.contended) 2 =
    Some 0.
Proof. vm_compute. repeat split; reflexivity. Qed.

(** ** Orders *)

(** C10. [get_order_by_id] filters on the owner only when the owner id
    is truthy.  For an order that exists, the call without an owner id
    ([None]) and the call with owner id 0 return it whoever owns it; with
    an owner id other than 0 the order is returned when that id owns it,
    and the call fails with "Order not found" when it does not.  The
    session is left as it was. *)
Theorem get_order_by_id_owner_filter (db : DB) (order_id : Z) (order : Order.t) :
  orders db !! order_id = Some order ->
  run_request (OrderService.get_order_by_id order_id None) db = (Ok order, db) /\
  run_request (OrderService.get_order_by_id order_id (Some 0)) db = (Ok order, db) /\
  (forall user_id, user_id <> 0 ->
     (Order.user_id order = user_id ->
      run_request (OrderService.get_order_by_id order_id (Some user_id)) db
        = (Ok order, db)) /\
     (Order.user_id order <> user_id ->
      run_request (OrderService.get_order_by_id order_id (Some user_id)) db
        = (Raise OrderNotFound, db))).
Proof.
  intros Ho. unfold run_request. rewrite !get_order_by_id_run.
  cbn [working committed truthy_id Z.eqb negb]. rewrite Ho.
  split; [reflexivity|]. split; [reflexivity|].
  intros user_id Hne. rewrite get_order_by_id_run. cbn [working committed truthy_id].
  destruct (Z.eqb_spec user_id 0) as [->|_]; [contradiction|].
  cbn [negb default]. rewrite Ho. unfold OrderService.filter_user_id.
  split; intros Hu.
  - rewrite bool_decide_eq_true_2 by exact Hu. reflexivity.
  - rewrite bool_decide_eq_false_2 by exact Hu. reflexivity.
Qed.

Lemma get_order_by_id_owner_filter_witness :
  orders Sample.ordered !! 1 = Some (Order.mk 7 3500 OrderStatus.PENDING) /\
  run_request (OrderService.get_order_by_id 1 (Some 0)) Sample.ordered
    = (Ok (Order.mk 7 3500 OrderStatus.PENDING), Sample.ordered).
Proof.
  assert (H : orders Sample.ordered !! 1 = Some (Order.mk 7 3500 OrderStatus.PENDING))
    by (vm_compute; reflexivity).
  split; [exact H|].
  exact (proj1 (proj2 (get_order_by_id_owner_filter Sample.ordered 1 _ H))).
Defined.

Lemma validate_items_run (items : list OrderItemCreate) (acc : list ItemData)
    (s : Session) :
  OrderService.validate_items items acc s =
    (match first_refusal (working s) items with
     | Some e => Raise e
     | None => Ok (acc ++ map (snapshot (working s)) items)
     end, s).
Proof.
  revert acc. induction items as [|line rest IH]; intros acc; cbn.
  - run_M. rewrite app_nil_r. reflexivity.
  - run_M. destruct (products (working s) !! item_product_id line) as [product|] eqn:Hp.
    + destruct (Product.is_in_stock product (item_quantity line)) eqn:Hin; cbn [negb].
      * rewrite IH. unfold snapshot at 2. rewrite Hp. cbn.
        rewrite <- app_assoc. reflexivity.
      * reflexivity.
    + reflexivity.
Qed.

Lemma first_refusal_refused (db : DB) (items : list OrderItemCreate) :
  Exists (refused db) items ->
  exists line e,
    line ∈ items /\ refused db line /\ first_refusal db items = Some e /\
    e = match products db !! item_product_id line with
        | None => ProductNotFound (item_product_id line)
        | Some product => InsufficientStock product
        end.
Proof.
  induction items as [|line rest IH]; intros Hex.
  - inversion Hex.
  - cbn. unfold refused in Hex |- *.
    destruct (products db !! item_product_id line) as [product|] eqn:Hp.
    + destruct (Product.is_in_stock product (item_quantity line)) eqn:Hin.
      * apply Exists_cons in Hex as [Hbad|Hex].
        { rewrite Hp in Hbad. congruence. }
        destruct (IH Hex) as (line' & e & Hel & Hbad & Hfirst & He).
        exists line', e. repeat split; auto. apply elem_of_cons; right; exact Hel.
      * exists line, (InsufficientStock product).
        rewrite Hp. repeat split; auto. apply elem_of_cons; left; reflexivity.
    + exists line, (ProductNotFound (item_product_id line)).
      rewrite Hp. repeat split; auto. apply elem_of_cons; left; reflexivity.
Qed.

Lemma is_in_stock_false (product : Product.t) (quantity : Z) :
  Product.is_in_stock product quantity = false <->
  Product.status product <> ProductStatus.ACTIVE \/ Product.stock product < quantity.
Proof.
  unfold Product.is_in_stock. rewrite andb_false_iff, bool_decide_eq_false.
  rewrite Z.geb_leb, Z.leb_gt. tauto.
Qed.

(** C8. A request with a refused line creates nothing.  If some line
    names a product that does not exist, or one that is not in stock for
    the quantity (inactive, or fewer in stock than asked), [create_order]
    raises the failure of such a line (404 "Product with ID .. not found",
    or 400 "Insufficient stock for product: ..") and leaves the session
    untouched: no order and no order item is added, neither to what is
    persisted nor to what the session itself sees. *)
Theorem create_order_refused_creates_nothing
    (db : DB) (user_id : Z) (items : list OrderItemCreate) :
  Exists (refused db) items ->
  (forall line,
     refused db line <->
     match products db !! item_product_id line with
     | None => True
     | Some product =>
         Product.status product <> ProductStatus.ACTIVE \/
         Product.stock product < item_quantity line
     end) /\
  exists line e,
    line ∈ items /\ refused db line /\
    e = match products db !! item_product_id line with
        | None => ProductNotFound (item_product_id line)
        | Some product => InsufficientStock product
        end /\
    OrderService.create_order user_id items (mkSession db db)
      = (Raise e, mkSession db db) /\
    run_request (OrderService.create_order user_id items) db = (Raise e, db).
Proof.
  intros Hex. split.
  { intros line. unfold refused.
    destruct (products db !! item_product_id line); [|tauto].
    apply is_in_stock_false. }
  destruct (first_refusal_refused db items Hex) as (line & e & Hel & Hbad & Hfirst & He).
  exists line, e. split; [exact Hel|]. split; [exact Hbad|]. split; [exact He|].
  assert (Hrun : OrderService.create_order user_id items (mkSession db db)
                 = (Raise e, mkSession db db)).
  { unfold OrderService.create_order. unfold mbind at 1. unfold M_bind at 1.
    rewrite validate_items_run. cbn [working]. rewrite Hfirst. reflexivity. }
  split; [exact Hrun|].
  apply run_request_eq in Hrun. exact Hrun.
Qed.

Lemma create_order_refused_creates_nothing_witness :
  Exists (refused Sample.catalog) [mkOrderItemCreate 1 3; mkOrderItemCreate 2 2] /\
  exists line e,
    line ∈ [mkOrderItemCreate 1 3; mkOrderItemCreate 2 2] /\
    refused Sample.catalog line /\
    e = match products Sample.catalog !! item_product_id line with
        | None => ProductNotFound (item_product_id line)
        | Some product => InsufficientStock product
        end /\
    OrderService.create_order 7 [mkOrderItemCreate 1 3; mkOrderItemCreate 2 2]
        (mkSession Sample.catalog Sample.catalog)
      = (Raise e, mkSession Sample.catalog Sample.catalog) /\
    run_request
        (OrderService.create_order 7 [mkOrderItemCreate 1 3; mkOrderItemCreate 2 2])
        Sample.catalog
      = (Raise e, Sample.catalog).
Proof.
  assert (H : Exists (refused Sample.catalog)
                [mkOrderItemCreate 1 3; mkOrderItemCreate 2 2]).
  { apply Exists_cons_tl, Exists_cons_hd. vm_compute. reflexivity. }
  split; [exact H|].
  exact (proj2 (create_order_refused_creates_nothing Sample.catalog 7 _ H)).
Defined.

Lemma add_items_run (order_id : Z) (data : list ItemData) (total : Z) (s : Session) :
  OrderService.add_items order_id data total s =
    (Ok (total + data_total data),
     mkSession (committed s)
       (mkDB (products (working s)) (orders (working s))
          (order_items (working s)
             ++ item_rows order_id (order_items_seq (working s)) data)
          (payments (working s)) (orders_seq (working s))
          (order_items_seq (working s) + Z.of_nat (length data))
          (payments_seq (working s)))).
Proof.
  revert total s. induction data as [|d rest IH]; intros total s; cbn.
  - run_M. rewrite app_nil_r, !Z.add_0_r. destruct s as [c []]; reflexivity.
  - unfold OrderService.add_order_item. run_M. rewrite IH. cbn.
    rewrite <- app_assoc. cbn. fold (data_total rest).
    replace (total + data_price d * data_quantity d + data_total rest)
      with (total + (data_price d * data_quantity d + data_total rest)) by lia.
    replace (order_items_seq (working s) + 1 + Z.of_nat (length rest))
      with (order_items_seq (working s) + Z.pos (Pos.of_succ_nat (length rest))) by lia.
    reflexivity.
Qed.

Lemma create_order_run (user_id : Z) (items : list OrderItemCreate) (db : DB) :
  OrderService.create_order user_id items (mkSession db db) =
    match first_refusal db items with
    | Some e => (Raise e, mkSession db db)
    | None =>
        match orders db !! orders_seq db with
        | Some _ =>
            (Raise (DBAPIError "duplicate key value violates unique constraint"),
             mkSession db db)
        | None =>
            let data := map (snapshot db) items in
            let order := Order.mk user_id (data_total data) OrderStatus.PENDING in
            let db' :=
              mkDB (products db) (<[orders_seq db := order]> (orders db))
                (order_items db ++ item_rows (orders_seq db) (order_items_seq db) data)
                (payments db) (orders_seq db + 1)
                (order_items_seq db + Z.of_nat (length data)) (payments_seq db) in
            (Ok (orders_seq db, order), mkSession db' db')
        end
    end.
Proof.
  unfold OrderService.create_order. unfold mbind at 1. unfold M_bind at 1.
  rewrite validate_items_run. cbn [working].
  destruct (first_refusal db items) as [e|]; [reflexivity|]. cbn [app].
  unfold OrderService.add_order. run_M. cbn [working].
  destruct (orders db !! orders_seq db) as [o|]; [reflexivity|].
  rewrite add_items_run. cbn.
  rewrite insert_insert_eq. reflexivity.
Qed.

Lemma item_rows_total (order_id seq : Z) (data : list ItemData) :
  items_total (item_rows order_id seq data) = data_total data.
Proof.
  revert seq. induction data as [|d rest IH]; intros seq; cbn; [reflexivity|].
  f_equal. apply IH.
Qed.

Lemma item_rows_filter (order_id seq : Z) (data : list ItemData) :
  filter (fun item => OrderItem.order_id item = order_id) (item_rows order_id seq data)
    = item_rows order_id seq data.
Proof.
  revert seq. induction data as [|d rest IH]; intros seq; cbn [item_rows];
    [reflexivity|].
  rewrite filter_cons_True by reflexivity. f_equal. apply IH.
Qed.

Lemma item_rows_snapshot (db : DB) (order_id seq : Z) (items : list OrderItemCreate) :
  first_refusal db items = None ->
  Forall2 (snapshot_of db) items (item_rows order_id seq (map (snapshot db) items)).
Proof.
  revert seq. induction items as [|line rest IH]; intros seq Hacc; cbn.
  - constructor.
  - cbn in Hacc.
    destruct (products db !! item_product_id line) as [product|] eqn:Hp; [|discriminate].
    destruct (Product.is_in_stock product (item_quantity line)); [|discriminate].
    constructor; [|apply IH, Hacc].
    unfold snapshot_of, snapshot. cbn. rewrite Hp. cbn. auto.
Qed.

Lemma fk_no_items_of_new_order (db : DB) (order_id : Z) :
  order_items_fk db -> orders db !! order_id = None ->
  filter (fun item => OrderItem.order_id item = order_id) (order_items db) = [].
Proof.
  unfold order_items_fk. intros Hfk Hnone.
  induction (order_items db) as [|item rest IH]; [reflexivity|].
  apply Forall_cons in Hfk as [Hitem Hrest].
  rewrite filter_cons_False; [apply IH, Hrest|].
  intros Heq. rewrite Heq, Hnone in Hitem. destruct Hitem as [o Ho]. discriminate.
Qed.

Lemma update_price_keeps_orders (product_id price : Z) (db : DB) :
  orders (persisted (ProductService.update_price product_id price) db) = orders db /\
  order_items (persisted (ProductService.update_price product_id price) db)
    = order_items db.
Proof.
  unfold persisted, run_request, ProductService.update_price,
    ProductService.get_product_by_id.
  run_M. cbn [working].
  destruct (products db !! product_id); cbn; split; reflexivity.
Qed.

(** C5. The total of a created order.  When [create_order] returns an
    order, the order is stored as returned, in status PENDING, its items
    are the requested lines in order, each with the price its product had
    when the order was made, and [total_amount] is the sum of
    [price * quantity] over these items.  A later change of a product's
    price changes neither the order nor its items, so the total is still
    that sum.  Scenario A: 3 at 10.00 and 1 at 5.00 give a PENDING order
    with total 35.00. *)
Theorem create_order_total (db db' : DB) (user_id order_id : Z)
    (items : list OrderItemCreate) (order : Order.t) :
  order_items_fk db ->
  run_request (OrderService.create_order user_id items) db = (Ok (order_id, order), db') ->
  orders db' !! order_id = Some order /\
  Order.status order = OrderStatus.PENDING /\
  Forall2 (snapshot_of db) items (order_items_of db' order_id) /\
  Order.total_amount order = items_total (order_items_of db' order_id) /\
  (forall product_id price,
     let db'' := persisted (ProductService.update_price product_id price) db' in
     orders db'' !! order_id = Some order /\
     order_items_of db'' order_id = order_items_of db' order_id /\
     Order.total_amount order = items_total (order_items_of db'' order_id)) /\
  run_request (OrderService.create_order 7 Sample.basket) Sample.catalog
    = (Ok (1, Order.mk 7 3500 OrderStatus.PENDING), Sample.ordered).
Proof.
  intros Hfk Hrun. unfold run_request in Hrun. rewrite create_order_run in Hrun.
  destruct (first_refusal db items) as [e|] eqn:Hacc; [discriminate|].
  destruct (orders db !! orders_seq db) as [o|] eqn:Hfresh; [discriminate|].
  cbn in Hrun. injection Hrun as <- <- <-.
  set (data := map (snapshot db) items).
  assert (Hitems : forall d,
    order_items d = order_items db ++ item_rows (orders_seq db) (order_items_seq db) data ->
    order_items_of d (orders_seq db) = item_rows (orders_seq db) (order_items_seq db) data).
  { intros d Hd. unfold order_items_of. rewrite Hd, filter_app.
    rewrite fk_no_items_of_new_order by assumption.
    apply item_rows_filter. }
  set (db1 := mkDB _ _ _ _ _ _ _).
  assert (Hd1 : order_items db1
                = order_items db ++ item_rows (orders_seq db) (order_items_seq db) data)
    by reflexivity.
  rewrite (Hitems db1 Hd1).
  split; [cbn; apply lookup_insert_eq|]. split; [reflexivity|].
  split; [apply item_rows_snapshot, Hacc|].
  split; [cbn; symmetry; apply item_rows_total|].
  split; [|vm_compute; reflexivity].
  intros product_id price db''.
  destruct (update_price_keeps_orders product_id price db1) as [Ho Hi].
  fold db'' in Ho, Hi. rewrite Hd1 in Hi. rewrite (Hitems db'' Hi), Ho.
  split; [cbn; apply lookup_insert_eq|]. split; [reflexivity|].
  cbn. symmetry. apply item_rows_total.
Qed.

Lemma create_order_total_witness :
  order_items_fk Sample.catalog /\
  run_request (OrderService.create_order 7 Sample.basket) Sample.catalog
    = (Ok (1, Order.mk 7 3500 OrderStatus.PENDING), Sample.ordered) /\
  Order.total_amount (Order.mk 7 3500 OrderStatus.PENDING)
    = items_total (order_items_of Sample.ordered 1).
Proof.
  assert (Hfk : order_items_fk Sample.catalog) by (vm_compute; constructor).
  assert (Hrun : run_request (OrderService.create_order 7 Sample.basket) Sample.catalog
                 = (Ok (1, Order.mk 7 3500 OrderStatus.PENDING), Sample.ordered))
    by (vm_compute; reflexivity).
  split; [exact Hfk|]. split; [exact Hrun|].
  exact (proj1 (proj2 (proj2 (proj2
    (create_order_total Sample.catalog Sample.ordered 7 1 Sample.basket _ Hfk Hrun))))).
Defined.

(** ** Payments *)

Lemma get_provider_or_400_run providers provider_name (s : Session) :
  PaymentService.get_provider_or_400 providers provider_name s =
    (match providers !! provider_name with
     | Some provider => Ok provider
     | None =>
         Raise (HTTPException HTTP_400_BAD_REQUEST
                  (JStr ("Payment provider '" +:+ provider_name +:+ "' not found")))
     end, s).
Proof.
  unfold PaymentService.get_provider_or_400, PaymentFactory.get_provider.
  destruct (providers !! provider_name); reflexivity.
Qed.

(** C7. What [create_payment] refuses.  For an order of the caller:
    when the order is not PENDING (PAID or CANCELED), the call fails with
    400 "Order is not in pending status", before any adapter is looked
    up; when the order is PENDING and the adapter of the named provider
    answers with a result whose [success] is not truthy, the call fails
    with 400 and carries the adapter's [error] (or "Payment creation
    failed" when the result has none).  In both cases nothing is
    persisted: the store, and with it the payments table, is as
    before. *)
Theorem create_payment_refusals
    (providers : gmap string PaymentProvider.t) (db : DB)
    (order_id user_id : Z) (provider_name : string) (metadata : json)
    (order : Order.t) :
  orders db !! order_id = Some order ->
  Order.user_id order = user_id ->
  (Order.status order <> OrderStatus.PENDING ->
   run_request (PaymentService.create_payment providers order_id provider_name
                  user_id metadata) db
     = (Raise InvalidTransition, db)) /\
  (forall provider result,
     Order.status order = OrderStatus.PENDING ->
     providers !! provider_name = Some provider ->
     PaymentProvider.create_payment provider (Order.total_amount order) order_id metadata
       = Ok (JDict result) ->
     truthy (default JNull (assoc "success" result)) = false ->
     run_request (PaymentService.create_payment providers order_id provider_name
                    user_id metadata) db
       = (Raise (HTTPException HTTP_400_BAD_REQUEST
                   (default (JStr "Payment creation failed") (assoc "error" result))),
          db)).
Proof.
  intros Ho Hu.
  assert (Hget : forall s, working s = db ->
            OrderService.get_order_by_id order_id (Some user_id) s = (Ok order, s)).
  { intros s Hs. rewrite get_order_by_id_run, Hs, Ho. cbn [truthy_id default].
    destruct (negb (user_id =? 0)); [|reflexivity].
    unfold OrderService.filter_user_id.
    rewrite bool_decide_eq_true_2 by exact Hu. reflexivity. }
  split.
  - intros Hst. apply (run_request_eq _ db _ (mkSession db db)).
    unfold PaymentService.create_payment. unfold mbind at 1. unfold M_bind at 1.
    rewrite Hget by reflexivity.
    rewrite bool_decide_eq_false_2 by exact Hst. reflexivity.
  - intros provider result Hst Hp Hres Hfail.
    apply (run_request_eq _ db _ (mkSession db db)).
    unfold PaymentService.create_payment. unfold mbind at 1. unfold M_bind at 1.
    rewrite Hget by reflexivity.
    rewrite bool_decide_eq_true_2 by exact Hst. cbn [negb].
    unfold mbind at 1. unfold M_bind at 1.
    rewrite get_provider_or_400_run, Hp.
    run_M. rewrite Hres. cbn [py_get py_get_default].
    destruct (assoc "success" result) as [v|]; cbn in Hfail;
      [rewrite Hfail|]; cbn [truthy negb];
      destruct (assoc "error" result); reflexivity.
Qed.

Lemma create_payment_refusals_witness :
  orders Sample.paid !! 1 = Some (Order.mk 7 3500 OrderStatus.PAID) /\
  run_request (PaymentService.create_payment Sample.providers 1 "stripe" 7 JNull)
      Sample.paid
    = (Raise InvalidTransition, Sample.paid) /\
  run_request
      (PaymentService.create_payment (PaymentFactory.registered Sample.env_refusing)
         1 "stripe" 7 JNull) Sample.ordered
    = (Raise (HTTPException HTTP_400_BAD_REQUEST (JStr "Your card was declined.")),
       Sample.ordered).
Proof.
  assert (Hpaid : orders Sample.paid !! 1 = Some (Order.mk 7 3500 OrderStatus.PAID))
    by (vm_compute; reflexivity).
  assert (Hpending : orders Sample.ordered !! 1
                     = Some (Order.mk 7 3500 OrderStatus.PENDING))
    by (vm_compute; reflexivity).
  split; [exact Hpaid|]. split.
  - apply (proj1 (create_payment_refusals Sample.providers Sample.paid 1 7 "stripe"
                    JNull _ Hpaid eq_refl)).
    discriminate.
  - apply (proj2 (create_payment_refusals (PaymentFactory.registered Sample.env_refusing)
                    Sample.ordered 1 7 "stripe" JNull _ Hpending eq_refl)
             (StripeProvider.instance Sample.env_refusing)
             [("success", JBool false); ("error", JStr "Your card was declined.");
              ("transaction_id", JNull)]);
      vm_compute; reflexivity.
Defined.

(** C9. A webhook for a transaction nobody knows.  When the adapter
    normalizes the payload to a successful result and no stored payment
    carries the result's [transaction_id], [handle_webhook] returns the
    adapter's result, it does not raise, and the store is exactly as
    before: no payment, order or stock changes. *)
Theorem webhook_unknown_transaction_ignored
    (providers : gmap string PaymentProvider.t) (db : DB)
    (provider_name : string) (payload : json)
    (provider : PaymentProvider.t) (result : list (string * json)) :
  providers !! provider_name = Some provider ->
  PaymentProvider.handle_webhook provider payload = Ok (JDict result) ->
  truthy (default JNull (assoc "success" result)) = true ->
  payment_by_transaction_id db (default JNull (assoc "transaction_id" result)) = None ->
  run_request (PaymentService.handle_webhook providers provider_name payload) db
    = (Ok (JDict result), db).
Proof.
  intros Hp Hres Hok Hnone.
  apply (run_request_eq _ db _ (mkSession db db)).
  unfold PaymentService.handle_webhook. unfold mbind at 1. unfold M_bind at 1.
  rewrite get_provider_or_400_run, Hp.
  run_M. rewrite Hres. cbn [py_get py_get_default].
  change (match assoc "success" result with Some v => v | None => JNull end)
    with (default JNull (assoc "success" result)).
  rewrite Hok. cbn [negb].
  change (match assoc "transaction_id" result with Some v => v | None => JNull end)
    with (default JNull (assoc "transaction_id" result)).
  destruct (truthy (default JNull (assoc "transaction_id" result))); [|reflexivity].
  cbn [working]. rewrite Hnone. reflexivity.
Qed.

Lemma webhook_unknown_transaction_ignored_witness :
  run_request
      (PaymentService.handle_webhook Sample.providers "bkash"
         (JDict [("paymentID", JStr "BKASH-UNKNOWN"); ("status", JStr "success")]))
      Sample.paying
    = (Ok (JDict [("success", JBool true);
                  ("transaction_id", JStr "BKASH-UNKNOWN");
                  ("status", JStr "success");
                  ("raw_response",
                   JDict [("paymentID", JStr "BKASH-UNKNOWN");
                          ("status", JStr "success")])]),
       Sample.paying).
Proof.
  apply (webhook_unknown_transaction_ignored Sample.providers Sample.paying "bkash"
           _ (BkashProvider.instance Sample.env));
    vm_compute; reflexivity.
Defined.

(** *** Rows under [update_payment] *)

Lemma update_payment_by_transaction_id (db : DB) (v : json) (p p' : Payment.t) :
  payment_by_transaction_id db v = Some p ->
  Payment.id p' = Payment.id p ->
  Payment.transaction_id p' = Payment.transaction_id p ->
  payment_by_transaction_id (update_payment p' db) v = Some p'.
Proof.
  unfold payment_by_transaction_id, update_payment. cbn [payments with_payments].
  intros Hfound Hid Htxn.
  assert (Hp : transaction_id_is v p).
  { apply head_Some_elem_of, list_elem_of_filter in Hfound. tauto. }
  assert (Hp' : transaction_id_is v p').
  { unfold transaction_id_is in *. rewrite Htxn. exact Hp. }
  induction (payments db) as [|q rest IH]; [discriminate|].
  rewrite fmap_cons.
  destruct (decide (transaction_id_is v q)) as [Hq|Hq].
  - rewrite filter_cons_True in Hfound by exact Hq. injection Hfound as ->.
    rewrite bool_decide_eq_true_2 by (symmetry; exact Hid).
    rewrite filter_cons_True by exact Hp'. reflexivity.
  - rewrite filter_cons_False in Hfound by exact Hq.
    destruct (bool_decide (Payment.id q = Payment.id p')).
    + rewrite filter_cons_True by exact Hp'. reflexivity.
    + rewrite filter_cons_False by exact Hq. apply IH, Hfound.
Qed.

Lemma update_payment_by_id (db : DB) (p p' : Payment.t) :
  payment_by_id db (Payment.id p) = Some p ->
  Payment.id p' = Payment.id p ->
  payment_by_id (update_payment p' db) (Payment.id p) = Some p'.
Proof.
  unfold payment_by_id, update_payment. cbn [payments with_payments].
  intros Hfound Hid.
  induction (payments db) as [|q rest IH]; [discriminate|].
  rewrite fmap_cons.
  destruct (decide (Payment.id q = Payment.id p)) as [Hq|Hq].
  - rewrite bool_decide_eq_true_2 by congruence.
    rewrite filter_cons_True by exact Hid. reflexivity.
  - rewrite filter_cons_False in Hfound by exact Hq.
    rewrite bool_decide_eq_false_2 by congruence.
    rewrite filter_cons_False by exact Hq. apply IH, Hfound.
Qed.

Lemma update_payment_twice (db : DB) (p' : Payment.t) :
  update_payment p' (update_payment p' db) = update_payment p' db.
Proof.
  unfold update_payment. cbn [payments with_payments]. unfold with_payments. cbn.
  f_equal. rewrite <- list_fmap_compose. apply list_fmap_ext.
  intros i q _. cbn.
  destruct (bool_decide (Payment.id q = Payment.id p')) eqn:Hq.
  - rewrite bool_decide_eq_true_2 by reflexivity. reflexivity.
  - rewrite Hq. reflexivity.
Qed.

(** *** A webhook that finds its payment *)

Section webhook_found.
Variable providers : gmap string PaymentProvider.t.
Variable provider_name : string.
Variable payload : json.
Variable provider : PaymentProvider.t.
Variable result : list (string * json).

Hypothesis Hprovider : providers !! provider_name = Some provider.
Hypothesis Hresult : PaymentProvider.handle_webhook provider payload = Ok (JDict result).
Hypothesis Hsuccess : truthy (default JNull (assoc "success" result)) = true.
Hypothesis Htruthy : truthy (default JNull (assoc "transaction_id" result)) = true.

Let transaction_id : json := default JNull (assoc "transaction_id" result).
Let status : json := default JNull (assoc "status" result).
Let raw_response : json := default JNull (assoc "raw_response" result).

Lemma handle_webhook_found_run (db0 db : DB) (payment : Payment.t) :
  payment_by_transaction_id db transaction_id = Some payment ->
  PaymentService.handle_webhook providers provider_name payload (mkSession db0 db) =
    if eq_str status "success" then
      let payment' :=
        Payment.with_raw_response (Payment.mark_as_success payment) raw_response in
      match OrderService.mark_order_as_paid (Payment.order_id payment')
              (mkSession db0 (update_payment payment' db)) with
      | (Ok _, s) => (Ok (JDict result), mkSession (working s) (working s))
      | (Raise e, s) => (Raise e, s)
      end
    else if eq_str status "failed" then
      let payment' :=
        Payment.with_raw_response (Payment.mark_as_failed payment) raw_response in
      (Ok (JDict result),
       mkSession (update_payment payment' db) (update_payment payment' db))
    else (Ok (JDict result), mkSession db db).
Proof.
  intros Hfound.
  unfold PaymentService.handle_webhook. unfold mbind at 1. unfold M_bind at 1.
  rewrite get_provider_or_400_run, Hprovider.
  run_M. rewrite Hresult. cbn [py_get py_get_default].
  change (match assoc "success" result with Some v => v | None => JNull end)
    with (default JNull (assoc "success" result)).
  rewrite Hsuccess. cbn [negb].
  change (match assoc "transaction_id" result with Some v => v | None => JNull end)
    with transaction_id.
  change (match assoc "status" result with Some v => v | None => JNull end)
    with status.
  change (match assoc "raw_response" result with Some v => v | None => JNull end)
    with raw_response.
  unfold transaction_id at 1. rewrite Htruthy. cbn [working]. rewrite Hfound.
  destruct (eq_str status "success").
  - cbn [working committed].
    destruct (OrderService.mark_order_as_paid _ _) as [[o|e] s]; reflexivity.
  - destruct (eq_str status "failed"); reflexivity.
Qed.
End webhook_found.

Section webhook_delivery.
Variable providers : gmap string PaymentProvider.t.
Variable provider_name : string.
Variable payload : json.

Let request : M json :=
  PaymentService.handle_webhook providers provider_name payload.

(** Either the request leaves the store alone, or it found the payment
    its adapter result names. *)
Lemma handle_webhook_cases (db : DB) :
  persisted request db = db \/
  exists provider result payment,
    providers !! provider_name = Some provider /\
    PaymentProvider.handle_webhook provider payload = Ok (JDict result) /\
    truthy (default JNull (assoc "success" result)) = true /\
    truthy (default JNull (assoc "transaction_id" result)) = true /\
    payment_by_transaction_id db (default JNull (assoc "transaction_id" result))
      = Some payment.
Proof.
  destruct (providers !! provider_name) as [provider|] eqn:Hp.
  2:{ left. unfold persisted, run_request, request, PaymentService.handle_webhook.
      unfold mbind at 1. unfold M_bind at 1.
      rewrite get_provider_or_400_run, Hp. reflexivity. }
  unfold persisted, run_request, request, PaymentService.handle_webhook.
  unfold mbind at 1. unfold M_bind at 1.
  rewrite get_provider_or_400_run, Hp. run_M.
  destruct (PaymentProvider.handle_webhook provider payload) as [v|e] eqn:Hres;
    [|left; reflexivity].
  destruct v as [| | | | |result]; try (left; reflexivity).
  cbn [py_get py_get_default].
  change (match assoc "success" result with Some v => v | None => JNull end)
    with (default JNull (assoc "success" result)).
  change (match assoc "transaction_id" result with Some v => v | None => JNull end)
    with (default JNull (assoc "transaction_id" result)).
  destruct (truthy (default JNull (assoc "success" result))) eqn:Hok;
    [|left; reflexivity].
  cbn [negb].
  destruct (truthy (default JNull (assoc "transaction_id" result))) eqn:Htid;
    [|left; reflexivity].
  cbn [working].
  destruct (payment_by_transaction_id db _) as [payment|] eqn:Hfound;
    [|left; reflexivity].
  right. exists provider, result, payment. auto.
Qed.
End webhook_delivery.

Section webhook_applied.
Variable providers : gmap string PaymentProvider.t.
Variable provider_name : string.
Variable payload : json.
Variable provider : PaymentProvider.t.
Variable result : list (string * json).

Hypothesis Hprovider : providers !! provider_name = Some provider.
Hypothesis Hresult : PaymentProvider.handle_webhook provider payload = Ok (JDict result).
Hypothesis Hsuccess : truthy (default JNull (assoc "success" result)) = true.
Hypothesis Htruthy : truthy (default JNull (assoc "transaction_id" result)) = true.

Let request : M json :=
  PaymentService.handle_webhook providers provider_name payload.
Let transaction_id : json := default JNull (assoc "transaction_id" result).
Let status : json := default JNull (assoc "status" result).
Let raw_response : json := default JNull (assoc "raw_response" result).

(** A success webhook for a stored payment. *)
Lemma webhook_success_run (db : DB) (payment : Payment.t) :
  payment_by_transaction_id db transaction_id = Some payment ->
  eq_str status "success" = true ->
  run_request request db =
    let payment' :=
      Payment.with_raw_response (Payment.mark_as_success payment) raw_response in
    match orders db !! Payment.order_id payment with
    | None => (Raise OrderNotFound, db)
    | Some order =>
        if bool_decide (Order.status order = OrderStatus.PENDING) then
          let '(order', products', exn) :=
            Order.mark_as_paid order (order_items_of db (Payment.order_id payment))
              (products db) in
          match exn with
          | Some e => (Raise e, db)
          | None =>
              (Ok (JDict result),
               with_products
                 (with_orders (update_payment payment' db)
                    (<[Payment.order_id payment := order']> (orders db)))
                 products')
          end
        else (Raise InvalidTransition, db)
    end.
Proof.
  intros Hfound Hst. unfold run_request, request.
  rewrite (handle_webhook_found_run providers provider_name payload provider result
             Hprovider Hresult Hsuccess Htruthy db db payment Hfound).
  fold status. rewrite Hst. cbn zeta.
  rewrite mark_order_as_paid_run. cbn [working committed].
  change (orders (update_payment _ db)) with (orders db).
  change (Payment.order_id (Payment.with_raw_response _ _))
    with (Payment.order_id payment).
  destruct (orders db !! Payment.order_id payment) as [order|]; [|reflexivity].
  destruct (bool_decide (Order.status order = OrderStatus.PENDING)); [|reflexivity].
  change (order_items_of (update_payment _ db) (Payment.order_id payment))
    with (order_items_of db (Payment.order_id payment)).
  change (products (update_payment _ db)) with (products db).
  destruct (Order.mark_as_paid order _ _) as [[order' products'] [e|]]; reflexivity.
Qed.

(** A failure webhook for a stored payment. *)
Lemma webhook_failed_run (db : DB) (payment : Payment.t) :
  payment_by_transaction_id db transaction_id = Some payment ->
  eq_str status "success" = false ->
  eq_str status "failed" = true ->
  run_request request db =
    (Ok (JDict result),
     update_payment
       (Payment.with_raw_response (Payment.mark_as_failed payment) raw_response) db).
Proof.
  intros Hfound Hs Hf. unfold run_request, request.
  rewrite (handle_webhook_found_run providers provider_name payload provider result
             Hprovider Hresult Hsuccess Htruthy db db payment Hfound).
  fold status. rewrite Hs, Hf. reflexivity.
Qed.

(** Any other status for a stored payment. *)
Lemma webhook_other_run (db : DB) (payment : Payment.t) :
  payment_by_transaction_id db transaction_id = Some payment ->
  eq_str status "success" = false ->
  eq_str status "failed" = false ->
  run_request request db = (Ok (JDict result), db).
Proof.
  intros Hfound Hs Hf. unfold run_request, request.
  rewrite (handle_webhook_found_run providers provider_name payload provider result
             Hprovider Hresult Hsuccess Htruthy db db payment Hfound).
  fold status. rewrite Hs, Hf. reflexivity.
Qed.
End webhook_applied.

Lemma mark_as_paid_status (order : Order.t) items prods order' prods' exn :
  Order.mark_as_paid order items prods = (order', prods', exn) ->
  Order.status order' = OrderStatus.PAID.
Proof.
  unfold Order.mark_as_paid.
  destruct (Order.reduce_items items prods) as [p e]. intros [= <- _ _]. reflexivity.
Qed.

(** A success webhook that was applied is refused when it comes again. *)
Lemma webhook_success_again
    (providers : gmap string PaymentProvider.t) (provider_name : string)
    (payload : json) (provider : PaymentProvider.t) (result : list (string * json))
    (db db' : DB) (payment : Payment.t) (r : json) :
  providers !! provider_name = Some provider ->
  PaymentProvider.handle_webhook provider payload = Ok (JDict result) ->
  truthy (default JNull (assoc "success" result)) = true ->
  truthy (default JNull (assoc "transaction_id" result)) = true ->
  payment_by_transaction_id db (default JNull (assoc "transaction_id" result))
    = Some payment ->
  eq_str (default JNull (assoc "status" result)) "success" = true ->
  run_request (PaymentService.handle_webhook providers provider_name payload) db
    = (Ok r, db') ->
  run_request (PaymentService.handle_webhook providers provider_name payload) db'
    = (Raise InvalidTransition, db').
Proof.
  intros Hp Hres Hok Htid Hfound Hst Hrun.
  rewrite (webhook_success_run providers provider_name payload provider result
             Hp Hres Hok Htid db payment Hfound Hst) in Hrun.
  cbn zeta in Hrun.
  destruct (orders db !! Payment.order_id payment) as [order|]; [|discriminate].
  destruct (bool_decide (Order.status order = OrderStatus.PENDING)); [|discriminate].
  destruct (Order.mark_as_paid order _ _) as [[order' products'] [e|]] eqn:Hpaid;
    [discriminate|].
  injection Hrun as _ <-.
  set (payment' := Payment.with_raw_response (Payment.mark_as_success payment) _).
  set (db1 := with_products _ _).
  assert (Hfound1 : payment_by_transaction_id db1
                      (default JNull (assoc "transaction_id" result)) = Some payment').
  { change (payment_by_transaction_id db1 ?v)
      with (payment_by_transaction_id (update_payment payment' db) v).
    apply (update_payment_by_transaction_id db _ payment); auto. }
  rewrite (webhook_success_run providers provider_name payload provider result
             Hp Hres Hok Htid db1 payment' Hfound1 Hst).
  cbn zeta.
  change (Payment.order_id payment') with (Payment.order_id payment).
  change (orders db1) with (<[Payment.order_id payment := order']> (orders db)).
  rewrite lookup_insert_eq.
  rewrite bool_decide_eq_false_2; [reflexivity|].
  rewrite (mark_as_paid_status _ _ _ _ _ _ Hpaid). discriminate.
Qed.

(** One more delivery of the same webhook changes nothing. *)
Lemma handle_webhook_idempotent
    (providers : gmap string PaymentProvider.t) (provider_name : string)
    (payload : json) (db : DB) :
  persisted (PaymentService.handle_webhook providers provider_name payload)
    (persisted (PaymentService.handle_webhook providers provider_name payload) db)
  = persisted (PaymentService.handle_webhook providers provider_name payload) db.
Proof.
  set (request := PaymentService.handle_webhook providers provider_name payload).
  destruct (handle_webhook_cases providers provider_name payload db)
    as [Hsame | (provider & result & payment & Hp & Hres & Hok & Htid & Hfound)].
  { fold request in Hsame. rewrite !Hsame. reflexivity. }
  destruct (eq_str (default JNull (assoc "status" result)) "success") eqn:Hst.
  - destruct (run_request request db) as [[r|e] db'] eqn:Hrun.
    + unfold persisted. rewrite Hrun. cbn [snd].
      unfold request.
      rewrite (webhook_success_again providers provider_name payload provider result
                 db db' payment r Hp Hres Hok Htid Hfound Hst Hrun).
      reflexivity.
    + assert (Hsame : db' = db).
      { unfold request in Hrun.
        rewrite (webhook_success_run providers provider_name payload provider result
                   Hp Hres Hok Htid db payment Hfound Hst) in Hrun.
        cbn zeta in Hrun.
        destruct (orders db !! Payment.order_id payment) as [order|];
          [|congruence].
        destruct (bool_decide (Order.status order = OrderStatus.PENDING));
          [|congruence].
        destruct (Order.mark_as_paid order _ _) as [[order' products'] [e'|]];
          congruence. }
      subst db'. unfold persisted. rewrite !Hrun. cbn [snd]. rewrite Hrun. reflexivity.
  - destruct (eq_str (default JNull (assoc "status" result)) "failed") eqn:Hfl.
    + unfold persisted, request.
      rewrite (webhook_failed_run providers provider_name payload provider result
                 Hp Hres Hok Htid db payment Hfound Hst Hfl).
      cbn [snd].
      set (payment' := Payment.with_raw_response (Payment.mark_as_failed payment) _).
      assert (Hfound1 : payment_by_transaction_id (update_payment payment' db)
                          (default JNull (assoc "transaction_id" result))
                        = Some payment').
      { apply (update_payment_by_transaction_id db _ payment); auto. }
      rewrite (webhook_failed_run providers provider_name payload provider result
                 Hp Hres Hok Htid _ payment' Hfound1 Hst Hfl).
      cbn [snd].
      change (Payment.with_raw_response (Payment.mark_as_failed payment') _)
        with payment'.
      apply update_payment_twice.
    + unfold persisted, request.
      rewrite !(webhook_other_run providers provider_name payload provider result
                  Hp Hres Hok Htid db payment Hfound Hst Hfl).
      cbn [snd].
      rewrite (webhook_other_run providers provider_name payload provider result
                 Hp Hres Hok Htid db payment Hfound Hst Hfl).
      reflexivity.
Qed.

Lemma deliver_once_more
    (providers : gmap string PaymentProvider.t) (provider_name : string)
    (payload : json) (db : DB) (n : nat) :
  deliver providers provider_name payload (S n) db
  = deliver providers provider_name payload 1 db.
Proof.
  induction n as [|n IH]; [reflexivity|].
  change (deliver providers provider_name payload (S (S n)) db)
    with (persisted (PaymentService.handle_webhook providers provider_name payload)
            (deliver providers provider_name payload (S n) db)).
  rewrite IH. apply handle_webhook_idempotent.
Qed.

(** C1, as the code has it.  Delivering the same webhook [n >= 1] times
    leaves exactly the store that one delivery leaves: the same payment
    statuses, order statuses and stocks, so a success webhook takes the
    ordered quantities from stock once.  The repeated delivery is not
    accepted silently, though: once a success webhook has been applied
    to its payment, the same webhook delivered again is answered with
    400 "Order is not in pending status", and nothing of it is kept. *)
Theorem webhook_redelivery_same_state
    (providers : gmap string PaymentProvider.t) (provider_name : string)
    (payload : json) (db : DB) (n : nat) :
  (1 <= n)%nat ->
  deliver providers provider_name payload n db
    = deliver providers provider_name payload 1 db /\
  (forall payment_id,
     payment_status (deliver providers provider_name payload n db) payment_id
     = payment_status (deliver providers provider_name payload 1 db) payment_id) /\
  (forall order_id,
     order_status (deliver providers provider_name payload n db) order_id
     = order_status (deliver providers provider_name payload 1 db) order_id) /\
  (forall product_id,
     product_stock (deliver providers provider_name payload n db) product_id
     = product_stock (deliver providers provider_name payload 1 db) product_id) /\
  (forall provider result payment r,
     providers !! provider_name = Some provider ->
     PaymentProvider.handle_webhook provider payload = Ok (JDict result) ->
     truthy (default JNull (assoc "success" result)) = true ->
     truthy (default JNull (assoc "transaction_id" result)) = true ->
     payment_by_transaction_id db (default JNull (assoc "transaction_id" result))
       = Some payment ->
     eq_str (default JNull (assoc "status" result)) "success" = true ->
     (run_request (PaymentService.handle_webhook providers provider_name payload) db).1
       = Ok r ->
     run_request (PaymentService.handle_webhook providers provider_name payload)
         (deliver providers provider_name payload 1 db)
       = (Raise InvalidTransition, deliver providers provider_name payload 1 db)).
Proof.
  intros Hn.
  assert (Heq : deliver providers provider_name payload n db
                = deliver providers provider_name payload 1 db).
  { destruct n as [|n]; [lia|]. apply deliver_once_more. }
  split; [exact Heq|]. rewrite Heq.
  split; [reflexivity|]. split; [reflexivity|]. split; [reflexivity|].
  intros provider result payment r Hp Hres Hok Htid Hfound Hst Hrun.
  change (deliver providers provider_name payload 1 db)
    with (persisted (PaymentService.handle_webhook providers provider_name payload) db).
  unfold persisted.
  destruct (run_request (PaymentService.handle_webhook providers provider_name payload) db)
    as [r0 db'] eqn:Hrun0.
  cbn [fst snd] in *. subst r0.
  exact (webhook_success_again providers provider_name payload provider result
           db db' payment r Hp Hres Hok Htid Hfound Hst Hrun0).
Qed.

Lemma webhook_redelivery_same_state_witness :
  (1 <= 3)%nat /\
  deliver Sample.providers "bkash" Sample.bkash_success 3 Sample.paying
    = deliver Sample.providers "bkash" Sample.bkash_success 1 Sample.paying.
Proof.
  assert (H : (1 <= 3)%nat) by lia.
  split; [exact H|].
  exact (proj1 (webhook_redelivery_same_state Sample.providers "bkash"
                  Sample.bkash_success Sample.paying 3 H)).
Defined.

(** C1 as stated fails: the success webhook for the pending bKash
    payment is accepted the first time and raises the second time. *)
Lemma duplicate_success_webhook_raises :
  (run_request (PaymentService.handle_webhook Sample.providers "bkash"
                  Sample.bkash_success) Sample.paying).1
    = Ok (JDict [("success", JBool true);
                 ("transaction_id", JStr Sample.txn);
                 ("status", JStr "success");
                 ("raw_response", Sample.bkash_success)]) /\
  (run_request (PaymentService.handle_webhook Sample.providers "bkash"
                  Sample.bkash_success)
     (deliver Sample.providers "bkash" Sample.bkash_success 1 Sample.paying)).1
    = Raise InvalidTransition.
Proof. vm_compute. split; reflexivity. Qed.

(** *** Confirming and querying a stored payment *)

Section stored_payment.
Variable providers : gmap string PaymentProvider.t.
Variable db : DB.
Variable payment : Payment.t.
Variable provider : PaymentProvider.t.
Variable result : list (string * json).

Hypothesis Hstored : payment_by_id db (Payment.id payment) = Some payment.
Hypothesis Hprovider :
  providers !! PaymentProviderName.value (Payment.provider payment) = Some provider.

Let success : json := default JNull (assoc "success" result).
Let status : json := default JNull (assoc "status" result).
Let raw_response : json := default JNull (assoc "raw_response" result).

Lemma confirm_payment_run (transaction_id : string) :
  PaymentProvider.confirm_payment provider transaction_id = Ok (JDict result) ->
  run_request (PaymentService.confirm_payment providers (Payment.id payment)
                 transaction_id) db =
    if negb (truthy success) then
      (Raise (HTTPException HTTP_400_BAD_REQUEST
                (default (JStr "Payment confirmation failed") (assoc "error" result))),
       update_payment (Payment.mark_as_failed payment) db)
    else if eq_str status "succeeded" then
      let payment' :=
        Payment.with_raw_response (Payment.mark_as_success payment) raw_response in
      match orders db !! Payment.order_id payment with
      | None => (Raise OrderNotFound, db)
      | Some order =>
          if bool_decide (Order.status order = OrderStatus.PENDING) then
            let '(order', products', exn) :=
              Order.mark_as_paid order (order_items_of db (Payment.order_id payment))
                (products db) in
            match exn with
            | Some e => (Raise e, db)
            | None =>
                (Ok payment',
                 with_products
                   (with_orders (update_payment payment' db)
                      (<[Payment.order_id payment := order']> (orders db)))
                   products')
            end
          else (Raise InvalidTransition, db)
      end
    else if eq_str status "requires_payment_method"
            || eq_str status "requires_action"
            || eq_str status "processing" then
      (Ok payment, db)
    else
      (Ok (Payment.mark_as_failed payment),
       update_payment (Payment.mark_as_failed payment) db).
Proof.
  intros Hres. unfold run_request, PaymentService.confirm_payment.
  run_M. cbn [working]. rewrite Hstored.
  unfold PaymentFactory.get_provider. rewrite Hprovider, Hres.
  cbn [py_get py_get_default].
  change (match assoc "success" result with Some v => v | None => JNull end)
    with success.
  change (match assoc "status" result with Some v => v | None => JNull end)
    with status.
  change (match assoc "raw_response" result with Some v => v | None => JNull end)
    with raw_response.
  destruct (truthy success); cbn [negb].
  2:{ destruct (assoc "error" result); reflexivity. }
  destruct (eq_str status "succeeded").
  - rewrite mark_order_as_paid_run. cbn [working committed].
    change (orders (update_payment _ db)) with (orders db).
    change (Payment.order_id (Payment.with_raw_response _ _))
      with (Payment.order_id payment).
    destruct (orders db !! Payment.order_id payment) as [order|]; [|reflexivity].
    destruct (bool_decide (Order.status order = OrderStatus.PENDING)); [|reflexivity].
    change (order_items_of (update_payment _ db) (Payment.order_id payment))
      with (order_items_of db (Payment.order_id payment)).
    change (products (update_payment _ db)) with (products db).
    destruct (Order.mark_as_paid order _ _) as [[order' products'] [e|]]; reflexivity.
  - destruct (eq_str status "requires_payment_method"
              || eq_str status "requires_action"
              || eq_str status "processing"); reflexivity.
Qed.

Lemma query_payment_run :
  PaymentProvider.query_payment provider (Payment.transaction_id payment)
    = Ok (JDict result) ->
  run_request (PaymentService.query_payment providers (Payment.id payment)) db =
    if eq_str status "succeeded"
       && negb (bool_decide (Payment.status payment = PaymentStatus.SUCCESS)) then
      let payment' :=
        Payment.with_raw_response (Payment.mark_as_success payment) raw_response in
      (Ok payment', update_payment payment' db)
    else if eq_str status "failed"
            && negb (bool_decide (Payment.status payment = PaymentStatus.FAILED)) then
      let payment' :=
        Payment.with_raw_response (Payment.mark_as_failed payment) raw_response in
      (Ok payment', update_payment payment' db)
    else (Ok payment, db).
Proof.
  intros Hres. unfold run_request, PaymentService.query_payment.
  run_M. cbn [working]. rewrite Hstored.
  unfold PaymentFactory.get_provider. rewrite Hprovider, Hres.
  cbn [py_get py_get_default].
  change (match assoc "status" result with Some v => v | None => JNull end)
    with status.
  change (match assoc "raw_response" result with Some v => v | None => JNull end)
    with raw_response.
  destruct (eq_str status "succeeded"
            && negb (bool_decide (Payment.status payment = PaymentStatus.SUCCESS)));
    [reflexivity|].
  destruct (eq_str status "failed"
            && negb (bool_decide (Payment.status payment = PaymentStatus.FAILED)));
    reflexivity.
Qed.
End stored_payment.

Lemma eq_str_true (v : json) (s : string) : eq_str v s = true -> v = JStr s.
Proof.
  destruct v; cbn; try discriminate.
  intros H. apply bool_decide_eq_true_1 in H. congruence.
Qed.

Lemma payment_status_updated (db : DB) (p p' : Payment.t) :
  payment_by_id db (Payment.id p) = Some p ->
  Payment.id p' = Payment.id p ->
  payment_status (update_payment p' db) (Payment.id p) = Some (Payment.status p').
Proof.
  intros Hstored Hid. unfold payment_status.
  rewrite (update_payment_by_id db p p' Hstored Hid). reflexivity.
Qed.

Lemma payment_status_stored (db : DB) (p : Payment.t) :
  payment_by_id db (Payment.id p) = Some p ->
  payment_status db (Payment.id p) = Some (Payment.status p).
Proof. intros H. unfold payment_status. rewrite H. reflexivity. Qed.

Section reported_again.
Variable providers : gmap string PaymentProvider.t.
Variable db : DB.
Variable payment : Payment.t.
Hypothesis Hstored : payment_by_id db (Payment.id payment) = Some payment.

Lemma webhook_report
    (provider_name : string) (payload : json) (provider : PaymentProvider.t)
    (result : list (string * json)) :
  providers !! provider_name = Some provider ->
  PaymentProvider.handle_webhook provider payload = Ok (JDict result) ->
  truthy (default JNull (assoc "success" result)) = true ->
  truthy (default JNull (assoc "transaction_id" result)) = true ->
  payment_by_transaction_id db (default JNull (assoc "transaction_id" result))
    = Some payment ->
  (eq_str (default JNull (assoc "status" result)) "success" = true ->
   Payment.status payment = PaymentStatus.SUCCESS ->
   payment_status
     (persisted (PaymentService.handle_webhook providers provider_name payload) db)
     (Payment.id payment) = Some PaymentStatus.SUCCESS) /\
  (eq_str (default JNull (assoc "status" result)) "failed" = true ->
   payment_status
     (persisted (PaymentService.handle_webhook providers provider_name payload) db)
     (Payment.id payment) = Some PaymentStatus.FAILED).
Proof.
  intros Hp Hres Hok Htid Hfound. split.
  - intros Hst Hwas.
    assert (Hkept : payment_status db (Payment.id payment) = Some PaymentStatus.SUCCESS)
      by (rewrite <- Hwas; apply payment_status_stored, Hstored).
    unfold persisted.
    rewrite (webhook_success_run providers provider_name payload provider result
               Hp Hres Hok Htid db payment Hfound Hst).
    cbn zeta.
    destruct (orders db !! Payment.order_id payment) as [order|];
      [|exact Hkept].
    destruct (bool_decide (Order.status order = OrderStatus.PENDING));
      [|exact Hkept].
    destruct (Order.mark_as_paid order _ _) as [[order' products'] [e|]];
      [exact Hkept|].
    exact (payment_status_updated db payment
             (Payment.with_raw_response (Payment.mark_as_success payment)
                (default JNull (assoc "raw_response" result)))
             Hstored eq_refl).
  - intros Hst.
    assert (Hno : eq_str (default JNull (assoc "status" result)) "success" = false).
    { apply eq_str_true in Hst. rewrite Hst. reflexivity. }
    unfold persisted.
    rewrite (webhook_failed_run providers provider_name payload provider result
               Hp Hres Hok Htid db payment Hfound Hno Hst).
    exact (payment_status_updated db payment
             (Payment.with_raw_response (Payment.mark_as_failed payment)
                (default JNull (assoc "raw_response" result)))
             Hstored eq_refl).
Qed.

Lemma confirm_report
    (transaction_id : string) (provider : PaymentProvider.t)
    (result : list (string * json)) :
  providers !! PaymentProviderName.value (Payment.provider payment) = Some provider ->
  PaymentProvider.confirm_payment provider transaction_id = Ok (JDict result) ->
  (truthy (default JNull (assoc "success" result)) = true ->
   eq_str (default JNull (assoc "status" result)) "succeeded" = true ->
   Payment.status payment = PaymentStatus.SUCCESS ->
   payment_status
     (persisted (PaymentService.confirm_payment providers (Payment.id payment)
                   transaction_id) db)
     (Payment.id payment) = Some PaymentStatus.SUCCESS) /\
  (truthy (default JNull (assoc "success" result)) = false ->
   payment_status
     (persisted (PaymentService.confirm_payment providers (Payment.id payment)
                   transaction_id) db)
     (Payment.id payment) = Some PaymentStatus.FAILED).
Proof.
  intros Hp Hres. unfold persisted.
  rewrite (confirm_payment_run providers db payment provider result Hstored Hp
             transaction_id Hres).
  split.
  - intros Hok Hst Hwas.
    assert (Hkept : payment_status db (Payment.id payment) = Some PaymentStatus.SUCCESS)
      by (rewrite <- Hwas; apply payment_status_stored, Hstored).
    rewrite Hok, Hst. cbn [negb]. cbn zeta.
    destruct (orders db !! Payment.order_id payment) as [order|];
      [|exact Hkept].
    destruct (bool_decide (Order.status order = OrderStatus.PENDING));
      [|exact Hkept].
    destruct (Order.mark_as_paid order _ _) as [[order' products'] [e|]];
      [exact Hkept|].
    exact (payment_status_updated db payment
             (Payment.with_raw_response (Payment.mark_as_success payment)
                (default JNull (assoc "raw_response" result)))
             Hstored eq_refl).
  - intros Hfail. rewrite Hfail. cbn [negb snd].
    exact (payment_status_updated db payment (Payment.mark_as_failed payment)
             Hstored eq_refl).
Qed.

Lemma query_report (provider : PaymentProvider.t) (result : list (string * json)) :
  providers !! PaymentProviderName.value (Payment.provider payment) = Some provider ->
  PaymentProvider.query_payment provider (Payment.transaction_id payment)
    = Ok (JDict result) ->
  (eq_str (default JNull (assoc "status" result)) "succeeded" = true ->
   Payment.status payment = PaymentStatus.SUCCESS ->
   payment_status
     (persisted (PaymentService.query_payment providers (Payment.id payment)) db)
     (Payment.id payment) = Some PaymentStatus.SUCCESS) /\
  (eq_str (default JNull (assoc "status" result)) "failed" = true ->
   payment_status
     (persisted (PaymentService.query_payment providers (Payment.id payment)) db)
     (Payment.id payment) = Some PaymentStatus.FAILED).
Proof.
  intros Hp Hres. unfold persisted.
  rewrite (query_payment_run providers db payment provider result Hstored Hp Hres).
  split.
  - intros Hst Hwas.
    assert (Hkept : payment_status db (Payment.id payment) = Some PaymentStatus.SUCCESS)
      by (rewrite <- Hwas; apply payment_status_stored, Hstored).
    rewrite Hst. rewrite (bool_decide_eq_true_2 _ Hwas). cbn [andb negb].
    assert (Hnf : bool_decide (Payment.status payment = PaymentStatus.FAILED) = false)
      by (apply bool_decide_eq_false_2; rewrite Hwas; discriminate).
    assert (Hno : eq_str (default JNull (assoc "status" result)) "failed" = false).
    { apply eq_str_true in Hst. rewrite Hst. reflexivity. }
    rewrite Hno. cbn [andb snd]. exact Hkept.
  - intros Hst.
    assert (Hno : eq_str (default JNull (assoc "status" result)) "succeeded" = false).
    { apply eq_str_true in Hst. rewrite Hst. reflexivity. }
    rewrite Hno, Hst. cbn [andb].
    destruct (bool_decide (Payment.status payment = PaymentStatus.FAILED)) eqn:Hwas;
      cbn [negb snd].
    + apply bool_decide_eq_true_1 in Hwas. rewrite <- Hwas.
      apply payment_status_stored, Hstored.
    + exact (payment_status_updated db payment
               (Payment.with_raw_response (Payment.mark_as_failed payment)
                  (default JNull (assoc "raw_response" result)))
               Hstored eq_refl).
Qed.
End reported_again.

(** C2, as the code has it.  For a stored payment, what [handle_webhook],
    [confirm_payment] and [query_payment] leave as its status:
    - a SUCCESS payment that is reported successful again (webhook status
      "success"; confirm or query status "succeeded") is still SUCCESS;
    - after a reported failure (webhook status "failed"; a confirm whose
      result is not successful; query status "failed") the payment is
      FAILED, whatever it was: a FAILED payment stays FAILED, and a
      SUCCESS payment is overwritten with FAILED. *)
Theorem terminal_status_under_reports
    (providers : gmap string PaymentProvider.t) (db : DB) (payment : Payment.t) :
  payment_by_id db (Payment.id payment) = Some payment ->
  (forall provider_name payload provider result,
     providers !! provider_name = Some provider ->
     PaymentProvider.handle_webhook provider payload = Ok (JDict result) ->
     truthy (default JNull (assoc "success" result)) = true ->
     truthy (default JNull (assoc "transaction_id" result)) = true ->
     payment_by_transaction_id db (default JNull (assoc "transaction_id" result))
       = Some payment ->
     (eq_str (default JNull (assoc "status" result)) "success" = true ->
      Payment.status payment = PaymentStatus.SUCCESS ->
      payment_status
        (persisted (PaymentService.handle_webhook providers provider_name payload) db)
        (Payment.id payment) = Some PaymentStatus.SUCCESS) /\
     (eq_str (default JNull (assoc "status" result)) "failed" = true ->
      payment_status
        (persisted (PaymentService.handle_webhook providers provider_name payload) db)
        (Payment.id payment) = Some PaymentStatus.FAILED)) /\
  (forall transaction_id provider result,
     providers !! PaymentProviderName.value (Payment.provider payment) = Some provider ->
     PaymentProvider.confirm_payment provider transaction_id = Ok (JDict result) ->
     (truthy (default JNull (assoc "success" result)) = true ->
      eq_str (default JNull (assoc "status" result)) "succeeded" = true ->
      Payment.status payment = PaymentStatus.SUCCESS ->
      payment_status
        (persisted (PaymentService.confirm_payment providers (Payment.id payment)
                      transaction_id) db)
        (Payment.id payment) = Some PaymentStatus.SUCCESS) /\
     (truthy (default JNull (assoc "success" result)) = false ->
      payment_status
        (persisted (PaymentService.confirm_payment providers (Payment.id payment)
                      transaction_id) db)
        (Payment.id payment) = Some PaymentStatus.FAILED)) /\
  (forall provider result,
     providers !! PaymentProviderName.value (Payment.provider payment) = Some provider ->
     PaymentProvider.query_payment provider (Payment.transaction_id payment)
       = Ok (JDict result) ->
     (eq_str (default JNull (assoc "status" result)) "succeeded" = true ->
      Payment.status payment = PaymentStatus.SUCCESS ->
      payment_status
        (persisted (PaymentService.query_payment providers (Payment.id payment)) db)
        (Payment.id payment) = Some PaymentStatus.SUCCESS) /\
     (eq_str (default JNull (assoc "status" result)) "failed" = true ->
      payment_status
        (persisted (PaymentService.query_payment providers (Payment.id payment)) db)
        (Payment.id payment) = Some PaymentStatus.FAILED)).
Proof.
  intros Hstored. split; [|split].
  - intros provider_name payload provider result.
    apply webhook_report, Hstored.
  - intros transaction_id provider result.
    apply confirm_report, Hstored.
  - intros provider result.
    apply query_report, Hstored.
Qed.

Lemma terminal_status_under_reports_witness :
  payment_by_id Sample.paid (Payment.id Sample.paid_payment) = Some Sample.paid_payment /\
  payment_status
    (persisted (PaymentService.handle_webhook Sample.providers "bkash"
                  Sample.bkash_success) Sample.paid)
    (Payment.id Sample.paid_payment) = Some PaymentStatus.SUCCESS /\
  payment_status
    (persisted (PaymentService.handle_webhook Sample.providers "bkash"
                  Sample.bkash_failed) Sample.paid)
    (Payment.id Sample.paid_payment) = Some PaymentStatus.FAILED.
Proof.
  assert (Hstored : payment_by_id Sample.paid (Payment.id Sample.paid_payment)
                    = Some Sample.paid_payment) by (vm_compute; reflexivity).
  split; [exact Hstored|]. split.
  - apply (proj1 (terminal_status_under_reports Sample.providers Sample.paid
                    Sample.paid_payment Hstored)
             "bkash" Sample.bkash_success (BkashProvider.instance Sample.env)
             [("success", JBool true); ("transaction_id", JStr Sample.txn);
              ("status", JStr "success"); ("raw_response", Sample.bkash_success)]);
      vm_compute; reflexivity.
  - apply (proj1 (terminal_status_under_reports Sample.providers Sample.paid
                    Sample.paid_payment Hstored)
             "bkash" Sample.bkash_failed (BkashProvider.instance Sample.env)
             [("success", JBool true); ("transaction_id", JStr Sample.txn);
              ("status", JStr "failed"); ("raw_response", Sample.bkash_failed)]);
      vm_compute; reflexivity.
Defined.

(** C2 as stated fails: the payment of order 1 is SUCCESS, a failure
    webhook for its transaction is accepted, not refused, and leaves the
    payment FAILED. *)
Lemma success_payment_overwritten_by_failed_webhook :
  payment_status Sample.paid 1 = Some PaymentStatus.SUCCESS /\
  (run_request (PaymentService.handle_webhook Sample.providers "bkash"
                  Sample.bkash_failed) Sample.paid).1
    = Ok (JDict [("success", JBool true);
                 ("transaction_id", JStr Sample.txn);
                 ("status", JStr "failed");
                 ("raw_response", Sample.bkash_failed)]) /\
  payment_status
    (persisted (PaymentService.handle_webhook Sample.providers "bkash"
                  Sample.bkash_failed) Sample.paid) 1
    = Some PaymentStatus.FAILED.
Proof. vm_compute. repeat split; reflexivity. Qed.

(** Whatever the store, in mock mode a confirmed bKash payment ends up
    FAILED. *)
Lemma confirm_payment_bkash_failed (env : Environment) (db : DB)
    (payment : Payment.t) (transaction_id : string) :
  BKASH_MOCK_MODE env = true ->
  payment_by_id db (Payment.id payment) = Some payment ->
  Payment.provider payment = PaymentProviderName.BKASH ->
  payment_status
    (persisted (PaymentService.confirm_payment (PaymentFactory.registered env)
                  (Payment.id payment) transaction_id) db)
    (Payment.id payment) = Some PaymentStatus.FAILED.
Proof.
  intros Hmock Hstored Hbkash.
  assert (Hp : PaymentFactory.registered env
                 !! PaymentProviderName.value (Payment.provider payment)
               = Some (BkashProvider.instance env)).
  { rewrite Hbkash. apply lookup_insert_eq. }
  assert (Hres : exists result,
    PaymentProvider.confirm_payment (BkashProvider.instance env) transaction_id
      = Ok (JDict result) /\
    assoc "success" result = Some (JBool true) /\
    assoc "status" result = Some (JStr "success")).
  { cbn. unfold BkashProvider.confirm_payment, BkashProvider.mock_mode.
    rewrite Hmock. eexists. split; [reflexivity|]. split; reflexivity. }
  destruct Hres as (result & Hres & Hok & Hst).
  unfold persisted.
  rewrite (confirm_payment_run _ db payment _ result Hstored Hp transaction_id Hres).
  rewrite Hok, Hst. cbn [default from_option id truthy negb eq_str].
  cbn [snd].
  exact (payment_status_updated db payment (Payment.mark_as_failed payment)
           Hstored eq_refl).
Qed.

(** C6. Confirming a bKash payment.  The bKash adapter reports the
    confirmation as successful ([success] true, status "success"), and
    [confirm_payment] marks the pending payment FAILED and leaves the
    order PENDING and the stock untouched.  The same call on a Stripe
    payment whose intent "succeeded" marks the payment SUCCESS, the order
    PAID and takes the items from stock. *)
Theorem confirm_payment_bkash_success_marked_failed :
  payment_status Sample.paying 1 = Some PaymentStatus.PENDING /\
  (BkashProvider.confirm_payment Sample.env Sample.txn ≫= fun r => py_get r "success")
    = Ok (JBool true) /\
  (BkashProvider.confirm_payment Sample.env Sample.txn ≫= fun r => py_get r "status")
    = Ok (JStr "success") /\
  match (run_request (PaymentService.confirm_payment Sample.providers 1 Sample.txn)
           Sample.paying).1 with
  | Ok payment => Payment.status payment = PaymentStatus.FAILED
  | Raise _ => False
  end /\
  payment_status
    (persisted (PaymentService.confirm_payment Sample.providers 1 Sample.txn)
       Sample.paying) 1
    = Some PaymentStatus.FAILED /\
  order_status
    (persisted (PaymentService.confirm_payment Sample.providers 1 Sample.txn)
       Sample.paying) 1
    = Some OrderStatus.PENDING /\
  product_stock
    (persisted (PaymentService.confirm_payment Sample.providers 1 Sample.txn)
       Sample.paying) 1
    = Some 5 /\
  payment_status
    (persisted (PaymentService.confirm_payment Sample.providers 1 "pi_1")
       Sample.paying_stripe) 1
    = Some PaymentStatus.SUCCESS /\
  order_status
    (persisted (PaymentService.confirm_payment Sample.providers 1 "pi_1")
       Sample.paying_stripe) 1
    = Some OrderStatus.PAID /\
  product_stock
    (persisted (PaymentService.confirm_payment Sample.providers 1 "pi_1")
       Sample.paying_stripe) 1
    = Some 2.
Proof. vm_compute. repeat split; reflexivity. Qed.

(** * Further properties of the order and payment code *)

(** ** Order transitions *)

Lemma cancel_order_run (order_id user_id : Z) (db : DB) :
  run_request (OrderService.cancel_order order_id user_id) db =
    match (if truthy_id (Some user_id)
           then OrderService.filter_user_id (orders db !! order_id) user_id
           else orders db !! order_id) with
    | None => (Raise OrderNotFound, db)
    | Some order =>
        if bool_decide (Order.status order = OrderStatus.PENDING) then
          (Ok (Order.with_status order OrderStatus.CANCELED),
           with_orders db
             (<[order_id := Order.with_status order OrderStatus.CANCELED]> (orders db)))
        else (Raise CannotCancel, db)
    end.
Proof.
  unfold run_request, OrderService.cancel_order.
  unfold mbind at 1. unfold M_bind at 1.
  rewrite get_order_by_id_run. cbn [working default].
  destruct (if truthy_id (Some user_id) then _ else _) as [order|]; [|reflexivity].
  unfold Order.cancel.
  destruct (bool_decide (Order.status order = OrderStatus.PENDING)); reflexivity.
Qed.

Lemma mark_order_as_paid_refused (order_id : Z) (db : DB) (order : Order.t) :
  orders db !! order_id = Some order ->
  Order.status order <> OrderStatus.PENDING ->
  run_request (OrderService.mark_order_as_paid order_id) db
    = (Raise InvalidTransition, db).
Proof.
  intros Ho Hst. unfold run_request. rewrite mark_order_as_paid_run.
  cbn [working]. rewrite Ho.
  rewrite bool_decide_eq_false_2 by exact Hst. reflexivity.
Qed.

Lemma cancel_order_refused (order_id user_id : Z) (db : DB) (order : Order.t) :
  orders db !! order_id = Some order ->
  Order.status order <> OrderStatus.PENDING ->
  persisted (OrderService.cancel_order order_id user_id) db = db.
Proof.
  intros Ho Hst. unfold persisted. rewrite cancel_order_run, Ho.
  unfold OrderService.filter_user_id.
  destruct (truthy_id (Some user_id));
    [destruct (bool_decide (Order.user_id order = user_id)); [|reflexivity]|];
    rewrite bool_decide_eq_false_2 by exact Hst; reflexivity.
Qed.

(** X1. Cancelling.  For an order of the caller: a PENDING order becomes
    CANCELED, is returned, and nothing but that order's status changes in
    the store; an order in any other status makes [cancel_order] fail with
    400 "Cannot cancel order. Order must be in pending status." and the
    store stays as it was. *)
Theorem cancel_order_only_from_pending
    (db : DB) (order_id user_id : Z) (order : Order.t) :
  orders db !! order_id = Some order ->
  Order.user_id order = user_id ->
  (Order.status order = OrderStatus.PENDING ->
   run_request (OrderService.cancel_order order_id user_id) db
     = (Ok (Order.mk (Order.user_id order) (Order.total_amount order)
              OrderStatus.CANCELED),
        with_orders db
          (<[order_id := Order.mk (Order.user_id order) (Order.total_amount order)
                           OrderStatus.CANCELED]> (orders db)))) /\
  (Order.status order <> OrderStatus.PENDING ->
   run_request (OrderService.cancel_order order_id user_id) db
     = (Raise CannotCancel, db)).
Proof.
  intros Ho Hu. rewrite cancel_order_run, Ho.
  assert (Hq : (if truthy_id (Some user_id)
                then OrderService.filter_user_id (Some order) user_id
                else Some order) = Some order).
  { destruct (truthy_id (Some user_id)); [|reflexivity].
    unfold OrderService.filter_user_id.
    rewrite bool_decide_eq_true_2 by exact Hu. reflexivity. }
  rewrite Hq. split; intros Hst.
  - rewrite bool_decide_eq_true_2 by exact Hst. reflexivity.
  - rewrite bool_decide_eq_false_2 by exact Hst. reflexivity.
Qed.

Lemma cancel_order_only_from_pending_witness :
  orders Sample.ordered !! 1 = Some (Order.mk 7 3500 OrderStatus.PENDING) /\
  order_status (persisted (OrderService.cancel_order 1 7) Sample.ordered) 1
    = Some OrderStatus.CANCELED /\
  run_request (OrderService.cancel_order 1 7) Sample.paid
    = (Raise CannotCancel, Sample.paid).
Proof.
  assert (Hpending : orders Sample.ordered !! 1
                     = Some (Order.mk 7 3500 OrderStatus.PENDING))
    by (vm_compute; reflexivity).
  assert (Hpaid : orders Sample.paid !! 1 = Some (Order.mk 7 3500 OrderStatus.PAID))
    by (vm_compute; reflexivity).
  split; [exact Hpending|]. split.
  - unfold persisted.
    rewrite (proj1 (cancel_order_only_from_pending Sample.ordered 1 7 _
                      Hpending eq_refl) eq_refl).
    cbn. unfold order_status. cbn. rewrite lookup_insert_eq. reflexivity.
  - apply (proj2 (cancel_order_only_from_pending Sample.paid 1 7 _ Hpaid eq_refl)).
    discriminate.
Defined.

(** X2. PAID and CANCELED are final.  Once an order is not PENDING, no
    sequence of [cancel_order] (by any user) and [mark_order_as_paid]
    requests on it changes anything in the store: no status, no stock. *)
Theorem order_terminal_status_absorbing
    (db : DB) (order_id : Z) (order : Order.t) (ops : list OrderOp) :
  orders db !! order_id = Some order ->
  Order.status order <> OrderStatus.PENDING ->
  foldl (apply_order_op order_id) db ops = db.
Proof.
  intros Ho Hst. induction ops as [|op ops IH]; [reflexivity|].
  cbn [foldl].
  assert (Hop : apply_order_op order_id db op = db).
  { destruct op as [user_id|]; cbn.
    - apply (cancel_order_refused order_id user_id db order Ho Hst).
    - unfold persisted.
      rewrite (mark_order_as_paid_refused order_id db order Ho Hst). reflexivity. }
  rewrite Hop. exact IH.
Qed.

Lemma order_terminal_status_absorbing_witness :
  orders Sample.paid !! 1 = Some (Order.mk 7 3500 OrderStatus.PAID) /\
  foldl (apply_order_op 1) Sample.paid [Cancel 7; Pay; Cancel 0] = Sample.paid.
Proof.
  assert (Hpaid : orders Sample.paid !! 1 = Some (Order.mk 7 3500 OrderStatus.PAID))
    by (vm_compute; reflexivity).
  split; [exact Hpaid|].
  apply (order_terminal_status_absorbing Sample.paid 1 _ _ Hpaid). discriminate.
Defined.

(** ** Paying an order *)

Lemma reduce_items_frame (items : list OrderItem.t) (prods : gmap Z Product.t)
    (product_id : Z) :
  (forall item, item ∈ items -> OrderItem.product_id item <> product_id) ->
  (Order.reduce_items items prods).1 !! product_id = prods !! product_id.
Proof.
  revert prods. induction items as [|item rest IH]; intros prods Hnot; cbn.
  - reflexivity.
  - assert (Hhead : OrderItem.product_id item <> product_id)
      by (apply Hnot, elem_of_cons; left; reflexivity).
    assert (Hrest : forall i, i ∈ rest -> OrderItem.product_id i <> product_id)
      by (intros i Hi; apply Hnot, elem_of_cons; right; exact Hi).
    destruct (prods !! OrderItem.product_id item) as [product|]; [|reflexivity].
    destruct (Product.reduce_stock product (OrderItem.quantity item)) as [product' b].
    rewrite IH by exact Hrest. apply lookup_insert_ne, Hhead.
Qed.

Lemma same_but_stock_refl (o : option Product.t) : same_but_stock o o.
Proof. destruct o; cbn; auto. Qed.

Lemma reduce_items_same_but_stock (items : list OrderItem.t)
    (prods : gmap Z Product.t) (product_id : Z) :
  same_but_stock (prods !! product_id)
    ((Order.reduce_items items prods).1 !! product_id).
Proof.
  revert prods. induction items as [|item rest IH]; intros prods; cbn.
  - apply same_but_stock_refl.
  - destruct (prods !! OrderItem.product_id item) as [product|] eqn:Hp;
      [|apply same_but_stock_refl].
    unfold Product.reduce_stock.
    destruct (Product.stock product >=? OrderItem.quantity item).
    + specialize (IH (<[OrderItem.product_id item :=
                          Product.with_stock product
                            (Product.stock product - OrderItem.quantity item)]> prods)).
      destruct (decide (OrderItem.product_id item = product_id)) as [<-|Hne].
      * rewrite lookup_insert_eq in IH. rewrite Hp.
        destruct (_ !! OrderItem.product_id item); cbn in *; tauto.
      * rewrite lookup_insert_ne in IH by exact Hne. exact IH.
    + rewrite insert_id by exact Hp. apply IH.
Qed.

(** X3. What paying an order touches.  When [mark_order_as_paid]
    returns, the order was PENDING and is now PAID with the same owner and
    total; no other order, no order item and no payment has changed; a
    product that none of the order's items references is as before; and
    of every product only the stock can differ: no product appears or
    disappears, and names, prices and statuses stay. *)
Theorem mark_order_as_paid_footprint
    (db db' : DB) (order_id : Z) (order' : Order.t) :
  run_request (OrderService.mark_order_as_paid order_id) db = (Ok order', db') ->
  (exists order,
     orders db !! order_id = Some order /\
     Order.status order = OrderStatus.PENDING /\
     order' = Order.mk (Order.user_id order) (Order.total_amount order)
                OrderStatus.PAID) /\
  orders db' = <[order_id := order']> (orders db) /\
  order_items db' = order_items db /\
  payments db' = payments db /\
  (forall product_id,
     (forall item, item ∈ order_items_of db order_id ->
                   OrderItem.product_id item <> product_id) ->
     products db' !! product_id = products db !! product_id) /\
  (forall product_id,
     same_but_stock (products db !! product_id) (products db' !! product_id)).
Proof.
  unfold run_request. rewrite mark_order_as_paid_run. cbn [working].
  destruct (orders db !! order_id) as [order|] eqn:Ho; [|discriminate].
  destruct (bool_decide (Order.status order = OrderStatus.PENDING)) eqn:Hst;
    [|discriminate].
  apply bool_decide_eq_true_1 in Hst.
  unfold Order.mark_as_paid.
  pose proof (reduce_items_frame (order_items_of db order_id) (products db)) as Hframe.
  pose proof (reduce_items_same_but_stock (order_items_of db order_id) (products db))
    as Hsame.
  destruct (Order.reduce_items (order_items_of db order_id) (products db))
    as [products' [e|]]; [discriminate|].
  cbn. intros [= <- <-]. cbn.
  split; [exists order; auto|].
  repeat split; auto.
Qed.

Lemma mark_order_as_paid_footprint_witness :
  run_request (OrderService.mark_order_as_paid 1) Sample.ordered
    = (Ok (Order.mk 7 3500 OrderStatus.PAID),
       persisted (OrderService.mark_order_as_paid 1) Sample.ordered) /\
  payments (persisted (OrderService.mark_order_as_paid 1) Sample.ordered)
    = payments Sample.ordered.
Proof.
  assert (H : run_request (OrderService.mark_order_as_paid 1) Sample.ordered
              = (Ok (Order.mk 7 3500 OrderStatus.PAID),
                 persisted (OrderService.mark_order_as_paid 1) Sample.ordered))
    by (vm_compute; reflexivity).
  split; [exact H|].
  exact (proj1 (proj2 (proj2 (proj2
    (mark_order_as_paid_footprint Sample.ordered _ 1 _ H))))).
Defined.

Lemma reduce_items_sufficient (items : list OrderItem.t) (prods : gmap Z Product.t) :
  NoDup (OrderItem.product_id <$> items) ->
  (forall item, item ∈ items ->
     exists p, prods !! OrderItem.product_id item = Some p /\
               OrderItem.quantity item <= Product.stock p) ->
  (Order.reduce_items items prods).2 = None /\
  (forall item p,
     item ∈ items -> prods !! OrderItem.product_id item = Some p ->
     (Order.reduce_items items prods).1 !! OrderItem.product_id item
       = Some (Product.with_stock p (Product.stock p - OrderItem.quantity item))).
Proof.
  revert prods. induction items as [|item rest IH]; intros prods Hnodup Hstock.
  - split; [reflexivity|]. intros item p Hin. apply elem_of_nil in Hin. contradiction.
  - rewrite fmap_cons in Hnodup. apply NoDup_cons in Hnodup as [Hfresh Hnodup].
    destruct (Hstock item) as (p0 & Hp0 & Hq0); [apply elem_of_cons; left; reflexivity|].
    assert (Hother : forall i, i ∈ rest ->
                       OrderItem.product_id i <> OrderItem.product_id item).
    { intros i Hi Heq. apply Hfresh. rewrite <- Heq.
      apply list_elem_of_fmap_2, Hi. }
    cbn [Order.reduce_items]. rewrite Hp0.
    unfold Product.reduce_stock.
    assert (Hge : (Product.stock p0 >=? OrderItem.quantity item) = true)
      by (apply Z.geb_le; exact Hq0).
    rewrite Hge.
    set (prods1 := <[OrderItem.product_id item :=
                      Product.with_stock p0
                        (Product.stock p0 - OrderItem.quantity item)]> prods).
    assert (Hsame : forall i, i ∈ rest ->
              prods1 !! OrderItem.product_id i = prods !! OrderItem.product_id i).
    { intros i Hi. apply lookup_insert_ne. intros Heq.
      exact (Hother i Hi (eq_sym Heq)). }
    destruct (IH prods1 Hnodup) as [Hok Hexact].
    { intros i Hi. rewrite (Hsame i Hi). apply Hstock, elem_of_cons. right. exact Hi. }
    split; [exact Hok|].
    intros i p Hin Hp. apply elem_of_cons in Hin as [->|Hin].
    + rewrite reduce_items_frame by exact Hother.
      unfold prods1. rewrite lookup_insert_eq. congruence.
    + apply (Hexact i p Hin). rewrite (Hsame i Hin). exact Hp.
Qed.

(** X4. Paying takes the ordered quantities from stock.  For a PENDING
    order whose items name pairwise different products, each of them in
    the store with at least the ordered quantity in stock,
    [mark_order_as_paid] succeeds, the order is PAID, and the stock of
    every ordered product has gone down by exactly the quantity of its
    item. *)
Theorem mark_order_as_paid_decrements
    (db : DB) (order_id : Z) (order : Order.t) :
  orders db !! order_id = Some order ->
  Order.status order = OrderStatus.PENDING ->
  NoDup (OrderItem.product_id <$> order_items_of db order_id) ->
  (forall item, item ∈ order_items_of db order_id ->
     exists p, products db !! OrderItem.product_id item = Some p /\
               OrderItem.quantity item <= Product.stock p) ->
  (run_request (OrderService.mark_order_as_paid order_id) db).1
    = Ok (Order.mk (Order.user_id order) (Order.total_amount order) OrderStatus.PAID) /\
  order_status (persisted (OrderService.mark_order_as_paid order_id) db) order_id
    = Some OrderStatus.PAID /\
  (forall item p,
     item ∈ order_items_of db order_id ->
     products db !! OrderItem.product_id item = Some p ->
     product_stock (persisted (OrderService.mark_order_as_paid order_id) db)
       (OrderItem.product_id item)
     = Some (Product.stock p - OrderItem.quantity item)).
Proof.
  intros Ho Hst Hnodup Hstock.
  destruct (reduce_items_sufficient _ _ Hnodup Hstock) as [Hok Hexact].
  unfold persisted, run_request. rewrite mark_order_as_paid_run. cbn [working].
  rewrite Ho. rewrite bool_decide_eq_true_2 by exact Hst.
  unfold Order.mark_as_paid.
  destruct (Order.reduce_items (order_items_of db order_id) (products db))
    as [products' exn].
  cbn in Hok, Hexact. subst exn. cbn.
  split; [reflexivity|]. split.
  - unfold order_status. cbn. rewrite lookup_insert_eq. reflexivity.
  - intros item p Hin Hp. unfold product_stock. cbn.
    rewrite (Hexact item p Hin Hp). reflexivity.
Qed.

Lemma mark_order_as_paid_decrements_witness :
  orders Sample.ordered !! 1 = Some (Order.mk 7 3500 OrderStatus.PENDING) /\
  order_status (persisted (OrderService.mark_order_as_paid 1) Sample.ordered) 1
    = Some OrderStatus.PAID.
Proof.
  assert (Ho : orders Sample.ordered !! 1 = Some (Order.mk 7 3500 OrderStatus.PENDING))
    by (vm_compute; reflexivity).
  assert (Hitems : order_items_of Sample.ordered 1
                   = [OrderItem.mk 1 1 1 3 1000 3000; OrderItem.mk 2 1 2 1 500 500])
    by (vm_compute; reflexivity).
  split; [exact Ho|].
  refine (proj1 (proj2 (mark_order_as_paid_decrements Sample.ordered 1 _ Ho eq_refl _ _))).
  - rewrite Hitems. cbn. apply NoDup_cons. split.
    + intros Hin. apply list_elem_of_singleton in Hin. discriminate.
    + apply NoDup_singleton.
  - rewrite Hitems. intros item Hin.
    apply elem_of_cons in Hin as [->|Hin].
    + exists Sample.pen. split; [vm_compute; reflexivity|]. cbn. lia.
    + apply list_elem_of_singleton in Hin as ->.
      exists Sample.ink. split; [vm_compute; reflexivity|]. cbn. lia.
Defined.

(** ** Creating and finding orders *)

(** X5. [create_order] only adds.  Whatever the request and whether it
    succeeds or not, afterwards every product is exactly as before (the
    stock check reserves nothing), the payments are as before, every order
    that existed is still there unchanged, and the order items that
    existed are still there, in front of any new ones. *)
Theorem create_order_only_adds (db : DB) (user_id : Z) (items : list OrderItemCreate) :
  products (persisted (OrderService.create_order user_id items) db) = products db /\
  payments (persisted (OrderService.create_order user_id items) db) = payments db /\
  (forall order_id order,
     orders db !! order_id = Some order ->
     orders (persisted (OrderService.create_order user_id items) db) !! order_id
       = Some order) /\
  (exists added,
     order_items (persisted (OrderService.create_order user_id items) db)
       = order_items db ++ added).
Proof.
  unfold persisted, run_request. rewrite create_order_run.
  destruct (first_refusal db items) as [e|].
  { cbn. repeat split; auto. exists []. rewrite app_nil_r. reflexivity. }
  destruct (orders db !! orders_seq db) as [o|] eqn:Hfresh.
  { cbn. repeat split; auto. exists []. rewrite app_nil_r. reflexivity. }
  cbn. repeat split.
  - intros order_id order Ho. rewrite lookup_insert_ne; [exact Ho|].
    intros <-. congruence.
  - eexists. reflexivity.
Qed.

Lemma create_order_only_adds_witness :
  orders Sample.ordered !! 1 = Some (Order.mk 7 3500 OrderStatus.PENDING) /\
  orders (persisted (OrderService.create_order 8 Sample.last_ink) Sample.ordered) !! 1
    = Some (Order.mk 7 3500 OrderStatus.PENDING).
Proof.
  assert (Ho : orders Sample.ordered !! 1 = Some (Order.mk 7 3500 OrderStatus.PENDING))
    by (vm_compute; reflexivity).
  split; [exact Ho|].
  exact (proj1 (proj2 (proj2 (create_order_only_adds Sample.ordered 8 Sample.last_ink)))
           1 _ Ho).
Defined.

(** X6. A created order can be fetched.  After [create_order] has
    returned an order for a user, [get_order_by_id] with the returned id
    and that user returns the same order, and with any other user id that
    is not 0 it fails with "Order not found". *)
Theorem create_order_then_get
    (db db' : DB) (user_id order_id : Z) (items : list OrderItemCreate)
    (order : Order.t) :
  run_request (OrderService.create_order user_id items) db = (Ok (order_id, order), db') ->
  run_request (OrderService.get_order_by_id order_id (Some user_id)) db'
    = (Ok order, db') /\
  (forall other, other <> 0 -> other <> user_id ->
     run_request (OrderService.get_order_by_id order_id (Some other)) db'
       = (Raise OrderNotFound, db')).
Proof.
  unfold run_request at 1. rewrite create_order_run.
  destruct (first_refusal db items) as [e|]; [discriminate|].
  destruct (orders db !! orders_seq db) as [o|]; [discriminate|].
  cbn. intros [= <- <- <-].
  set (db1 := mkDB _ _ _ _ _ _ _).
  assert (Ho : orders db1 !! orders_seq db
               = Some (Order.mk user_id (data_total (map (snapshot db) items))
                         OrderStatus.PENDING))
    by apply lookup_insert_eq.
  split.
  - unfold run_request. rewrite get_order_by_id_run. cbn [working default]. rewrite Ho.
    destruct (truthy_id (Some user_id)); [|reflexivity].
    unfold OrderService.filter_user_id. cbn.
    rewrite bool_decide_eq_true_2 by reflexivity. reflexivity.
  - intros other H0 Hne.
    unfold run_request. rewrite get_order_by_id_run. cbn [working default]. rewrite Ho.
    cbn [truthy_id]. destruct (Z.eqb_spec other 0) as [->|_]; [contradiction|].
    cbn [negb]. unfold OrderService.filter_user_id. cbn.
    rewrite bool_decide_eq_false_2 by congruence. reflexivity.
Qed.

Lemma create_order_then_get_witness :
  run_request (OrderService.create_order 7 Sample.basket) Sample.catalog
    = (Ok (1, Order.mk 7 3500 OrderStatus.PENDING), Sample.ordered) /\
  run_request (OrderService.get_order_by_id 1 (Some 7)) Sample.ordered
    = (Ok (Order.mk 7 3500 OrderStatus.PENDING), Sample.ordered).
Proof.
  assert (H : run_request (OrderService.create_order 7 Sample.basket) Sample.catalog
              = (Ok (1, Order.mk 7 3500 OrderStatus.PENDING), Sample.ordered))
    by (vm_compute; reflexivity).
  split; [exact H|].
  exact (proj1 (create_order_then_get Sample.catalog Sample.ordered 7 1
                  Sample.basket _ H)).
Defined.

(** X7. Operations on an order that does not exist.  When no order has
    the id, [get_order_by_id] (for any user id or none), [cancel_order],
    [mark_order_as_paid] and [create_payment] (for any provider name) all
    fail with 404 "Order not found" and leave the store as it was. *)
Theorem missing_order_not_found
    (providers : gmap string PaymentProvider.t) (db : DB) (order_id : Z) :
  orders db !! order_id = None ->
  (forall user_id,
     run_request (OrderService.get_order_by_id order_id user_id) db
       = (Raise OrderNotFound, db)) /\
  (forall user_id,
     run_request (OrderService.cancel_order order_id user_id) db
       = (Raise OrderNotFound, db)) /\
  run_request (OrderService.mark_order_as_paid order_id) db
    = (Raise OrderNotFound, db) /\
  (forall provider_name user_id metadata,
     run_request (PaymentService.create_payment providers order_id provider_name
                    user_id metadata) db
       = (Raise OrderNotFound, db)).
Proof.
  intros Hnone.
  assert (Hget : forall user_id s, working s = db ->
            OrderService.get_order_by_id order_id user_id s = (Raise OrderNotFound, s)).
  { intros user_id s Hs. rewrite get_order_by_id_run, Hs, Hnone.
    destruct (truthy_id user_id); reflexivity. }
  split; [|split; [|split]].
  - intros user_id. unfold run_request. rewrite Hget by reflexivity. reflexivity.
  - intros user_id. rewrite cancel_order_run, Hnone.
    destruct (truthy_id (Some user_id)); reflexivity.
  - unfold run_request. rewrite mark_order_as_paid_run. cbn [working].
    rewrite Hnone. reflexivity.
  - intros provider_name user_id metadata.
    unfold run_request, PaymentService.create_payment.
    unfold mbind at 1. unfold M_bind at 1.
    rewrite Hget by reflexivity. reflexivity.
Qed.

Lemma missing_order_not_found_witness :
  orders Sample.catalog !! 1 = None /\
  run_request (OrderService.mark_order_as_paid 1) Sample.catalog
    = (Raise OrderNotFound, Sample.catalog).
Proof.
  assert (H : orders Sample.catalog !! 1 = None) by (vm_compute; reflexivity).
  split; [exact H|].
  exact (proj1 (proj2 (proj2 (missing_order_not_found Sample.providers
                                Sample.catalog 1 H)))).
Defined.

Lemma foldl_subtotals (items : list OrderItem.t) (acc : Z) :
  foldl (fun acc item => acc + OrderItem.subtotal item) acc items
  = acc + foldr (fun item acc => OrderItem.subtotal item + acc) 0 items.
Proof.
  revert acc. induction items as [|item rest IH]; intros acc; cbn; [lia|].
  rewrite IH. lia.
Qed.

Lemma item_rows_subtotals (order_id seq : Z) (data : list ItemData) :
  foldr (fun item acc => OrderItem.subtotal item + acc) 0 (item_rows order_id seq data)
  = data_total data.
Proof.
  revert seq. induction data as [|d rest IH]; intros seq; cbn; [reflexivity|].
  f_equal. apply IH.
Qed.

(** X8. Recomputing the total.  For an order that [create_order] has
    just returned, [Order.calculate_total] over the order's items gives
    the stored [total_amount] again and leaves the order as it is. *)
Theorem calculate_total_of_created_order
    (db db' : DB) (user_id order_id : Z) (items : list OrderItemCreate)
    (order : Order.t) :
  order_items_fk db ->
  run_request (OrderService.create_order user_id items) db = (Ok (order_id, order), db') ->
  Order.calculate_total order (order_items_of db' order_id)
    = (order, Order.total_amount order).
Proof.
  intros Hfk. unfold run_request. rewrite create_order_run.
  destruct (first_refusal db items) as [e|]; [discriminate|].
  destruct (orders db !! orders_seq db) as [o|] eqn:Hfresh; [discriminate|].
  cbn. intros [= <- <- <-].
  unfold order_items_of. cbn [order_items]. rewrite filter_app.
  rewrite fk_no_items_of_new_order by assumption.
  rewrite item_rows_filter. cbn [app].
  unfold Order.calculate_total. rewrite foldl_subtotals, item_rows_subtotals.
  reflexivity.
Qed.

Lemma calculate_total_of_created_order_witness :
  order_items_fk Sample.catalog /\
  Order.calculate_total (Order.mk 7 3500 OrderStatus.PENDING)
      (order_items_of Sample.ordered 1)
    = (Order.mk 7 3500 OrderStatus.PENDING, 3500).
Proof.
  assert (Hfk : order_items_fk Sample.catalog) by (vm_compute; constructor).
  assert (Hrun : run_request (OrderService.create_order 7 Sample.basket) Sample.catalog
                 = (Ok (1, Order.mk 7 3500 OrderStatus.PENDING), Sample.ordered))
    by (vm_compute; reflexivity).
  split; [exact Hfk|].
  exact (calculate_total_of_created_order Sample.catalog Sample.ordered 7 1
           Sample.basket _ Hfk Hrun).
Defined.

(** ** Stock requests *)

Lemma reduce_stock_request_run (product_id quantity : Z) (db : DB) :
  run_request (ProductService.reduce_stock product_id quantity) db =
    match products db !! product_id with
    | Some p =>
        if Product.stock p >=? quantity then
          (Ok true,
           with_products db
             (<[product_id := Product.with_stock p (Product.stock p - quantity)]>
                (products db)))
        else (Ok false, db)
    | None => (Ok false, db)
    end.
Proof.
  unfold run_request, ProductService.reduce_stock, ProductService.get_product_by_id.
  run_M. cbn [working].
  destruct (products db !! product_id) as [p|]; [|reflexivity].
  unfold Product.reduce_stock.
  destruct (Product.stock p >=? quantity); reflexivity.
Qed.

(** X9. Checking and then taking stock.  When
    [check_stock_availability] answers [True] for a product and a
    quantity, [reduce_stock] for the same product and quantity answers
    [True] and the product's stock goes down by exactly the quantity.
    Whenever [reduce_stock] answers [False] the store is unchanged.  In
    every case [reduce_stock] returns without raising and leaves all
    other products alone. *)
Theorem check_then_reduce_stock (db : DB) (product_id quantity : Z) :
  ((run_request (ProductService.check_stock_availability product_id quantity) db).1
     = Ok true ->
   (run_request (ProductService.reduce_stock product_id quantity) db).1 = Ok true /\
   product_stock (persisted (ProductService.reduce_stock product_id quantity) db)
     product_id
   = (fun stock => stock - quantity) <$> product_stock db product_id) /\
  ((run_request (ProductService.reduce_stock product_id quantity) db).1 = Ok false ->
   persisted (ProductService.reduce_stock product_id quantity) db = db) /\
  (exists answer,
     (run_request (ProductService.reduce_stock product_id quantity) db).1 = Ok answer) /\
  (forall other, other <> product_id ->
     products (persisted (ProductService.reduce_stock product_id quantity) db) !! other
     = products db !! other).
Proof.
  unfold persisted. rewrite reduce_stock_request_run.
  unfold run_request, ProductService.check_stock_availability,
    ProductService.get_product_by_id, product_stock.
  run_M. cbn [working].
  destruct (products db !! product_id) as [p|] eqn:Hp; cbn.
  2:{ repeat split; try discriminate; eauto. }
  unfold Product.is_in_stock.
  destruct (Product.stock p >=? quantity); cbn.
  - repeat split; try discriminate; eauto.
    + rewrite lookup_insert_eq. reflexivity.
    + intros other Hne. apply lookup_insert_ne. congruence.
  - repeat split; try discriminate; eauto.
Qed.

Lemma check_then_reduce_stock_witness :
  (run_request (ProductService.check_stock_availability 1 3) Sample.catalog).1 = Ok true /\
  product_stock (persisted (ProductService.reduce_stock 1 3) Sample.catalog) 1
    = (fun stock => stock - 3) <$> product_stock Sample.catalog 1.
Proof.
  assert (H : (run_request (ProductService.check_stock_availability 1 3)
                 Sample.catalog).1 = Ok true) by (vm_compute; reflexivity).
  split; [exact H|].
  exact (proj2 (proj1 (check_then_reduce_stock Sample.catalog 1 3) H)).
Defined.

(** ** The provider registry *)

(** X10. Registering and resolving providers.  A provider registered
    under a name is what [get_provider] returns for that name, and
    registering does not change what other names resolve to.  In the
    registry as the package sets it up, "stripe" and "bkash" resolve to
    the two adapters, every other name raises
    [ValueError("Payment provider '..' not found")], and each adapter's
    [get_provider_name] is the name it is registered under. *)
Theorem registry_resolution (env : Environment) :
  (forall name provider providers,
     PaymentFactory.get_provider
       (PaymentFactory.register_provider name provider providers) name
     = Ok provider) /\
  (forall name other provider providers,
     other <> name ->
     PaymentFactory.get_provider
       (PaymentFactory.register_provider name provider providers) other
     = PaymentFactory.get_provider providers other) /\
  PaymentFactory.get_provider (PaymentFactory.registered env) "stripe"
    = Ok (StripeProvider.instance env) /\
  PaymentFactory.get_provider (PaymentFactory.registered env) "bkash"
    = Ok (BkashProvider.instance env) /\
  (forall name,
     name <> "stripe" -> name <> "bkash" ->
     PaymentFactory.get_provider (PaymentFactory.registered env) name
     = Raise (ValueError ("Payment provider '" +:+ name +:+ "' not found"))) /\
  (forall name provider,
     PaymentFactory.get_provider (PaymentFactory.registered env) name = Ok provider ->
     PaymentProvider.get_provider_name provider = name).
Proof.
  unfold PaymentFactory.get_provider, PaymentFactory.registered,
    PaymentFactory.register_provider.
  split; [|split; [|split; [|split; [|split]]]].
  - intros name provider providers. rewrite lookup_insert_eq. reflexivity.
  - intros name other provider providers Hne.
    rewrite lookup_insert_ne by congruence. reflexivity.
  - rewrite lookup_insert_ne by discriminate. rewrite lookup_insert_eq. reflexivity.
  - rewrite lookup_insert_eq. reflexivity.
  - intros name Hs Hb.
    rewrite !lookup_insert_ne by congruence. rewrite lookup_empty. reflexivity.
  - intros name provider.
    destruct (decide (name = "bkash")) as [->|Hb].
    { rewrite lookup_insert_eq. intros [= <-]. reflexivity. }
    rewrite lookup_insert_ne by congruence.
    destruct (decide (name = "stripe")) as [->|Hs].
    { rewrite lookup_insert_eq. intros [= <-]. reflexivity. }
    rewrite lookup_insert_ne by congruence. rewrite lookup_empty. discriminate.
Qed.

Lemma registry_resolution_witness :
  PaymentProvider.get_provider_name (BkashProvider.instance Sample.env) = "bkash".
Proof.
  apply (proj2 (proj2 (proj2 (proj2 (proj2 (registry_resolution Sample.env)))))).
  vm_compute. reflexivity.
Defined.

(** ** Creating payments *)

Lemma head_filter_snoc {A} (P : A -> Prop) `{forall x, Decision (P x)}
    (l : list A) (x : A) :
  head (filter P l) = None -> P x -> head (filter P (l ++ [x])) = Some x.
Proof.
  intros Hnone Hx. rewrite filter_app.
  destruct (filter P l) as [|y ys]; [|discriminate].
  cbn [app]. rewrite filter_cons_True by exact Hx. reflexivity.
Qed.

(** X11. A created payment is stored PENDING and can be found.  For a
    PENDING order of the caller, a registered provider named "stripe" or
    "bkash" whose adapter answers successfully with a string
    [transaction_id] that no stored payment carries,
    [create_payment] appends one payment row (next id, the order, the
    provider, the adapter's transaction id and raw response, status
    PENDING), changes no order and no product, returns the adapter's
    result with the payment id merged in, and the row is what a lookup by
    transaction id or by payment id finds afterwards; when the order had
    no payment before, it is also what [get_payment_by_order] returns. *)
Theorem create_payment_stores_pending
    (providers : gmap string PaymentProvider.t) (db : DB)
    (order_id user_id : Z) (provider_name : string) (metadata : json)
    (order : Order.t) (provider : PaymentProvider.t)
    (provider_value : PaymentProviderName.t)
    (result : list (string * json)) (txn : string) :
  orders db !! order_id = Some order ->
  Order.user_id order = user_id ->
  Order.status order = OrderStatus.PENDING ->
  providers !! provider_name = Some provider ->
  PaymentProviderName.of_value provider_name = Some provider_value ->
  PaymentProvider.create_payment provider (Order.total_amount order) order_id metadata
    = Ok (JDict result) ->
  truthy (default JNull (assoc "success" result)) = true ->
  assoc "transaction_id" result = Some (JStr txn) ->
  payment_by_transaction_id db (JStr txn) = None ->
  payment_by_id db (payments_seq db) = None ->
  let payment :=
    Payment.mk (payments_seq db) order_id provider_value txn PaymentStatus.PENDING
      (default JNull (assoc "raw_response" result)) in
  let db' :=
    persisted (PaymentService.create_payment providers order_id provider_name
                 user_id metadata) db in
  (run_request (PaymentService.create_payment providers order_id provider_name
                  user_id metadata) db).1
    = Ok (JDict (dict_update
                   [("payment_id", JInt (payments_seq db));
                    ("order_id", JInt order_id);
                    ("provider", JStr provider_name);
                    ("transaction_id", JStr txn)] result)) /\
  payments db' = payments db ++ [payment] /\
  orders db' = orders db /\
  products db' = products db /\
  payment_by_transaction_id db' (JStr txn) = Some payment /\
  payment_by_id db' (payments_seq db) = Some payment /\
  (head (filter (fun p => Payment.order_id p = order_id) (payments db)) = None ->
   run_request (PaymentService.get_payment_by_order order_id) db' = (Ok payment, db')).
Proof.
  intros Ho Hu Hst Hp Hval Hres Hok Htxn Hnew Hfresh payment db'.
  assert (Hrun :
    run_request (PaymentService.create_payment providers order_id provider_name
                   user_id metadata) db
    = (Ok (JDict (dict_update
                    [("payment_id", JInt (payments_seq db));
                     ("order_id", JInt order_id);
                     ("provider", JStr provider_name);
                     ("transaction_id", JStr txn)] result)),
       mkDB (products db) (orders db) (order_items db) (payments db ++ [payment])
         (orders_seq db) (order_items_seq db) (payments_seq db + 1))).
  { unfold run_request, PaymentService.create_payment.
    unfold mbind at 1. unfold M_bind at 1.
    assert (Hget : OrderService.get_order_by_id order_id (Some user_id)
                     (mkSession db db) = (Ok order, mkSession db db)).
    { rewrite get_order_by_id_run. cbn [working]. rewrite Ho.
      destruct (truthy_id (Some user_id)); [|reflexivity].
      unfold OrderService.filter_user_id. cbn.
      rewrite bool_decide_eq_true_2 by exact Hu. reflexivity. }
    rewrite Hget. rewrite bool_decide_eq_true_2 by exact Hst. cbn [negb].
    unfold mbind at 1. unfold M_bind at 1.
    rewrite get_provider_or_400_run, Hp.
    run_M. rewrite Hres. cbn [py_get py_get_default py_item].
    change (match assoc "success" result with Some v => v | None => JNull end)
      with (default JNull (assoc "success" result)).
    rewrite Hok. cbn [negb]. rewrite Htxn.
    unfold PaymentService.add_payment. run_M. cbn [working].
    rewrite Hval, Hnew, Hfresh.
    rewrite bool_decide_eq_true_2 by reflexivity.
    reflexivity. }
  unfold db', persisted. rewrite Hrun. cbn [fst snd payments orders products].
  split; [reflexivity|]. split; [reflexivity|]. split; [reflexivity|].
  split; [reflexivity|].
  split; [|split].
  - unfold payment_by_transaction_id. cbn [payments].
    apply head_filter_snoc; [exact Hnew | reflexivity].
  - unfold payment_by_id. cbn [payments].
    apply head_filter_snoc; [exact Hfresh | reflexivity].
  - intros Hfirst. unfold run_request, PaymentService.get_payment_by_order.
    run_M. cbn [working payments].
    rewrite (head_filter_snoc _ _ payment Hfirst eq_refl). reflexivity.
Qed.

Lemma create_payment_stores_pending_witness :
  orders Sample.ordered !! 1 = Some (Order.mk 7 3500 OrderStatus.PENDING) /\
  payment_by_transaction_id
    (persisted (PaymentService.create_payment Sample.providers 1 "bkash" 7 JNull)
       Sample.ordered) (JStr Sample.txn)
  = Some (Payment.mk (payments_seq Sample.ordered) 1 PaymentProviderName.BKASH
            Sample.txn PaymentStatus.PENDING
            (default JNull (assoc "raw_response" Sample.bkash_created))).
Proof.
  assert (Ho : orders Sample.ordered !! 1 = Some (Order.mk 7 3500 OrderStatus.PENDING))
    by (vm_compute; reflexivity).
  split; [exact Ho|].
  refine (proj1 (proj2 (proj2 (proj2 (proj2
            (create_payment_stores_pending Sample.providers Sample.ordered
               1 7 "bkash" JNull _ (BkashProvider.instance Sample.env)
               PaymentProviderName.BKASH Sample.bkash_created Sample.txn
               Ho _ _ _ _ _ _ _ _ _))))));
    vm_compute; reflexivity.
Defined.

(** ** Failures of the payment service *)

(** X12. A payment that does not exist.  When no payment has the id,
    [confirm_payment] and [query_payment] fail with 404 "Payment not
    found", before any provider is looked up or called; when no payment
    belongs to the order, [get_payment_by_order] fails with 404 "Payment
    not found for this order".  The store is left as it was. *)
Theorem missing_payment_not_found
    (providers : gmap string PaymentProvider.t) (db : DB) :
  (forall payment_id transaction_id,
     payment_by_id db payment_id = None ->
     run_request (PaymentService.confirm_payment providers payment_id transaction_id) db
       = (Raise PaymentNotFound, db)) /\
  (forall payment_id,
     payment_by_id db payment_id = None ->
     run_request (PaymentService.query_payment providers payment_id) db
       = (Raise PaymentNotFound, db)) /\
  (forall order_id,
     (forall p, p ∈ payments db -> Payment.order_id p <> order_id) ->
     run_request (PaymentService.get_payment_by_order order_id) db
       = (Raise (HTTPException HTTP_404_NOT_FOUND
                   (JStr "Payment not found for this order")), db)).
Proof.
  split; [|split].
  - intros payment_id transaction_id Hnone.
    unfold run_request, PaymentService.confirm_payment. run_M. cbn [working].
    rewrite Hnone. reflexivity.
  - intros payment_id Hnone.
    unfold run_request, PaymentService.query_payment. run_M. cbn [working].
    rewrite Hnone. reflexivity.
  - intros order_id Hnone.
    unfold run_request, PaymentService.get_payment_by_order. run_M. cbn [working].
    assert (Hempty : filter (fun p => Payment.order_id p = order_id) (payments db) = []).
    { induction (payments db) as [|p rest IH]; [reflexivity|].
      rewrite filter_cons_False.
      - apply IH. intros q Hq. apply Hnone, elem_of_cons. right. exact Hq.
      - apply Hnone, elem_of_cons. left. reflexivity. }
    rewrite Hempty. reflexivity.
Qed.

Lemma missing_payment_not_found_witness :
  payment_by_id Sample.ordered 1 = None /\
  run_request (PaymentService.confirm_payment Sample.providers 1 Sample.txn)
      Sample.ordered
    = (Raise PaymentNotFound, Sample.ordered).
Proof.
  assert (H : payment_by_id Sample.ordered 1 = None) by (vm_compute; reflexivity).
  split; [exact H|].
  exact (proj1 (missing_payment_not_found Sample.providers Sample.ordered)
           1 Sample.txn H).
Defined.

(** X13. A provider that is not registered.  [handle_webhook] for an
    unregistered provider name fails with 400 "Payment provider '..' not
    found" without looking at the payload; [create_payment] for a PENDING
    order of the caller fails the same way.  Nothing is stored. *)
Theorem unknown_provider_rejected
    (providers : gmap string PaymentProvider.t) (db : DB) (provider_name : string) :
  providers !! provider_name = None ->
  (forall payload,
     run_request (PaymentService.handle_webhook providers provider_name payload) db
       = (Raise (UnknownProvider provider_name), db)) /\
  (forall order_id user_id metadata order,
     orders db !! order_id = Some order ->
     Order.user_id order = user_id ->
     Order.status order = OrderStatus.PENDING ->
     run_request (PaymentService.create_payment providers order_id provider_name
                    user_id metadata) db
       = (Raise (UnknownProvider provider_name), db)).
Proof.
  intros Hnone. split.
  - intros payload. unfold run_request, PaymentService.handle_webhook.
    unfold mbind at 1. unfold M_bind at 1.
    rewrite get_provider_or_400_run, Hnone. reflexivity.
  - intros order_id user_id metadata order Ho Hu Hst.
    unfold run_request, PaymentService.create_payment.
    unfold mbind at 1. unfold M_bind at 1.
    assert (Hget : OrderService.get_order_by_id order_id (Some user_id)
                     (mkSession db db) = (Ok order, mkSession db db)).
    { rewrite get_order_by_id_run. cbn [working]. rewrite Ho.
      destruct (truthy_id (Some user_id)); [|reflexivity].
      unfold OrderService.filter_user_id. cbn.
      rewrite bool_decide_eq_true_2 by exact Hu. reflexivity. }
    rewrite Hget. rewrite bool_decide_eq_true_2 by exact Hst. cbn [negb].
    unfold mbind at 1. unfold M_bind at 1.
    rewrite get_provider_or_400_run, Hnone. reflexivity.
Qed.

Lemma unknown_provider_rejected_witness :
  Sample.providers !! "paypal" = None /\
  run_request (PaymentService.handle_webhook Sample.providers "paypal" JNull)
      Sample.paying
    = (Raise (UnknownProvider "paypal"), Sample.paying).
Proof.
  assert (H : Sample.providers !! "paypal" = None) by (vm_compute; reflexivity).
  split; [exact H|].
  exact (proj1 (unknown_provider_rejected Sample.providers Sample.paying "paypal" H)
           JNull).
Defined.

(** ** Confirming *)

Lemma reduce_items_no_exception (items : list OrderItem.t) (prods : gmap Z Product.t) :
  (forall item, item ∈ items -> is_Some (prods !! OrderItem.product_id item)) ->
  (Order.reduce_items items prods).2 = None.
Proof.
  revert prods. induction items as [|item rest IH]; intros prods Hall; cbn.
  - reflexivity.
  - destruct (Hall item) as [p Hp]; [apply elem_of_cons; left; reflexivity|].
    rewrite Hp.
    destruct (Product.reduce_stock p (OrderItem.quantity item)) as [p' b].
    apply IH. intros i Hi.
    destruct (decide (OrderItem.product_id item = OrderItem.product_id i)) as [<-|Hne].
    + rewrite lookup_insert_eq. eauto.
    + rewrite lookup_insert_ne by exact Hne. apply Hall, elem_of_cons. right. exact Hi.
Qed.

(** X14. A payment still in progress.  When the adapter's confirmation
    is successful and its status is "requires_payment_method",
    "requires_action" or "processing", [confirm_payment] returns the
    stored payment as it is and the store is unchanged: no status moves,
    no order is paid, no stock is taken. *)
Theorem confirm_payment_in_progress
    (providers : gmap string PaymentProvider.t) (db : DB) (payment : Payment.t)
    (transaction_id : string) (provider : PaymentProvider.t)
    (result : list (string * json)) :
  payment_by_id db (Payment.id payment) = Some payment ->
  providers !! PaymentProviderName.value (Payment.provider payment) = Some provider ->
  PaymentProvider.confirm_payment provider transaction_id = Ok (JDict result) ->
  truthy (default JNull (assoc "success" result)) = true ->
  (assoc "status" result = Some (JStr "requires_payment_method") \/
   assoc "status" result = Some (JStr "requires_action") \/
   assoc "status" result = Some (JStr "processing")) ->
  run_request (PaymentService.confirm_payment providers (Payment.id payment)
                 transaction_id) db
    = (Ok payment, db).
Proof.
  intros Hstored Hp Hres Hok Hst.
  rewrite (confirm_payment_run providers db payment provider result Hstored Hp
             transaction_id Hres).
  rewrite Hok. cbn [negb].
  destruct Hst as [-> | [-> | ->]]; reflexivity.
Qed.

Lemma confirm_payment_in_progress_witness :
  run_request (PaymentService.confirm_payment
                 (PaymentFactory.registered Sample.env_processing) 1 "pi_1")
      Sample.paying_stripe
    = (Ok (Payment.mk 1 1 PaymentProviderName.STRIPE "pi_1" PaymentStatus.PENDING
             (PaymentIntent_json
                (mkPaymentIntent "pi_1" "secret" "requires_payment_method" 3500 "usd"))),
       Sample.paying_stripe).
Proof.
  refine (confirm_payment_in_progress (PaymentFactory.registered Sample.env_processing)
            Sample.paying_stripe
            (Payment.mk 1 1 PaymentProviderName.STRIPE "pi_1" PaymentStatus.PENDING _)
            "pi_1" (StripeProvider.instance Sample.env_processing)
            [("success", JBool true); ("transaction_id", JStr "pi_1");
             ("status", JStr "processing"); ("amount", JInt 3500);
             ("raw_response",
              PaymentIntent_json
                (mkPaymentIntent "pi_1" "secret" "processing" 3500 "usd"))]
            _ _ _ _ _);
    try (vm_compute; reflexivity).
  right. right. reflexivity.
Defined.

(** X15. A successful confirmation pays the order.  For a stored
    payment whose adapter confirms with status "succeeded", whose order
    is PENDING and whose order items all name products that exist:
    [confirm_payment] returns the payment as SUCCESS carrying the
    adapter's [raw_response]; afterwards the payment is stored SUCCESS
    with that response and the order is PAID. *)
Theorem confirm_payment_succeeded_pays
    (providers : gmap string PaymentProvider.t) (db : DB) (payment : Payment.t)
    (transaction_id : string) (provider : PaymentProvider.t)
    (result : list (string * json)) (order : Order.t) :
  payment_by_id db (Payment.id payment) = Some payment ->
  providers !! PaymentProviderName.value (Payment.provider payment) = Some provider ->
  PaymentProvider.confirm_payment provider transaction_id = Ok (JDict result) ->
  truthy (default JNull (assoc "success" result)) = true ->
  assoc "status" result = Some (JStr "succeeded") ->
  orders db !! Payment.order_id payment = Some order ->
  Order.status order = OrderStatus.PENDING ->
  (forall item, item ∈ order_items_of db (Payment.order_id payment) ->
     is_Some (products db !! OrderItem.product_id item)) ->
  let payment' :=
    Payment.mk (Payment.id payment) (Payment.order_id payment)
      (Payment.provider payment) (Payment.transaction_id payment)
      PaymentStatus.SUCCESS (default JNull (assoc "raw_response" result)) in
  let db' :=
    persisted (PaymentService.confirm_payment providers (Payment.id payment)
                 transaction_id) db in
  (run_request (PaymentService.confirm_payment providers (Payment.id payment)
                  transaction_id) db).1 = Ok payment' /\
  payment_by_id db' (Payment.id payment) = Some payment' /\
  order_status db' (Payment.order_id payment) = Some OrderStatus.PAID.
Proof.
  intros Hstored Hp Hres Hok Hst Ho Hpending Hproducts payment' db'.
  unfold db', persisted.
  rewrite (confirm_payment_run providers db payment provider result Hstored Hp
             transaction_id Hres).
  rewrite Hok, Hst, Ho. cbn [negb default from_option id eq_str].
  rewrite bool_decide_eq_true_2 by reflexivity.
  rewrite bool_decide_eq_true_2 by exact Hpending.
  unfold Order.mark_as_paid.
  pose proof (reduce_items_no_exception _ _ Hproducts) as Hnone.
  destruct (Order.reduce_items _ _) as [products' exn]. cbn in Hnone. subst exn.
  cbn [fst snd].
  split; [reflexivity|]. split.
  - exact (update_payment_by_id db payment payment' Hstored eq_refl).
  - unfold order_status. cbn. rewrite lookup_insert_eq. reflexivity.
Qed.

Lemma confirm_payment_succeeded_pays_witness :
  order_status
    (persisted (PaymentService.confirm_payment Sample.providers 1 "pi_1")
       Sample.paying_stripe) 1
  = Some OrderStatus.PAID.
Proof.
  assert (Hitems : order_items_of Sample.paying_stripe 1
                   = [OrderItem.mk 1 1 1 3 1000 3000; OrderItem.mk 2 1 2 1 500 500])
    by (vm_compute; reflexivity).
  refine (proj2 (proj2 (confirm_payment_succeeded_pays Sample.providers
            Sample.paying_stripe
            (Payment.mk 1 1 PaymentProviderName.STRIPE "pi_1" PaymentStatus.PENDING
               (PaymentIntent_json
                  (mkPaymentIntent "pi_1" "secret" "requires_payment_method" 3500 "usd")))
            "pi_1" (StripeProvider.instance Sample.env)
            [("success", JBool true); ("transaction_id", JStr "pi_1");
             ("status", JStr "succeeded"); ("amount", JInt 3500);
             ("raw_response",
              PaymentIntent_json
                (mkPaymentIntent "pi_1" "secret" "succeeded" 3500 "usd"))]
            (Order.mk 7 3500 OrderStatus.PENDING) _ _ _ _ _ _ _ _)));
    try (vm_compute; reflexivity).
  cbn [Payment.order_id]. rewrite Hitems. intros item Hin.
  apply elem_of_cons in Hin as [->|Hin].
  - exists Sample.pen. vm_compute. reflexivity.
  - apply list_elem_of_singleton in Hin as ->.
    exists Sample.ink. vm_compute. reflexivity.
Defined.

(** X16. A success webhook pays the order.  For a webhook that the
    adapter normalizes to status "success" and whose transaction id
    belongs to a stored payment, with the payment's order PENDING and all
    of its items naming products that exist: [handle_webhook] returns the
    adapter's result; afterwards the payment is stored SUCCESS with the
    result's [raw_response] and the order is PAID. *)
Theorem webhook_success_pays
    (providers : gmap string PaymentProvider.t) (db : DB)
    (provider_name : string) (payload : json) (provider : PaymentProvider.t)
    (result : list (string * json)) (payment : Payment.t) (order : Order.t) :
  providers !! provider_name = Some provider ->
  PaymentProvider.handle_webhook provider payload = Ok (JDict result) ->
  truthy (default JNull (assoc "success" result)) = true ->
  truthy (default JNull (assoc "transaction_id" result)) = true ->
  payment_by_transaction_id db (default JNull (assoc "transaction_id" result))
    = Some payment ->
  payment_by_id db (Payment.id payment) = Some payment ->
  eq_str (default JNull (assoc "status" result)) "success" = true ->
  orders db !! Payment.order_id payment = Some order ->
  Order.status order = OrderStatus.PENDING ->
  (forall item, item ∈ order_items_of db (Payment.order_id payment) ->
     is_Some (products db !! OrderItem.product_id item)) ->
  let payment' :=
    Payment.mk (Payment.id payment) (Payment.order_id payment)
      (Payment.provider payment) (Payment.transaction_id payment)
      PaymentStatus.SUCCESS (default JNull (assoc "raw_response" result)) in
  let db' :=
    persisted (PaymentService.handle_webhook providers provider_name payload) db in
  (run_request (PaymentService.handle_webhook providers provider_name payload) db).1
    = Ok (JDict result) /\
  payment_by_id db' (Payment.id payment) = Some payment' /\
  order_status db' (Payment.order_id payment) = Some OrderStatus.PAID.
Proof.
  intros Hp Hres Hok Htid Hfound Hstored Hst Ho Hpending Hproducts payment' db'.
  unfold db', persisted.
  rewrite (webhook_success_run providers provider_name payload provider result
             Hp Hres Hok Htid db payment Hfound Hst).
  cbn zeta. rewrite Ho.
  rewrite bool_decide_eq_true_2 by exact Hpending.
  unfold Order.mark_as_paid.
  pose proof (reduce_items_no_exception _ _ Hproducts) as Hnone.
  destruct (Order.reduce_items _ _) as [products' exn]. cbn in Hnone. subst exn.
  cbn [fst snd].
  split; [reflexivity|]. split.
  - exact (update_payment_by_id db payment payment' Hstored eq_refl).
  - unfold order_status. cbn. rewrite lookup_insert_eq. reflexivity.
Qed.

Lemma webhook_success_pays_witness :
  order_status
    (persisted (PaymentService.handle_webhook Sample.providers "bkash"
                  Sample.bkash_success) Sample.paying) 1
  = Some OrderStatus.PAID.
Proof.
  assert (Hitems : order_items_of Sample.paying 1
                   = [OrderItem.mk 1 1 1 3 1000 3000; OrderItem.mk 2 1 2 1 500 500])
    by (vm_compute; reflexivity).
  refine (proj2 (proj2 (webhook_success_pays Sample.providers Sample.paying "bkash"
            Sample.bkash_success (BkashProvider.instance Sample.env)
            [("success", JBool true); ("transaction_id", JStr Sample.txn);
             ("status", JStr "success"); ("raw_response", Sample.bkash_success)]
            (Payment.mk 1 1 PaymentProviderName.BKASH Sample.txn PaymentStatus.PENDING
               (default JNull (assoc "raw_response" Sample.bkash_created)))
            (Order.mk 7 3500 OrderStatus.PENDING) _ _ _ _ _ _ _ _ _ _)));
    try (vm_compute; reflexivity).
  cbn [Payment.order_id]. rewrite Hitems. intros item Hin.
  apply elem_of_cons in Hin as [->|Hin].
  - exists Sample.pen. vm_compute. reflexivity.
  - apply list_elem_of_singleton in Hin as ->.
    exists Sample.ink. vm_compute. reflexivity.
Defined.

(** X17. A success report for an order that is not PENDING.  When the
    payment's order is PAID or CANCELED, a successful confirmation
    ("succeeded") and a success webhook for that payment both fail with
    400 "Order is not in pending status", and nothing is stored: the
    payment keeps the status it had, whatever it was. *)
Theorem success_report_rejected_for_closed_order
    (providers : gmap string PaymentProvider.t) (db : DB) (payment : Payment.t)
    (order : Order.t) :
  orders db !! Payment.order_id payment = Some order ->
  Order.status order <> OrderStatus.PENDING ->
  (forall transaction_id provider result,
     payment_by_id db (Payment.id payment) = Some payment ->
     providers !! PaymentProviderName.value (Payment.provider payment) = Some provider ->
     PaymentProvider.confirm_payment provider transaction_id = Ok (JDict result) ->
     truthy (default JNull (assoc "success" result)) = true ->
     assoc "status" result = Some (JStr "succeeded") ->
     run_request (PaymentService.confirm_payment providers (Payment.id payment)
                    transaction_id) db
       = (Raise InvalidTransition, db)) /\
  (forall provider_name payload provider result,
     providers !! provider_name = Some provider ->
     PaymentProvider.handle_webhook provider payload = Ok (JDict result) ->
     truthy (default JNull (assoc "success" result)) = true ->
     truthy (default JNull (assoc "transaction_id" result)) = true ->
     payment_by_transaction_id db (default JNull (assoc "transaction_id" result))
       = Some payment ->
     eq_str (default JNull (assoc "status" result)) "success" = true ->
     run_request (PaymentService.handle_webhook providers provider_name payload) db
       = (Raise InvalidTransition, db)).
Proof.
  intros Ho Hclosed. split.
  - intros transaction_id provider result Hstored Hp Hres Hok Hst.
    rewrite (confirm_payment_run providers db payment provider result Hstored Hp
               transaction_id Hres).
    rewrite Hok, Hst, Ho. cbn [negb default from_option id eq_str].
    rewrite bool_decide_eq_true_2 by reflexivity.
    rewrite bool_decide_eq_false_2 by exact Hclosed. reflexivity.
  - intros provider_name payload provider result Hp Hres Hok Htid Hfound Hst.
    rewrite (webhook_success_run providers provider_name payload provider result
               Hp Hres Hok Htid db payment Hfound Hst).
    cbn zeta. rewrite Ho.
    rewrite bool_decide_eq_false_2 by exact Hclosed. reflexivity.
Qed.

Lemma success_report_rejected_for_closed_order_witness :
  orders Sample.canceled !! 1 = Some (Order.mk 7 3500 OrderStatus.CANCELED) /\
  run_request (PaymentService.handle_webhook Sample.providers "bkash"
                 Sample.bkash_success) Sample.canceled
    = (Raise InvalidTransition, Sample.canceled) /\
  payment_status Sample.canceled 1 = Some PaymentStatus.PENDING.
Proof.
  assert (Ho : orders Sample.canceled !! 1 = Some (Order.mk 7 3500 OrderStatus.CANCELED))
    by (vm_compute; reflexivity).
  split; [exact Ho|]. split; [|vm_compute; reflexivity].
  refine (proj2 (success_report_rejected_for_closed_order Sample.providers
            Sample.canceled
            (Payment.mk 1 1 PaymentProviderName.BKASH Sample.txn PaymentStatus.PENDING
               (default JNull (assoc "raw_response" Sample.bkash_created)))
            _ Ho _)
          "bkash" Sample.bkash_success (BkashProvider.instance Sample.env)
          [("success", JBool true); ("transaction_id", JStr Sample.txn);
           ("status", JStr "success"); ("raw_response", Sample.bkash_success)]
          _ _ _ _ _ _);
    try (vm_compute; reflexivity).
  discriminate.
Defined.

(** X18. A status [confirm_payment] does not know.  When the adapter's
    confirmation is successful but its status is none of "succeeded",
    "requires_payment_method", "requires_action", "processing",
    [confirm_payment] returns the payment as FAILED and stores it so; the
    stored [raw_response] is not replaced, and no order and no product
    changes. *)
Theorem confirm_payment_unknown_status_fails
    (providers : gmap string PaymentProvider.t) (db : DB) (payment : Payment.t)
    (transaction_id : string) (provider : PaymentProvider.t)
    (result : list (string * json)) :
  payment_by_id db (Payment.id payment) = Some payment ->
  providers !! PaymentProviderName.value (Payment.provider payment) = Some provider ->
  PaymentProvider.confirm_payment provider transaction_id = Ok (JDict result) ->
  truthy (default JNull (assoc "success" result)) = true ->
  eq_str (default JNull (assoc "status" result)) "succeeded" = false ->
  eq_str (default JNull (assoc "status" result)) "requires_payment_method" = false ->
  eq_str (default JNull (assoc "status" result)) "requires_action" = false ->
  eq_str (default JNull (assoc "status" result)) "processing" = false ->
  let payment' :=
    Payment.mk (Payment.id payment) (Payment.order_id payment)
      (Payment.provider payment) (Payment.transaction_id payment)
      PaymentStatus.FAILED (Payment.raw_response payment) in
  let db' :=
    persisted (PaymentService.confirm_payment providers (Payment.id payment)
                 transaction_id) db in
  (run_request (PaymentService.confirm_payment providers (Payment.id payment)
                  transaction_id) db).1 = Ok payment' /\
  payment_by_id db' (Payment.id payment) = Some payment' /\
  orders db' = orders db /\
  products db' = products db.
Proof.
  intros Hstored Hp Hres Hok H1 H2 H3 H4 payment' db'.
  unfold db', persisted.
  rewrite (confirm_payment_run providers db payment provider result Hstored Hp
             transaction_id Hres).
  rewrite Hok, H1, H2, H3, H4. cbn [negb orb fst snd].
  split; [reflexivity|]. split; [|split; reflexivity].
  exact (update_payment_by_id db payment payment' Hstored eq_refl).
Qed.

Lemma confirm_payment_unknown_status_fails_witness :
  payment_by_id
    (persisted (PaymentService.confirm_payment
                  (PaymentFactory.registered Sample.env_canceled) 1 "pi_1")
       Sample.paying_stripe) 1
  = Some (Payment.mk 1 1 PaymentProviderName.STRIPE "pi_1" PaymentStatus.FAILED
            (PaymentIntent_json
               (mkPaymentIntent "pi_1" "secret" "requires_payment_method" 3500 "usd"))).
Proof.
  refine (proj1 (proj2 (confirm_payment_unknown_status_fails
            (PaymentFactory.registered Sample.env_canceled) Sample.paying_stripe
            (Payment.mk 1 1 PaymentProviderName.STRIPE "pi_1" PaymentStatus.PENDING
               (PaymentIntent_json
                  (mkPaymentIntent "pi_1" "secret" "requires_payment_method" 3500 "usd")))
            "pi_1" (StripeProvider.instance Sample.env_canceled)
            [("success", JBool true); ("transaction_id", JStr "pi_1");
             ("status", JStr "canceled"); ("amount", JInt 3500);
             ("raw_response",
              PaymentIntent_json
                (mkPaymentIntent "pi_1" "secret" "canceled" 3500 "usd"))]
            _ _ _ _ _ _ _ _)));
    vm_compute; reflexivity.
Defined.

(** ** Querying *)

Lemma payment_by_id_id (db : DB) (payment_id : Z) (p : Payment.t) :
  payment_by_id db payment_id = Some p -> Payment.id p = payment_id.
Proof.
  unfold payment_by_id. intros H.
  apply head_Some_elem_of, list_elem_of_filter in H. tauto.
Qed.

(** [query_payment] either leaves the store or rewrites one payment. *)
Lemma query_payment_store
    (providers : gmap string PaymentProvider.t) (db : DB) (payment_id : Z) :
  persisted (PaymentService.query_payment providers payment_id) db = db \/
  exists payment', persisted (PaymentService.query_payment providers payment_id) db
                   = update_payment payment' db.
Proof.
  destruct (payment_by_id db payment_id) as [payment|] eqn:Hstored.
  2:{ left. unfold persisted.
      rewrite (proj1 (proj2 (missing_payment_not_found providers db)) _ Hstored).
      reflexivity. }
  pose proof (payment_by_id_id db payment_id payment Hstored) as Hid. subst payment_id.
  destruct (providers !! PaymentProviderName.value (Payment.provider payment))
    as [provider|] eqn:Hp.
  2:{ left. unfold persisted, run_request, PaymentService.query_payment.
      run_M. cbn [working]. rewrite Hstored.
      unfold PaymentFactory.get_provider. rewrite Hp. reflexivity. }
  destruct (PaymentProvider.query_payment provider (Payment.transaction_id payment))
    as [v|e] eqn:Hres.
  2:{ left. unfold persisted, run_request, PaymentService.query_payment.
      run_M. cbn [working]. rewrite Hstored.
      unfold PaymentFactory.get_provider. rewrite Hp, Hres. reflexivity. }
  destruct v as [| | | | |result];
    try (left; unfold persisted, run_request, PaymentService.query_payment;
         run_M; cbn [working]; rewrite Hstored;
         unfold PaymentFactory.get_provider; rewrite Hp, Hres; reflexivity).
  unfold persisted.
  rewrite (query_payment_run providers db payment provider result Hstored Hp Hres).
  destruct (eq_str _ "succeeded" && _); [right; eexists; reflexivity|].
  destruct (eq_str _ "failed" && _); [right; eexists; reflexivity|].
  left. reflexivity.
Qed.

(** X19. [query_payment] never pays an order.  Whatever the adapter
    reports, after [query_payment] every order, order item and product is
    exactly as before, and there are as many payments as before.  In
    particular, when the adapter reports "succeeded" for a stored payment
    that is not yet SUCCESS, the payment becomes SUCCESS while its order
    keeps its status and no stock is taken. *)
Theorem query_payment_never_pays
    (providers : gmap string PaymentProvider.t) (db : DB) (payment_id : Z) :
  orders (persisted (PaymentService.query_payment providers payment_id) db) = orders db /\
  order_items (persisted (PaymentService.query_payment providers payment_id) db)
    = order_items db /\
  products (persisted (PaymentService.query_payment providers payment_id) db)
    = products db /\
  length (payments (persisted (PaymentService.query_payment providers payment_id) db))
    = length (payments db) /\
  (forall payment provider result,
     payment_by_id db payment_id = Some payment ->
     providers !! PaymentProviderName.value (Payment.provider payment) = Some provider ->
     PaymentProvider.query_payment provider (Payment.transaction_id payment)
       = Ok (JDict result) ->
     eq_str (default JNull (assoc "status" result)) "succeeded" = true ->
     Payment.status payment <> PaymentStatus.SUCCESS ->
     payment_status (persisted (PaymentService.query_payment providers payment_id) db)
       payment_id = Some PaymentStatus.SUCCESS /\
     order_status (persisted (PaymentService.query_payment providers payment_id) db)
       (Payment.order_id payment)
     = order_status db (Payment.order_id payment)).
Proof.
  assert (Hframe :
    orders (persisted (PaymentService.query_payment providers payment_id) db) = orders db /\
    order_items (persisted (PaymentService.query_payment providers payment_id) db)
      = order_items db /\
    products (persisted (PaymentService.query_payment providers payment_id) db)
      = products db /\
    length (payments (persisted (PaymentService.query_payment providers payment_id) db))
      = length (payments db)).
  { destruct (query_payment_store providers db payment_id) as [-> | [payment' ->]].
    - auto.
    - unfold update_payment. cbn. rewrite length_fmap. auto. }
  destruct Hframe as (Ho & Hi & Hpr & Hlen).
  split; [exact Ho|]. split; [exact Hi|]. split; [exact Hpr|]. split; [exact Hlen|].
  intros payment provider result Hstored Hp Hres Hst Hnot.
  split; [|unfold order_status; rewrite Ho; reflexivity].
  pose proof (payment_by_id_id db payment_id payment Hstored) as Hid. subst payment_id.
  unfold persisted.
  rewrite (query_payment_run providers db payment provider result Hstored Hp Hres).
  rewrite Hst. rewrite bool_decide_eq_false_2 by exact Hnot. cbn [andb negb snd].
  exact (payment_status_updated db payment
           (Payment.with_raw_response (Payment.mark_as_success payment)
              (default JNull (assoc "raw_response" result)))
           Hstored eq_refl).
Qed.

Lemma query_payment_never_pays_witness :
  payment_status (persisted (PaymentService.query_payment Sample.providers 1)
                    Sample.paying_stripe) 1 = Some PaymentStatus.SUCCESS /\
  order_status (persisted (PaymentService.query_payment Sample.providers 1)
                  Sample.paying_stripe) 1 = Some OrderStatus.PENDING.
Proof.
  assert (Ho : order_status Sample.paying_stripe 1 = Some OrderStatus.PENDING)
    by (vm_compute; reflexivity).
  rewrite <- Ho.
  refine (proj2 (proj2 (proj2 (proj2
            (query_payment_never_pays Sample.providers Sample.paying_stripe 1))))
          (Payment.mk 1 1 PaymentProviderName.STRIPE "pi_1" PaymentStatus.PENDING
             (PaymentIntent_json
                (mkPaymentIntent "pi_1" "secret" "requires_payment_method" 3500 "usd")))
          (StripeProvider.instance Sample.env)
          [("success", JBool true); ("transaction_id", JStr "pi_1");
           ("status", JStr "succeeded"); ("amount", JInt 3500);
           ("currency", JStr "usd");
           ("raw_response",
            PaymentIntent_json (mkPaymentIntent "pi_1" "secret" "succeeded" 3500 "usd"))]
          _ _ _ _ _);
    try (vm_compute; reflexivity).
  discriminate.
Defined.

(** X20. Querying twice.  With an adapter that answers the same way,
    a second [query_payment] for the same payment stores nothing new:
    the store after two queries is the store after one. *)
Theorem query_payment_idempotent
    (providers : gmap string PaymentProvider.t) (db : DB) (payment_id : Z) :
  persisted (PaymentService.query_payment providers payment_id)
    (persisted (PaymentService.query_payment providers payment_id) db)
  = persisted (PaymentService.query_payment providers payment_id) db.
Proof.
  assert (Hsame : forall d,
    persisted (PaymentService.query_payment providers payment_id) d = d ->
    persisted (PaymentService.query_payment providers payment_id)
      (persisted (PaymentService.query_payment providers payment_id) d)
    = persisted (PaymentService.query_payment providers payment_id) d).
  { intros d Hd. rewrite !Hd. reflexivity. }
  destruct (payment_by_id db payment_id) as [payment|] eqn:Hstored.
  2:{ apply Hsame. unfold persisted.
      rewrite (proj1 (proj2 (missing_payment_not_found providers db)) _ Hstored).
      reflexivity. }
  pose proof (payment_by_id_id db payment_id payment Hstored) as Hid. subst payment_id.
  destruct (providers !! PaymentProviderName.value (Payment.provider payment))
    as [provider|] eqn:Hp.
  2:{ apply Hsame. unfold persisted, run_request, PaymentService.query_payment.
      run_M. cbn [working]. rewrite Hstored.
      unfold PaymentFactory.get_provider. rewrite Hp. reflexivity. }
  destruct (PaymentProvider.query_payment provider (Payment.transaction_id payment))
    as [v|e] eqn:Hres.
  2:{ apply Hsame. unfold persisted, run_request, PaymentService.query_payment.
      run_M. cbn [working]. rewrite Hstored.
      unfold PaymentFactory.get_provider. rewrite Hp, Hres. reflexivity. }
  destruct v as [| | | | |result];
    try (apply Hsame; unfold persisted, run_request, PaymentService.query_payment;
         run_M; cbn [working]; rewrite Hstored;
         unfold PaymentFactory.get_provider; rewrite Hp, Hres; reflexivity).
  assert (Hagain : forall payment',
    Payment.id payment' = Payment.id payment ->
    Payment.provider payment' = Payment.provider payment ->
    Payment.transaction_id payment' = Payment.transaction_id payment ->
    (eq_str (default JNull (assoc "status" result)) "succeeded" = true ->
     Payment.status payment' = PaymentStatus.SUCCESS) ->
    (eq_str (default JNull (assoc "status" result)) "failed" = true ->
     Payment.status payment' = PaymentStatus.FAILED) ->
    persisted (PaymentService.query_payment providers (Payment.id payment))
      (update_payment payment' db) = update_payment payment' db).
  { intros payment' Hid Hprov Htxn Hs Hf.
    pose proof (update_payment_by_id db payment payment' Hstored Hid) as Hstored'.
    rewrite <- Hid in Hstored' |- *.
    rewrite <- Hprov in Hp. rewrite <- Htxn in Hres.
    unfold persisted.
    rewrite (query_payment_run providers _ payment' provider result Hstored' Hp Hres).
    destruct (eq_str (default JNull (assoc "status" result)) "succeeded") eqn:Hs1.
    - rewrite (bool_decide_eq_true_2 _ (Hs eq_refl)). cbn [andb negb].
      assert (Hnf : eq_str (default JNull (assoc "status" result)) "failed" = false).
      { apply eq_str_true in Hs1. rewrite Hs1. reflexivity. }
      rewrite Hnf. reflexivity.
    - cbn [andb].
      destruct (eq_str (default JNull (assoc "status" result)) "failed") eqn:Hf1;
        [|reflexivity].
      rewrite (bool_decide_eq_true_2 _ (Hf eq_refl)). reflexivity. }
  unfold persisted at 2 3.
  rewrite (query_payment_run providers db payment provider result Hstored Hp Hres).
  destruct (eq_str (default JNull (assoc "status" result)) "succeeded" && _) eqn:Hb1.
  { cbn [snd]. apply andb_prop in Hb1 as [Hs _].
    apply Hagain; try reflexivity.
    intros Hf. apply eq_str_true in Hs. rewrite Hs in Hf. discriminate. }
  destruct (eq_str (default JNull (assoc "status" result)) "failed" && _) eqn:Hb2.
  { cbn [snd]. apply andb_prop in Hb2 as [Hf _].
    apply Hagain; try reflexivity.
    intros Hs. apply eq_str_true in Hf. rewrite Hf in Hs. discriminate. }
  cbn [snd]. unfold persisted.
  rewrite (query_payment_run providers db payment provider result Hstored Hp Hres).
  rewrite Hb1, Hb2. reflexivity.
Qed.

(** ** Webhooks *)

Lemma update_payment_by_id_other (db : DB) (p' : Payment.t) (payment_id : Z) :
  Payment.id p' <> payment_id ->
  payment_by_id (update_payment p' db) payment_id = payment_by_id db payment_id.
Proof.
  unfold payment_by_id, update_payment. cbn [payments with_payments].
  intros Hne. induction (payments db) as [|q rest IH]; [reflexivity|].
  rewrite fmap_cons.
  destruct (decide (Payment.id q = Payment.id p')) as [Hq|Hq].
  - rewrite bool_decide_eq_true_2 by exact Hq.
    rewrite !filter_cons_False by congruence. exact IH.
  - rewrite bool_decide_eq_false_2 by exact Hq.
    destruct (decide (Payment.id q = payment_id)) as [Hid|Hid].
    + rewrite !filter_cons_True by exact Hid. reflexivity.
    + rewrite !filter_cons_False by exact Hid. exact IH.
Qed.

(** X21. A webhook touches one payment at most.  If the payment row
    with some id is not the same after [handle_webhook] as before, then
    the adapter normalized the payload successfully and that row is the
    payment found by the result's transaction id.  Order items are never
    changed, and unless the normalized status is "success", orders and
    products are not changed either. *)
Theorem webhook_touches_named_payment_only
    (providers : gmap string PaymentProvider.t) (provider_name : string)
    (payload : json) (db : DB) :
  (forall payment_id,
     payment_by_id
       (persisted (PaymentService.handle_webhook providers provider_name payload) db)
       payment_id
     <> payment_by_id db payment_id ->
     exists provider result payment,
       providers !! provider_name = Some provider /\
       PaymentProvider.handle_webhook provider payload = Ok (JDict result) /\
       truthy (default JNull (assoc "success" result)) = true /\
       payment_by_transaction_id db (default JNull (assoc "transaction_id" result))
         = Some payment /\
       Payment.id payment = payment_id) /\
  order_items
    (persisted (PaymentService.handle_webhook providers provider_name payload) db)
  = order_items db /\
  (forall provider result,
     providers !! provider_name = Some provider ->
     PaymentProvider.handle_webhook provider payload = Ok (JDict result) ->
     eq_str (default JNull (assoc "status" result)) "success" = false ->
     orders
       (persisted (PaymentService.handle_webhook providers provider_name payload) db)
     = orders db /\
     products
       (persisted (PaymentService.handle_webhook providers provider_name payload) db)
     = products db).
Proof.
  destruct (handle_webhook_cases providers provider_name payload db)
    as [Hsame | (provider & result & payment & Hp & Hres & Hok & Htid & Hfound)].
  { rewrite Hsame. split; [|split].
    - intros payment_id Hne. contradiction.
    - reflexivity.
    - auto. }
  assert (Hcases :
    persisted (PaymentService.handle_webhook providers provider_name payload) db = db \/
    (exists payment',
       Payment.id payment' = Payment.id payment /\
       payments
         (persisted (PaymentService.handle_webhook providers provider_name payload) db)
       = payments (update_payment payment' db) /\
       order_items
         (persisted (PaymentService.handle_webhook providers provider_name payload) db)
       = order_items db /\
       (eq_str (default JNull (assoc "status" result)) "success" = false ->
        persisted (PaymentService.handle_webhook providers provider_name payload) db
        = update_payment payment' db))).
  { unfold persisted.
    destruct (eq_str (default JNull (assoc "status" result)) "success") eqn:Hst.
    - rewrite (webhook_success_run providers provider_name payload provider result
                 Hp Hres Hok Htid db payment Hfound Hst).
      cbn zeta.
      destruct (orders db !! Payment.order_id payment) as [order|]; [|left; reflexivity].
      destruct (bool_decide (Order.status order = OrderStatus.PENDING));
        [|left; reflexivity].
      destruct (Order.mark_as_paid order _ _) as [[order' products'] [e|]];
        [left; reflexivity|].
      right. eexists. split; [|split; [reflexivity|split; [reflexivity|discriminate]]].
      reflexivity.
    - destruct (eq_str (default JNull (assoc "status" result)) "failed") eqn:Hfl.
      + rewrite (webhook_failed_run providers provider_name payload provider result
                   Hp Hres Hok Htid db payment Hfound Hst Hfl).
        right. eexists. split; [|split; [reflexivity|split; reflexivity]]. reflexivity.
      + rewrite (webhook_other_run providers provider_name payload provider result
                   Hp Hres Hok Htid db payment Hfound Hst Hfl).
        left. reflexivity. }
  destruct Hcases as [Hsame | (payment' & Hid & Hpay & Hitems & Hrest)].
  { rewrite Hsame. split; [|split].
    - intros payment_id Hne. contradiction.
    - reflexivity.
    - auto. }
  split; [|split].
  - intros payment_id Hne.
    exists provider, result, payment.
    repeat split; auto.
    destruct (decide (Payment.id payment = payment_id)) as [Heq|Hother]; [exact Heq|].
    exfalso. apply Hne.
    unfold payment_by_id at 1. rewrite Hpay.
    apply (update_payment_by_id_other db payment' payment_id). congruence.
  - exact Hitems.
  - intros provider0 result0 Hp0 Hres0 Hst0.
    rewrite Hp in Hp0. injection Hp0 as <-.
    rewrite Hres in Hres0. injection Hres0 as <-.
    rewrite (Hrest Hst0). split; reflexivity.
Qed.

Lemma webhook_touches_named_payment_only_witness :
  exists provider result payment,
    Sample.providers !! "bkash" = Some provider /\
    PaymentProvider.handle_webhook provider Sample.bkash_failed = Ok (JDict result) /\
    truthy (default JNull (assoc "success" result)) = true /\
    payment_by_transaction_id Sample.paying
      (default JNull (assoc "transaction_id" result)) = Some payment /\
    Payment.id payment = 1.
Proof.
  apply (proj1 (webhook_touches_named_payment_only Sample.providers "bkash"
                  Sample.bkash_failed Sample.paying) 1).
  vm_compute. discriminate.
Defined.

(** ** The adapters *)

Lemma stripe_handle_webhook_result (payload : json) :
  exists result,
    StripeProvider.handle_webhook payload = Ok (JDict result) /\
    ((assoc "success" result = Some (JBool true) /\
      StripeProvider.handle_webhook_try payload = Ok (JDict result)) \/
     (exists e,
        StripeProvider.handle_webhook_try payload = Raise e /\
        result = [("success", JBool false); ("error", JStr (str_error e))])).
Proof.
  unfold StripeProvider.handle_webhook.
  destruct (StripeProvider.handle_webhook_try payload) as [r|e] eqn:Htry.
  2:{ eexists. split; [reflexivity|]. right. exists e. auto. }
  unfold StripeProvider.handle_webhook_try in Htry.
  unfold mbind, result_bind in Htry.
  destruct (py_get payload "type") as [event_type|]; [|discriminate].
  destruct (py_get_default payload "data" (JDict [])) as [envelope|]; [|discriminate].
  destruct (py_get_default envelope "object" (JDict [])) as [data|]; [|discriminate].
  destruct (py_get data "id") as [i|]; [|discriminate].
  destruct (eq_str event_type "payment_intent.succeeded").
  { destruct (py_get_default data "metadata" (JDict [])) as [m|]; [|discriminate].
    destruct (py_get m "order_id") as [o|]; [|discriminate].
    injection Htry as <-. eexists. split; [reflexivity|]. left. split; reflexivity. }
  destruct (eq_str event_type "payment_intent.payment_failed").
  { destruct (py_get_default data "metadata" (JDict [])) as [m|]; [|discriminate].
    destruct (py_get m "order_id") as [o|]; [|discriminate].
    injection Htry as <-. eexists. split; [reflexivity|]. left. split; reflexivity. }
  injection Htry as <-. eexists. split; [reflexivity|]. left. split; reflexivity.
Qed.

(** X22. Malformed webhook payloads.  The Stripe adapter's
    [handle_webhook] never raises: for every payload it returns a
    dictionary whose [success] is [True], or [False] together with the
    text of the exception.  So a Stripe webhook whose payload is not a
    dictionary is answered with [success: False] and the message "'..'
    object has no attribute 'get'", and nothing is stored.  The bKash
    adapter (mock mode) has no such guard: the same payload makes
    [handle_webhook] raise that [AttributeError], again with nothing
    stored. *)
Theorem malformed_webhook_payload (env : Environment) (db : DB) (payload : json) :
  (exists result success,
     StripeProvider.handle_webhook payload = Ok (JDict result) /\
     assoc "success" result = Some (JBool success) /\
     (success = false -> exists text, assoc "error" result = Some (JStr text))) /\
  ((forall d, payload <> JDict d) ->
   run_request (PaymentService.handle_webhook (PaymentFactory.registered env)
                  "stripe" payload) db
     = (Ok (JDict [("success", JBool false);
                   ("error", JStr ("'" +:+ type_name payload
                                   +:+ "' object has no attribute 'get'"))]), db) /\
   (BKASH_MOCK_MODE env = true ->
    run_request (PaymentService.handle_webhook (PaymentFactory.registered env)
                   "bkash" payload) db
      = (Raise (no_attribute payload "get"), db))).
Proof.
  split.
  - destruct (stripe_handle_webhook_result payload)
      as (result & Hres & [[Hok _] | (e & _ & ->)]).
    + exists result, true. repeat split; auto. discriminate.
    + eexists _, false. repeat split; eauto.
  - intros Hnot.
    assert (Hget : forall k dflt,
              py_get_default payload k dflt = Raise (no_attribute payload "get")).
    { intros k dflt. destruct payload; try reflexivity. exfalso. eapply Hnot. reflexivity. }
    split.
    + unfold run_request, PaymentService.handle_webhook.
      unfold mbind at 1. unfold M_bind at 1.
      rewrite get_provider_or_400_run.
      replace (PaymentFactory.registered env !! "stripe")
        with (Some (StripeProvider.instance env))
        by (symmetry; unfold PaymentFactory.registered, PaymentFactory.register_provider;
            rewrite lookup_insert_ne by discriminate; apply lookup_insert_eq).
      run_M. cbn [PaymentProvider.handle_webhook StripeProvider.instance].
      unfold StripeProvider.handle_webhook, StripeProvider.handle_webhook_try.
      unfold mbind, result_bind, py_get. rewrite Hget. reflexivity.
    + intros Hmock.
      unfold run_request, PaymentService.handle_webhook.
      unfold mbind at 1. unfold M_bind at 1.
      rewrite get_provider_or_400_run.
      replace (PaymentFactory.registered env !! "bkash")
        with (Some (BkashProvider.instance env))
        by (symmetry; apply lookup_insert_eq).
      run_M. cbn [PaymentProvider.handle_webhook BkashProvider.instance].
      unfold BkashProvider.handle_webhook, BkashProvider.mock_mode. rewrite Hmock.
      unfold mbind, result_bind, py_get. rewrite Hget. reflexivity.
Qed.

Lemma malformed_webhook_payload_witness :
  run_request (PaymentService.handle_webhook (PaymentFactory.registered Sample.env)
                 "stripe" (JList [])) Sample.paying
  = (Ok (JDict [("success", JBool false);
                ("error", JStr "'list' object has no attribute 'get'")]),
     Sample.paying).
Proof.
  refine (proj1 (proj2 (malformed_webhook_payload Sample.env Sample.paying (JList [])) _)).
  discriminate.
Defined.

(** X23. Stripe events that are not payment outcomes.  A Stripe
    webhook whose [type] is neither "payment_intent.succeeded" nor
    "payment_intent.payment_failed" changes nothing in the store,
    whatever else the payload holds and whatever payments exist. *)
Theorem stripe_other_events_ignored (env : Environment) (db : DB) (payload : json) :
  (forall event_type,
     py_get payload "type" = Ok event_type ->
     eq_str event_type "payment_intent.succeeded" = false /\
     eq_str event_type "payment_intent.payment_failed" = false) ->
  persisted (PaymentService.handle_webhook (PaymentFactory.registered env)
               "stripe" payload) db = db.
Proof.
  intros Hother.
  destruct (handle_webhook_cases (PaymentFactory.registered env) "stripe" payload db)
    as [Hsame | (provider & result & payment & Hp & Hres & Hok & Htid & Hfound)];
    [exact Hsame|].
  exfalso.
  assert (Hprov : provider = StripeProvider.instance env).
  { unfold PaymentFactory.registered, PaymentFactory.register_provider in Hp.
    rewrite lookup_insert_ne in Hp by discriminate.
    rewrite lookup_insert_eq in Hp. congruence. }
  subst provider. cbn [PaymentProvider.handle_webhook StripeProvider.instance] in Hres.
  destruct (stripe_handle_webhook_result payload)
    as (result' & Hres' & [[_ Htry] | (e & _ & Hfail)]);
    rewrite Hres in Hres'; injection Hres' as <-.
  2:{ rewrite Hfail in Hok. discriminate. }
  unfold StripeProvider.handle_webhook_try in Htry.
  unfold mbind, result_bind in Htry.
  destruct (py_get payload "type") as [event_type|] eqn:Hty; [|discriminate].
  destruct (Hother event_type eq_refl) as [H1 H2].
  destruct (py_get_default payload "data" (JDict [])) as [envelope|]; [|discriminate].
  destruct (py_get_default envelope "object" (JDict [])) as [data|]; [|discriminate].
  destruct (py_get data "id") as [i|]; [|discriminate].
  rewrite H1, H2 in Htry. injection Htry as <-.
  cbn in Htid. discriminate.
Qed.

Lemma stripe_other_events_ignored_witness :
  persisted (PaymentService.handle_webhook (PaymentFactory.registered Sample.env)
               "stripe"
               (JDict [("type", JStr "charge.refunded");
                       ("data", JDict [("object", JDict [("id", JStr "pi_1")])])]))
    Sample.paying_stripe
  = Sample.paying_stripe.
Proof.
  apply stripe_other_events_ignored.
  intros event_type Hty. vm_compute in Hty. injection Hty as <-.
  split; reflexivity.
Defined.

(** X24. How the bKash adapter reads a callback.  In mock mode, for a
    dictionary payload the result is successful, carries the payload's
    [paymentID] as transaction id ([None] when there is none) and the
    payload itself as [raw_response]; its status is "success" exactly
    when the payload has no [status] key or its [status] is the string
    "success", and "failed" for every other value. *)
Theorem bkash_webhook_normalization (env : Environment) (payload : list (string * json)) :
  BKASH_MOCK_MODE env = true ->
  exists status,
    BkashProvider.handle_webhook env (JDict payload)
      = Ok (JDict [("success", JBool true);
                   ("transaction_id", default JNull (assoc "paymentID" payload));
                   ("status", JStr status);
                   ("raw_response", JDict payload)]) /\
    (status = "success" \/ status = "failed") /\
    (status = "success" <->
     assoc "status" payload = None \/ assoc "status" payload = Some (JStr "success")).
Proof.
  intros Hmock. unfold BkashProvider.handle_webhook, BkashProvider.mock_mode.
  rewrite Hmock. unfold mbind, result_bind. cbn [py_get py_get_default].
  destruct (assoc "status" payload) as [v|] eqn:Hst.
  - destruct (eq_str v "success") eqn:Heq.
    + apply eq_str_true in Heq. subst v.
      exists "success". split; [destruct (assoc "paymentID" payload); reflexivity|].
      split; [auto|]. split; auto.
    + exists "failed". split; [destruct (assoc "paymentID" payload); reflexivity|].
      split; [auto|]. split; [discriminate|].
      intros [Hn | Hs]; [discriminate|].
      injection Hs as ->. cbn in Heq.
      rewrite bool_decide_eq_true_2 in Heq by reflexivity. discriminate.
  - exists "success". split; [destruct (assoc "paymentID" payload); reflexivity|].
    split; [auto|]. split; auto.
Qed.

Lemma bkash_webhook_normalization_witness :
  exists status,
    BkashProvider.handle_webhook Sample.env (JDict [("paymentID", JStr Sample.txn)])
      = Ok (JDict [("success", JBool true);
                   ("transaction_id", JStr Sample.txn);
                   ("status", JStr status);
                   ("raw_response", JDict [("paymentID", JStr Sample.txn)])]) /\
    (status = "success" \/ status = "failed") /\
    (status = "success" <->
     assoc "status" [("paymentID", JStr Sample.txn)] = None \/
     assoc "status" [("paymentID", JStr Sample.txn)] = Some (JStr "success")).
Proof.
  exact (bkash_webhook_normalization Sample.env [("paymentID", JStr Sample.txn)] eq_refl).
Defined.

(** X25. A failed Stripe event.  For a "payment_intent.payment_failed"
    event whose [data.object] carries the id of a stored payment (and
    whose [metadata], if there is one, is a dictionary), the Stripe
    webhook is accepted, the payment is stored FAILED with the whole event
    as its [raw_response], and no order and no product changes. *)
Theorem stripe_payment_failed_event
    (env : Environment) (db : DB) (payload object : list (string * json))
    (envelope : list (string * json)) (txn : string) (payment : Payment.t) :
  assoc "type" payload = Some (JStr "payment_intent.payment_failed") ->
  assoc "data" payload = Some (JDict envelope) ->
  assoc "object" envelope = Some (JDict object) ->
  assoc "id" object = Some (JStr txn) ->
  (assoc "metadata" object = None \/ exists m, assoc "metadata" object = Some (JDict m)) ->
  txn <> "" ->
  payment_by_transaction_id db (JStr txn) = Some payment ->
  payment_by_id db (Payment.id payment) = Some payment ->
  let db' :=
    persisted (PaymentService.handle_webhook (PaymentFactory.registered env) "stripe"
                 (JDict payload)) db in
  (exists result,
     (run_request (PaymentService.handle_webhook (PaymentFactory.registered env)
                     "stripe" (JDict payload)) db).1 = Ok (JDict result)) /\
  payment_by_id db' (Payment.id payment)
    = Some (Payment.mk (Payment.id payment) (Payment.order_id payment)
              (Payment.provider payment) (Payment.transaction_id payment)
              PaymentStatus.FAILED (JDict payload)) /\
  orders db' = orders db /\
  products db' = products db.
Proof.
  intros Hty Hdata Hobj Hid Hmeta Hne Hfound Hstored db'.
  assert (Hp : PaymentFactory.registered env !! "stripe"
               = Some (StripeProvider.instance env)).
  { unfold PaymentFactory.registered, PaymentFactory.register_provider.
    rewrite lookup_insert_ne by discriminate. apply lookup_insert_eq. }
  assert (Hres : exists order_id,
    PaymentProvider.handle_webhook (StripeProvider.instance env) (JDict payload)
    = Ok (JDict [("success", JBool true);
                 ("event_type", JStr "payment_intent.payment_failed");
                 ("transaction_id", JStr txn);
                 ("status", JStr "failed");
                 ("order_id", order_id);
                 ("raw_response", JDict payload)])).
  { cbn [PaymentProvider.handle_webhook StripeProvider.instance].
    unfold StripeProvider.handle_webhook, StripeProvider.handle_webhook_try.
    unfold mbind, result_bind. cbn [py_get py_get_default].
    rewrite Hty, Hdata. cbn [py_get py_get_default]. rewrite Hobj.
    cbn [py_get py_get_default]. rewrite Hid. cbn [eq_str].
    rewrite bool_decide_eq_false_2 by discriminate.
    rewrite bool_decide_eq_true_2 by reflexivity.
    destruct Hmeta as [-> | [m ->]]; cbn [py_get_default]; eexists; reflexivity. }
  destruct Hres as [order_id Hres].
  assert (Htruthy : truthy (JStr txn) = true).
  { cbn. rewrite bool_decide_eq_false_2 by exact Hne. reflexivity. }
  pose proof (webhook_failed_run (PaymentFactory.registered env) "stripe" (JDict payload)
                (StripeProvider.instance env) _ Hp Hres eq_refl Htruthy db payment
                Hfound eq_refl eq_refl) as Hrun.
  unfold db', persisted. rewrite Hrun. cbn [fst snd].
  split; [eexists; reflexivity|]. split; [|split; reflexivity].
  exact (update_payment_by_id db payment
           (Payment.mk (Payment.id payment) (Payment.order_id payment)
              (Payment.provider payment) (Payment.transaction_id payment)
              PaymentStatus.FAILED (JDict payload))
           Hstored eq_refl).
Qed.

Lemma stripe_payment_failed_event_witness :
  payment_by_id
    (persisted (PaymentService.handle_webhook (PaymentFactory.registered Sample.env)
                  "stripe" (JDict Sample.stripe_failed)) Sample.paying_stripe) 1
  = Some (Payment.mk 1 1 PaymentProviderName.STRIPE "pi_1" PaymentStatus.FAILED
            (JDict Sample.stripe_failed)).
Proof.
  refine (proj1 (proj2 (stripe_payment_failed_event Sample.env Sample.paying_stripe
            Sample.stripe_failed [("id", JStr "pi_1")]
            [("object", JDict [("id", JStr "pi_1")])] "pi_1"
            (Payment.mk 1 1 PaymentProviderName.STRIPE "pi_1" PaymentStatus.PENDING
               (PaymentIntent_json
                  (mkPaymentIntent "pi_1" "secret" "requires_payment_method" 3500 "usd")))
            _ _ _ _ _ _ _ _)));
    try (vm_compute; reflexivity).
  - left. reflexivity.
  - discriminate.
Defined.

(** X26. Stripe's refusal reaches the caller.  When Stripe refuses to
    create the intent, [create_payment] with provider "stripe" for a
    PENDING order of the caller fails with 400 whose detail is the text
    of Stripe's error, and no payment is stored. *)
Theorem stripe_create_error_surfaces
    (env : Environment) (db : DB) (order_id user_id : Z)
    (metadata : list (string * json)) (order : Order.t) (text : string) :
  orders db !! order_id = Some order ->
  Order.user_id order = user_id ->
  Order.status order = OrderStatus.PENDING ->
  PaymentIntent_create env (int_amount_100 env (Order.total_amount order))
    (JDict (dict_update [("order_id", JInt order_id)] metadata)) = inl text ->
  run_request (PaymentService.create_payment (PaymentFactory.registered env)
                 order_id "stripe" user_id (JDict metadata)) db
    = (Raise (HTTPException HTTP_400_BAD_REQUEST (JStr text)), db).
Proof.
  intros Ho Hu Hst Hrefused.
  unfold run_request, PaymentService.create_payment.
  unfold mbind at 1. unfold M_bind at 1.
  assert (Hget : OrderService.get_order_by_id order_id (Some user_id)
                   (mkSession db db) = (Ok order, mkSession db db)).
  { rewrite get_order_by_id_run. cbn [working]. rewrite Ho.
    destruct (truthy_id (Some user_id)); [|reflexivity].
    unfold OrderService.filter_user_id. cbn.
    rewrite bool_decide_eq_true_2 by exact Hu. reflexivity. }
  rewrite Hget. rewrite bool_decide_eq_true_2 by exact Hst. cbn [negb].
  unfold mbind at 1. unfold M_bind at 1.
  rewrite get_provider_or_400_run.
  replace (PaymentFactory.registered env !! "stripe")
    with (Some (StripeProvider.instance env))
    by (symmetry; unfold PaymentFactory.registered, PaymentFactory.register_provider;
        rewrite lookup_insert_ne by discriminate; apply lookup_insert_eq).
  run_M. cbn [PaymentProvider.create_payment StripeProvider.instance].
  unfold StripeProvider.create_payment, StripeProvider.metadata_or_empty.
  unfold mbind, result_bind.
  destruct metadata as [|kv rest]; cbn [truthy]; rewrite Hrefused; reflexivity.
Qed.

Lemma stripe_create_error_surfaces_witness :
  run_request (PaymentService.create_payment
                 (PaymentFactory.registered Sample.env_refusing) 1 "stripe" 7
                 (JDict [("user_email", JStr "a@b.c")])) Sample.ordered
  = (Raise (HTTPException HTTP_400_BAD_REQUEST (JStr "Your card was declined.")),
     Sample.ordered).
Proof.
  refine (stripe_create_error_surfaces Sample.env_refusing Sample.ordered 1 7
            [("user_email", JStr "a@b.c")] (Order.mk 7 3500 OrderStatus.PENDING)
            "Your card was declined." _ _ _ _);
    vm_compute; reflexivity.
Defined.

(** ** Paging *)

(** X27. The page count of the order list.  For a page size of at
    least 1, the reported number of pages is the least number of pages
    that holds all orders: [total] orders fit on [n] pages exactly when
    [total_pages] is at most [n]. *)
Theorem total_pages_least (total page_size n : Z) :
  0 < page_size ->
  total <= n * page_size <-> OrdersEndpoint.total_pages total page_size <= n.
Proof.
  intros Hps. unfold OrdersEndpoint.total_pages.
  pose proof (Z.div_mod (total + page_size - 1) page_size ltac:(lia)) as Hdm.
  pose proof (Z.mod_pos_bound (total + page_size - 1) page_size Hps) as Hmod.
  split; intros H; nia.
Qed.

Lemma total_pages_least_witness :
  (41 <= 3 * 20 <-> OrdersEndpoint.total_pages 41 20 <= 3) /\
  OrdersEndpoint.total_pages 41 20 = 3 /\
  OrdersEndpoint.total_pages 0 20 = 0.
Proof.
  split; [|split; reflexivity].
  apply total_pages_least. lia.
Defined.
